(** * A shallow embedding of [bot.py]

    The chat assistant of this repository keeps three SQLite tables
    (users, queries, presets), renders a small report from [data/demo.csv],
    and forwards questions and news searches to two HTTP services.

    Python text ([str]) is represented by its UTF-8 bytes (Rocq [string]).
    The separators and the characters to escape are ASCII, and no byte of
    a multi-byte UTF-8 sequence is ASCII, so splitting, joining and
    escaping agree with their code-point versions; whitespace is matched
    through the UTF-8 bytes of each whitespace character.  Results of
    calls that may raise are values of [result]. *)

From stdpp Require Import gmap strings list fin_maps.
From Stdlib Require Import ZArith QArith String Ascii Bool Lia DecimalString.

Open Scope string_scope.
Open Scope list_scope.
Open Scope Z_scope.

#[local] Set Warnings "-clear-no-such-hyp".

(** ** Exceptions and results *)

Inductive exn :=
| UnicodeDecodeError
| RuntimeError (msg : string)
| AttributeError
| TypeError
| ValueError
| HTTPError (status : Z)
| RequestException
| OperationalError
| KeyError
| IndexError
| OtherException.

Inductive result (A : Type) :=
| Return (a : A)
| Raise (e : exn).
Arguments Return {A} a.
Arguments Raise {A} e.

(** Sequencing stops at the first exception; stdpp's [x ← r; k] notation
    is used for it. *)
#[global] Instance result_ret : MRet result := fun A a => Return a.
#[global] Instance result_bind : MBind result := fun A B k r =>
  match r with
  | Return a => k a
  | Raise e => Raise e
  end.

(** [try: r except Exception: h] *)
Definition except_Exception {A} (r : result A) (h : exn -> result A) : result A :=
  match r with
  | Return a => Return a
  | Raise e => h e
  end.

(** ** Text helpers *)

Definition nl : string := String "010" EmptyString.
Definition dquote : ascii := "034"%char.
Definition squote : ascii := "039"%char.

(** [sep.join(parts)] *)
Definition join (sep : string) (parts : list string) : string :=
  String.concat sep parts.

(** [s.split(c)] for a one-character separator: never returns an empty
    list, and keeps empty fields. *)
Fixpoint split_on (c : ascii) (s : string) : list string :=
  match s with
  | EmptyString => [EmptyString]
  | String a r =>
      if Ascii.eqb a c then EmptyString :: split_on c r
      else match split_on c r with
           | h :: t => String a h :: t
           | [] => [String a EmptyString]
           end
  end.

(** [s.replace(c, rep)] for a one-character pattern. *)
Fixpoint replace_char (c : ascii) (rep : string) (s : string) : string :=
  match s with
  | EmptyString => EmptyString
  | String a r =>
      if Ascii.eqb a c then rep +:+ replace_char c rep r
      else String a (replace_char c rep r)
  end.

(** [html.escape(s)] with its default [quote=True]: five replacements in
    the order of the standard library, the ampersand first. *)
Definition escape (s : string) : string :=
  let s := replace_char "&" "&amp;" s in
  let s := replace_char "<" "&lt;" s in
  let s := replace_char ">" "&gt;" s in
  let s := replace_char dquote "&quot;" s in
  replace_char squote "&#x27;" s.

(** [str(n)] for an [int]. *)
Definition str_int (z : Z) : string := NilZero.string_of_int (Z.to_int z).

(** Digits grouped in threes from the right, most significant first;
    [acc] is the text already produced to the right, [k] the number of
    digits since the last comma. *)
Fixpoint group3 (rev_digits : list ascii) (k : nat) (acc : string) : string :=
  match rev_digits with
  | [] => acc
  | d :: r =>
      match k with
      | 3%nat => group3 r 1 (String d (String "," acc))
      | _ => group3 r (S k) (String d acc)
      end
  end.

(** [f"{n:,}"] for an [int]. *)
Definition format_thousands (z : Z) : string :=
  let digits := list_ascii_of_string (str_int (Z.abs z)) in
  let body := group3 (rev digits) 0 EmptyString in
  if z <? 0 then String "-" body else body.

(** ** The tabular dataset (pandas) *)

(** A cell of a frame.  Finite floats are rationals; NaN is the missing
    value; infinities are not represented. *)
Inductive cell :=
| CNaN
| CInt (z : Z)
| CFloat (q : Q)
| CBool (b : bool)
| CStr (s : string).

Record DataFrame := {
  columns : list string;
  rows : list (list cell)
}.

(** [pd.DataFrame()] *)
Definition empty_frame : DataFrame := {| columns := []; rows := [] |}.

(** [df.empty]: some axis has length zero. *)
Definition df_empty (df : DataFrame) : bool :=
  match columns df, rows df with
  | [], _ => true
  | _, [] => true
  | _, _ => false
  end.

(** [name in df.columns] *)
Definition has_column (df : DataFrame) (name : string) : bool :=
  existsb (String.eqb name) (columns df).

Fixpoint index_of (name : string) (l : list string) : option nat :=
  match l with
  | [] => None
  | h :: t => if String.eqb name h then Some 0%nat
              else option_map S (index_of name t)
  end.

(** [df[name]], used only after [name in df.columns]. *)
Definition column (df : DataFrame) (name : string) : list cell :=
  match index_of name (columns df) with
  | Some i => map (fun r => nth i r CNaN) (rows df)
  | None => []
  end.

Definition is_nan (c : cell) : bool :=
  match c with CNaN => true | _ => false end.

(** [series.dropna()] *)
Definition dropna (s : list cell) : list cell :=
  List.filter (fun c => negb (is_nan c)) s.

Definition cell_eqb (a b : cell) : bool :=
  match a, b with
  | CNaN, CNaN => true
  | CInt x, CInt y => x =? y
  | CFloat x, CFloat y => Qeq_bool x y
  | CBool x, CBool y => Bool.eqb x y
  | CStr x, CStr y => String.eqb x y
  | _, _ => false
  end.

(** *** value_counts *)

Section ValueCounts.
Context {K : Type} (eqb : K -> K -> bool).

(** Tally of one more occurrence of [k]; keys stay in order of first
    appearance. *)
Fixpoint tally (k : K) (acc : list (K * nat)) : list (K * nat) :=
  match acc with
  | [] => [(k, 1%nat)]
  | (k', n) :: t => if eqb k k' then (k', S n) :: t
                    else (k', n) :: tally k t
  end.

Definition tally_all (l : list K) : list (K * nat) :=
  fold_left (fun acc k => tally k acc) l [].

(** Insertion by decreasing count, in front of the entries that do not
    count more; [sort_desc] inserts from the right, which keeps equal
    counts in their original order. *)
Fixpoint insert_desc (x : K * nat) (l : list (K * nat)) : list (K * nat) :=
  match l with
  | [] => [x]
  | y :: t => if (snd y <=? snd x)%nat then x :: y :: t
              else y :: insert_desc x t
  end.

Definition sort_desc (l : list (K * nat)) : list (K * nat) :=
  fold_right insert_desc [] l.

(** [series.value_counts()]: the distinct values with their counts,
    most frequent first; equal counts keep the order of first
    appearance. *)
Definition value_counts (l : list K) : list (K * nat) :=
  sort_desc (tally_all l).
End ValueCounts.

(** [series.head(n)] *)
Definition head {A} (n : nat) (l : list A) : list A := firstn n l.

(** *** Numbers *)

(** [round(x)] on a float: to the nearest integer, ties to even. *)
Definition round_half_even (q : Q) : Z :=
  let n := Qnum q in
  let d := Z.pos (Qden q) in
  let fl := n / d in
  let r := n mod d in
  match 2 * r ?= d with
  | Lt => fl
  | Gt => fl + 1
  | Eq => if Z.even fl then fl else fl + 1
  end.

(** [series.mean()]: the mean of the cells that are not NaN, or NaN
    ([None]) when there is none. *)
Definition mean (s : list (option Q)) : option Q :=
  let present : list Q := omap id s in
  match present with
  | [] => None
  | _ => Some (fold_right Qplus 0%Q present / inject_Z (Z.of_nat (List.length present)))%Q
  end.

(** ** The dataset file and its loading *)

(** What [pd.read_csv(CSV_PATH, encoding=...)] does: it returns a frame or
    raises. *)
Inductive encoding := Utf8 | Cp1251.

(** Parsing and decoding belong to pandas and the codecs, so a file at
    [CSV_PATH] is represented by what [pd.read_csv] makes of it under
    each of the two encodings the program tries. *)
Record csv_file := {
  read_utf8 : result DataFrame;
  read_cp1251 : result DataFrame
}.

Definition pd_read_csv (f : csv_file) (enc : encoding) : result DataFrame :=
  match enc with
  | Utf8 => read_utf8 f
  | Cp1251 => read_cp1251 f
  end.

(** The rows [ensure_demo_csv] writes, header first. *)
Definition sample : list (list cell) :=
  [ [CStr "title"; CStr "city"; CStr "salary"; CStr "skills"; CStr "date"];
    [CStr "Python developer"; CStr "Москва"; CInt 180000;
     CStr "Django;SQL;Docker"; CStr "2025-09-10"];
    [CStr "Data analyst"; CStr "Санкт-Петербург"; CInt 160000;
     CStr "SQL;Tableau;Python"; CStr "2025-09-12"];
    [CStr "SMM manager"; CStr "Москва"; CInt 120000;
     CStr "Content;UGC;Short video"; CStr "2025-09-14"] ].

Definition header_name (c : cell) : string :=
  match c with
  | CStr s => s
  | _ => EmptyString
  end.

(** The frame pandas reads back from rows written by [csv.writer]: the
    first row names the columns, the others are the data.  (The sample
    holds nothing that the writer quotes or the reader converts.) *)
Definition frame_of_rows (table : list (list cell)) : DataFrame :=
  match table with
  | [] => empty_frame
  | h :: data => {| columns := map header_name h; rows := data |}
  end.

Section Externals.
(** Library behaviour the program relies on but that no claim
    inspects: what the legacy codec makes of the sample's UTF-8 bytes,
    [float(s)] on text ([None]: [ValueError]) and [str(x)] on a
    float. *)
Variable sample_as_cp1251 : result DataFrame.
Variable float_of_text : string -> option Q.
Variable str_float : Q -> string.

Definition demo_csv : csv_file :=
  {| read_utf8 := Return (frame_of_rows sample);
     read_cp1251 := sample_as_cp1251 |}.

(** [ensure_demo_csv]: the disk holds the file or not; an absent file
    is created from [sample].  The result is the file on disk
    afterwards. *)
Definition ensure_demo_csv (disk : option csv_file) : csv_file :=
  match disk with
  | Some f => f
  | None => demo_csv
  end.

(** [load_csv_safe].  The retry runs inside the [except
    UnicodeDecodeError] handler, so the [except Exception] clause of
    the same [try] does not cover it. *)
Definition load_csv_safe (disk : option csv_file)
  : option csv_file * result DataFrame :=
  let f := ensure_demo_csv disk in
  (Some f,
   match pd_read_csv f Utf8 with
   | Return df => Return df
   | Raise UnicodeDecodeError => pd_read_csv f Cp1251
   | Raise _ => Return empty_frame
   end).

(** [str(x)] for a cell. *)
Definition str_cell (c : cell) : string :=
  match c with
  | CNaN => "nan"
  | CInt z => str_int z
  | CFloat q => str_float q
  | CBool true => "True"
  | CBool false => "False"
  | CStr s => s
  end.

(** [series.astype(float)]; NaN is [None]. *)
Definition float_of_cell (c : cell) : result (option Q) :=
  match c with
  | CNaN => Return None
  | CInt z => Return (Some (inject_Z z))
  | CFloat q => Return (Some q)
  | CBool b => Return (Some (if b then 1%Q else 0%Q))
  | CStr s => match float_of_text s with
              | Some q => Return (Some q)
              | None => Raise ValueError
              end
  end.

Fixpoint astype_float (s : list cell) : result (list (option Q)) :=
  match s with
  | [] => Return []
  | c :: r =>
      x ← float_of_cell c;
      xs ← astype_float r;
      Return (x :: xs)
  end.

(** The index of [df[name].value_counts().head(n)], as text. *)
Definition top_values (df : DataFrame) (name : string) (n : nat) : list string :=
  map (fun kv => str_cell (fst kv))
      (head n (value_counts cell_eqb (dropna (column df name)))).

(** [parts.append(x)] *)
Definition append (parts : list string) (x : string) : list string :=
  parts ++ [x].

(** The [try] body of [generate_report_from_demo]. *)
Definition report_body (df : DataFrame) : result string :=
  avg_salary ←
    (if has_column df "salary"
     then m ← astype_float (column df "salary"); Return (mean m)
     else Return None);
  let top_cities :=
    if has_column df "city" then Some (top_values df "city" 5) else None in
  let top_titles :=
    if has_column df "title" then Some (top_values df "title" 5) else None in
  let skills_series :=
    if has_column df "skills" then
      let df_sk := map str_cell (dropna (column df "skills")) in
      let skills := split_on ";" (join ";" df_sk) in
      Some (map fst (head 10 (value_counts String.eqb skills)))
    else None in
  let parts := ["<b>📊 Аналитический отчёт (demo.csv)</b>"] in
  let parts :=
    match avg_salary with
    | Some avg =>
        append parts ("💰 Средняя зарплата: <b>"
                      +:+ format_thousands (round_half_even avg) +:+ " ₽</b>")
    | None => parts
    end in
  let parts :=
    match top_cities with
    | Some (c :: cs) =>
        append parts ("🏙️ Топ городов: " +:+ join ", " (map escape (c :: cs)))
    | _ => parts
    end in
  let parts :=
    match top_titles with
    | Some (t :: ts) =>
        append parts ("💼 Топ вакансий: " +:+ join ", " (map escape (t :: ts)))
    | _ => parts
    end in
  let parts :=
    match skills_series with
    | Some (s :: ss) =>
        append parts ("🔥 Частые навыки: " +:+ join ", " (map escape (s :: ss)))
    | _ => parts
    end in
  let parts :=
    append parts (nl +:+ "⚠️ Это демонстрационный отчёт. Ответ составлен ботом-ассистентом.") in
  Return (join nl parts).

(** [avg_salary] as the [try] body computes it. *)
Definition avg_salary (df : DataFrame) : result (option Q) :=
  if has_column df "salary"
  then m ← astype_float (column df "salary"); Return (mean m)
  else Return None.



Definition data_unavailable : string :=
  "⚠️ Данные отсутствуют или CSV некорректен.".
Definition report_failed : string :=
  "⚠️ Ошибка формирования отчёта.".

(** [generate_report_from_demo]: the load is outside the [try]. *)
Definition generate_report_from_demo (disk : option csv_file)
  : option csv_file * result string :=
  let '(disk, loaded) := load_csv_safe disk in
  (disk,
   df ← loaded;
   if df_empty df then Return data_unavailable
   else except_Exception (report_body df) (fun _ => Return report_failed)).
End Externals.

(** ** The database schema (SQLite) *)

Inductive sql_value :=
| Null
| Integer (z : Z)
| Text (s : string).

#[global] Instance sql_value_eq_dec : EqDecision sql_value.
Proof. solve_decision. Defined.

(** A table: its column names in declaration order and its rows, one
    value per column.  A database is the map from the names of its
    tables to the tables; views, indexes and triggers are left out. *)
Record table := {
  cols : list string;
  data : list (list sql_value)
}.

(** SQLite compares the names of tables and columns without regard to
    the case of the ASCII letters.  The [name=?] of [table_exists] and
    Python's [column in cols] compare exactly. *)
Definition lower_char (c : ascii) : ascii :=
  let n := nat_of_ascii c in
  if ((65 <=? n) && (n <=? 90))%nat then ascii_of_nat (n + 32) else c.

Fixpoint lower (s : string) : string :=
  match s with
  | EmptyString => EmptyString
  | String c r => String (lower_char c) (lower r)
  end.

Definition same_name (a b : string) : bool := String.eqb (lower a) (lower b).

(** The table a statement means by [name]: the one of that very name, or
    else one whose name differs from it in case only (SQLite never holds
    two such tables). *)
Definition find_table (conn : gmap string table) (name : string)
    : option (string * table) :=
  match conn !! name with
  | Some t => Some (name, t)
  | None => List.find (λ kv, same_name kv.1 name) (map_to_list conn)
  end.

(** [SELECT name FROM sqlite_master WHERE type='table' AND name=?] *)
Definition table_exists (conn : gmap string table) (name : string) : bool :=
  bool_decide (is_Some (conn !! name)).

(** [PRAGMA table_info(table)] lists the columns of the table it finds,
    none for a missing table; [column in cols] then compares exactly. *)
Definition column_exists (conn : gmap string table) (tbl column : string) : bool :=
  match find_table conn tbl with
  | Some (_, t) => bool_decide (column ∈ cols t)
  | None => false
  end.

(** The bookkeeping table SQLite creates with the first table that has
    an AUTOINCREMENT key.  It gets its rows with the first insertions. *)
Definition sqlite_sequence : table := {| cols := ["name"; "seq"]; data := [] |}.

Definition with_sequence (conn : gmap string table) : gmap string table :=
  match conn !! "sqlite_sequence" with
  | Some _ => conn
  | None => <["sqlite_sequence" := sqlite_sequence]> conn
  end.

(** [CREATE TABLE name(columns)] fails when the name is taken, in
    whatever case. *)
Definition create_table (name : string) (columns : list string)
    (autoincrement : bool) (conn : gmap string table)
    : result (gmap string table) :=
  match find_table conn name with
  | Some _ => Raise OperationalError
  | None =>
      Return (<[name := {| cols := columns; data := [] |}]>
                (if autoincrement then with_sequence conn else conn))
  end.

Definition with_column (column : string) (t : table) : table :=
  {| cols := cols t ++ [column]; data := (λ r, r ++ [Null]) <$> data t |}.

(** [ALTER TABLE tbl ADD COLUMN column TEXT] appends the column, NULL in
    every existing row; it fails on a missing table or a column name
    that is taken, in whatever case. *)
Definition add_column (tbl column : string)
    (conn : gmap string table) : result (gmap string table) :=
  match find_table conn tbl with
  | None => Raise OperationalError
  | Some (name, t) =>
      if existsb (same_name column) (cols t) then Raise OperationalError
      else Return (<[name := with_column column t]> conn)
  end.

(** [if not column_exists(conn, tbl, column): ALTER TABLE ...] *)
Definition ensure_column (tbl column : string)
    (conn : gmap string table) : result (gmap string table) :=
  if negb (column_exists conn tbl column) then add_column tbl column conn
  else Return conn.

(** [for col in columns: ...] *)
Fixpoint ensure_columns (tbl : string) (columns : list string)
    (conn : gmap string table) : result (gmap string table) :=
  match columns with
  | [] => Return conn
  | c :: r => conn ← ensure_column tbl c conn; ensure_columns tbl r conn
  end.

Definition ensure_tables_and_columns (conn : gmap string table)
    : result (gmap string table) :=
  (* users *)
  conn ←
    (if negb (table_exists conn "users") then
       create_table "users" ["user_id"; "username"; "fullname"; "reg_date"]
                    false conn
     else
       conn ← ensure_column "users" "fullname" conn;
       ensure_column "users" "reg_date" conn);
  (* queries *)
  conn ←
    (if negb (table_exists conn "queries") then
       create_table "queries"
         ["id"; "user_id"; "text"; "source"; "params"; "ts"] true conn
     else
       ensure_columns "queries" ["source"; "params"; "ts"] conn);
  (* presets *)
  conn ←
    (if negb (table_exists conn "presets") then
       create_table "presets"
         ["id"; "user_id"; "name"; "content"; "created_at"] true conn
     else
       conn ← ensure_column "presets" "content" conn;
       ensure_column "presets" "created_at" conn);
  Return conn.

(** The tables of the program. *)
Definition own_tables : list string := ["users"; "queries"; "presets"].

(** The tables created with an AUTOINCREMENT key. *)
Definition autoincrement (tbl : string) : bool :=
  String.eqb tbl "queries" || String.eqb tbl "presets".

(** The column set each table is created with. *)
Definition target_columns (tbl : string) : list string :=
  if String.eqb tbl "users" then ["user_id"; "username"; "fullname"; "reg_date"]
  else if String.eqb tbl "queries" then
    ["id"; "user_id"; "text"; "source"; "params"; "ts"]
  else if String.eqb tbl "presets" then
    ["id"; "user_id"; "name"; "content"; "created_at"]
  else [].

(** The columns the [else] branches look for in an existing table. *)
Definition migrated_columns (tbl : string) : list string :=
  if String.eqb tbl "users" then ["fullname"; "reg_date"]
  else if String.eqb tbl "queries" then ["source"; "params"; "ts"]
  else if String.eqb tbl "presets" then ["content"; "created_at"]
  else [].

(** What the checks of an existing table amount to: each wanted column
    that the table lacks is appended, in the order of the checks. *)
Definition add_missing (wanted : list string) (t : table) : table :=
  fold_left (fun t c => if bool_decide (c ∈ cols t) then t else with_column c t)
            wanted t.

(** The table [name] after [ensure_tables_and_columns]. *)
Definition ensured_table (name : string) (conn : gmap string table) : table :=
  match conn !! name with
  | None => {| cols := target_columns name; data := [] |}
  | Some t => add_missing (migrated_columns name) t
  end.

(** A wanted column that the table lacks under that very name and holds
    under a name that differs in case: adding it fails. *)
Definition clashes (wanted : list string) (t : table) : bool :=
  existsb (λ c, negb (bool_decide (c ∈ cols t)) && existsb (same_name c) (cols t))
          wanted.

(** The step for one table goes through: the table is there and none of
    the columns looked for clashes, or it is missing and its name is
    free. *)
Definition step_ok (name : string) (conn : gmap string table) : bool :=
  match conn !! name with
  | Some t => negb (clashes (migrated_columns name) t)
  | None => match find_table conn name with
            | Some _ => false
            | None => true
            end
  end.

(** A database in which the names the routine uses clash with none that
    differs in case only. *)
Definition regular (conn : gmap string table) : bool :=
  forallb (λ name, step_ok name conn) own_tables.

(** The database after the step for one table, and after the three. *)
Definition ensured_step (name : string) (conn : gmap string table)
    : gmap string table :=
  <[name := ensured_table name conn]>
    (match conn !! name with
     | Some _ => conn
     | None => if autoincrement name then with_sequence conn else conn
     end).

Definition ensured (conn : gmap string table) : gmap string table :=
  ensured_step "presets" (ensured_step "queries" (ensured_step "users" conn)).

(** ** The rows of the three tables

    The persistence functions work on the tables in the layout
    [ensure_tables_and_columns] creates.  Rows are kept in insertion
    order; a key declared [INTEGER PRIMARY KEY] holds an integer, every
    other column NULL, an integer or text (the kinds of value the
    program stores). *)

Record user_row := {
  user_id : Z;
  username : sql_value;
  fullname : sql_value;
  reg_date : sql_value
}.

Record query_row := {
  q_id : Z;
  q_user_id : sql_value;
  q_text : sql_value;
  q_source : sql_value;
  q_params : sql_value;
  q_ts : sql_value
}.

Record preset_row := {
  p_id : Z;
  p_user_id : sql_value;
  p_name : sql_value;
  p_content : sql_value;
  p_created_at : sql_value
}.

(** [seq_queries] and [seq_presets] are the [sqlite_sequence] entries of
    the two [AUTOINCREMENT] keys. *)
Record store := {
  users : list user_row;
  queries : list query_row;
  presets : list preset_row;
  seq_queries : Z;
  seq_presets : Z
}.

(** [column = ?] in a [WHERE] clause: NULL equals nothing, and a number
    never equals text. *)
Definition sql_eqb (a b : sql_value) : bool :=
  match a, b with
  | Integer x, Integer y => x =? y
  | Text x, Text y => String.eqb x y
  | _, _ => false
  end.

(** The key an [AUTOINCREMENT] column gives a new row: one more than the
    largest key the table holds or has ever handed out. *)
Definition next_id (seq : Z) (ids : list Z) : Z :=
  fold_right Z.max seq ids + 1.

(** How a Python [str] or [None] is bound to a statement parameter. *)
Definition sql_of_str (s : option string) : sql_value :=
  match s with
  | Some s => Text s
  | None => Null
  end.

(** The sender of a message ([message.from_user]). *)
Record tg_user := {
  uid : Z;
  tg_username : option string;
  first_name : option string;
  last_name : option string
}.

(** [filter(None, names)]: drops [None] and the empty string. *)
Definition filter_None (names : list (option string)) : list string :=
  omap (fun n => match n with
                 | Some EmptyString => None
                 | other => other
                 end) names.

(** [register_user]; [now] is the reading of [datetime_now()]. *)
Definition register_user (now : string) (user : tg_user) (s : store) : store :=
  if existsb (fun r => user_id r =? uid user) (users s) then s
  else
    let fullname := join " " (filter_None [first_name user; last_name user]) in
    {| users := users s ++ [ {| user_id := uid user;
                                username := sql_of_str (tg_username user);
                                fullname := Text fullname;
                                reg_date := Text now |} ];
       queries := queries s;
       presets := presets s;
       seq_queries := seq_queries s;
       seq_presets := seq_presets s |}.

(** [str(params or {})]: [params] is [None] for a missing or empty
    mapping, and otherwise carries its [str()]. *)
Definition str_params (params : option string) : string :=
  match params with
  | Some p => p
  | None => "{}"
  end.

(** [log_query]: returns the new state and [cur.lastrowid]. *)
Definition log_query (now : string) (user_id : Z) (text source : string)
    (params : option string) (s : store) : store * Z :=
  let qid := next_id (seq_queries s) (map q_id (queries s)) in
  ({| users := users s;
      queries := queries s ++ [ {| q_id := qid;
                                   q_user_id := Integer user_id;
                                   q_text := Text text;
                                   q_source := Text source;
                                   q_params := Text (str_params params);
                                   q_ts := Text now |} ];
      presets := presets s;
      seq_queries := qid;
      seq_presets := seq_presets s |}, qid).

(** [ORDER BY id DESC] *)
Fixpoint insert_by_id (r : query_row) (l : list query_row) : list query_row :=
  match l with
  | [] => [r]
  | y :: t => if q_id y <=? q_id r then r :: y :: t
              else y :: insert_by_id r t
  end.

Definition order_by_id_desc (l : list query_row) : list query_row :=
  fold_right insert_by_id [] l.

(** [LIMIT ?]: a negative bound means no bound. *)
Definition sql_limit {A} (limit : Z) (l : list A) : list A :=
  if limit <? 0 then l else firstn (Z.to_nat limit) l.

(** [list_history] *)
Definition list_history (user_id limit : Z) (s : store)
    : list (sql_value * sql_value) :=
  map (fun r => (q_text r, q_ts r))
      (sql_limit limit
         (order_by_id_desc
            (List.filter (fun r => sql_eqb (q_user_id r) (Integer user_id))
                         (queries s)))).

(** [add_preset_db] *)
Definition add_preset_db (now : string) (user_id : Z) (name content : string)
    (s : store) : store :=
  let pid := next_id (seq_presets s) (map p_id (presets s)) in
  {| users := users s;
     queries := queries s;
     presets := presets s ++ [ {| p_id := pid;
                                  p_user_id := Integer user_id;
                                  p_name := Text name;
                                  p_content := Text content;
                                  p_created_at := Text now |} ];
     seq_queries := seq_queries s;
     seq_presets := pid |}.

(** [WHERE user_id=? AND name=?] on a presets row. *)
Definition preset_matches (user_id : Z) (name : string) (r : preset_row) : bool :=
  sql_eqb (p_user_id r) (Integer user_id) && sql_eqb (p_name r) (Text name).

(** [list_presets_db] *)
Definition list_presets_db (user_id : Z) (s : store)
    : list (sql_value * sql_value) :=
  map (fun r => (p_name r, p_content r))
      (List.filter (fun r => sql_eqb (p_user_id r) (Integer user_id))
                   (presets s)).

(** [get_preset_db]: the content of the first matching row; [Null]
    stands for Python's [None], also when no row matches. *)
Definition get_preset_db (user_id : Z) (name : string) (s : store) : sql_value :=
  match List.filter (preset_matches user_id name) (presets s) with
  | row :: _ => p_content row
  | [] => Null
  end.

(** [delete_preset_db] *)
Definition delete_preset_db (user_id : Z) (name : string) (s : store) : store :=
  {| users := users s;
     queries := queries s;
     presets := List.filter (fun r => negb (preset_matches user_id name r))
                            (presets s);
     seq_queries := seq_queries s;
     seq_presets := seq_presets s |}.

(** ** Whitespace, [strip], [partition] and [split] *)

Definition byte_in (lo hi : nat) (c : ascii) : bool :=
  let n := nat_of_ascii c in (lo <=? n)%nat && (n <=? hi)%nat.

(** The number of bytes of the whitespace character ([str.isspace]) at
    the head of [s], 0 when [s] does not start with one: U+0009..000D,
    U+001C..0020, U+0085, U+00A0, U+1680, U+2000..200A, U+2028, U+2029,
    U+202F, U+205F and U+3000 in UTF-8. *)
Definition space_width (s : string) : nat :=
  match s with
  | String c r =>
      if byte_in 9 13 c || byte_in 28 32 c then 1%nat
      else match r with
      | String d r' =>
          if byte_in 194 194 c then
            if byte_in 133 133 d || byte_in 160 160 d then 2%nat else 0%nat
          else match r' with
          | String e _ =>
              if byte_in 225 225 c then
                if byte_in 154 154 d && byte_in 128 128 e then 3%nat else 0%nat
              else if byte_in 226 226 c then
                if byte_in 128 128 d
                   && (byte_in 128 138 e || byte_in 168 169 e || byte_in 175 175 e)
                then 3%nat
                else if byte_in 129 129 d && byte_in 159 159 e then 3%nat
                else 0%nat
              else if byte_in 227 227 c then
                if byte_in 128 128 d && byte_in 128 128 e then 3%nat else 0%nat
              else 0%nat
          | EmptyString => 0%nat
          end
      | EmptyString => 0%nat
      end
  | EmptyString => 0%nat
  end.

Fixpoint drop_bytes (n : nat) (s : string) : string :=
  match n, s with
  | S n', String _ r => drop_bytes n' r
  | _, _ => s
  end.

Fixpoint lstrip_fuel (fuel : nat) (s : string) : string :=
  match fuel with
  | O => s
  | S fuel' =>
      match space_width s with
      | O => s
      | k => lstrip_fuel fuel' (drop_bytes k s)
      end
  end.

(** [s.lstrip()] *)
Definition lstrip (s : string) : string := lstrip_fuel (String.length s) s.

(** [s.rstrip()]: cut where only whitespace follows. *)
Fixpoint rstrip (s : string) : string :=
  match s with
  | EmptyString => EmptyString
  | String c r =>
      match lstrip s with
      | EmptyString => EmptyString
      | _ => String c (rstrip r)
      end
  end.

(** [s.strip()] *)
Definition strip (s : string) : string := rstrip (lstrip s).

(** [s.partition(" ")[2]]: what follows the first space, empty when
    there is none. *)
Fixpoint after_first_space (s : string) : string :=
  match s with
  | EmptyString => EmptyString
  | String c r => if Ascii.eqb c " " then r else after_first_space r
  end.

(** The leading run of non-whitespace and the rest. *)
Fixpoint break_space (s : string) : string * string :=
  match s with
  | EmptyString => (EmptyString, EmptyString)
  | String c r =>
      match space_width s with
      | O => let '(w, rest) := break_space r in (String c w, rest)
      | _ => (EmptyString, s)
      end
  end.

(** [s.split(maxsplit=k)]: at most [k] splits at runs of whitespace; the
    last field then runs to the end of [s], trailing whitespace
    included. *)
Fixpoint split_ws (maxsplit : nat) (s : string) : list string :=
  match lstrip s with
  | EmptyString => []
  | s1 =>
      match maxsplit with
      | O => [s1]
      | S k => let '(w, rest) := break_space s1 in w :: split_ws k rest
      end
  end.

(** Whether a byte continues a multi-byte character. *)
Definition continuation (c : ascii) : bool := byte_in 128 191 c.

(** [s[:n]]: the first [n] characters. *)
Fixpoint take_chars (n : nat) (s : string) : string :=
  match s with
  | EmptyString => EmptyString
  | String c r =>
      if continuation c then String c (take_chars n r)
      else match n with
           | O => EmptyString
           | S n' => String c (take_chars n' r)
           end
  end.

(** ** JSON values and the HTTP services *)

#[local] Unset Elimination Schemes.
Inductive json :=
| JNull
| JBool (b : bool)
| JNum (q : Q)
| JStr (s : string)
| JArr (items : list json)
| JObj (fields : list (string * json)).
#[local] Set Elimination Schemes.

(** Python truthiness. *)
Definition truthy (j : json) : bool :=
  match j with
  | JNull => false
  | JBool b => b
  | JNum q => negb (Qnum q =? 0)
  | JStr s => negb (String.eqb s EmptyString)
  | JArr l => match l with [] => false | _ => true end
  | JObj l => match l with [] => false | _ => true end
  end.

Fixpoint assoc (k : string) (l : list (string * json)) : option json :=
  match l with
  | [] => None
  | (k', v) :: t => if String.eqb k k' then Some v else assoc k t
  end.

(** [j[key]]: only a mapping can be indexed by text. *)
Definition subscript (j : json) (key : string) : result json :=
  match j with
  | JObj l => match assoc key l with
              | Some v => Return v
              | None => Raise KeyError
              end
  | _ => Raise TypeError
  end.

(** [j[0]]: the first item of a list or the first character of text
    (its first byte here: the program only indexes the result by a key,
    which fails on text whatever it holds). *)
Definition subscript0 (j : json) : result json :=
  match j with
  | JArr (x :: _) => Return x
  | JStr (String c _) => Return (JStr (String c EmptyString))
  | JArr [] | JStr EmptyString => Raise IndexError
  | JObj _ => Raise KeyError
  | _ => Raise TypeError
  end.

(** [j.get(key, default)]: only a mapping has [get]. *)
Definition get (j : json) (key : string) (default : json) : result json :=
  match j with
  | JObj l => Return (match assoc key l with Some v => v | None => default end)
  | _ => Raise AttributeError
  end.

(** [escape(x)] on a decoded value: anything but text has no [replace]. *)
Definition escape_value (j : json) : result string :=
  match j with
  | JStr s => Return (escape s)
  | _ => Raise AttributeError
  end.

Inductive http_request :=
| Post (url : string) (headers : list (string * string)) (payload : json)
       (timeout : Z)
| Get (url : string) (params : list (string * json)) (timeout : Z).

(** What [requests] gives back: a transport failure raised by the
    library, or a response with its status and its body ([None] when
    the body is not JSON). *)
Inductive http_reply :=
| Failed (e : exn)
| Response (status : Z) (body : option json).

(** [r.raise_for_status(); j = r.json()] *)
Definition checked_json (r : http_reply) : result json :=
  match r with
  | Failed e => Raise e
  | Response status body =>
      if (400 <=? status) && (status <? 600) then Raise (HTTPError status)
      else match body with
           | Some j => Return j
           | None => Raise ValueError
           end
  end.

(** [if not KEY]: unset or empty. *)
Definition configured (key : option string) : bool :=
  match key with
  | Some (String _ _) => true
  | _ => false
  end.

Definition key_text (key : option string) : string :=
  match key with
  | Some k => k
  | None => "None"
  end.

(** ** The adapters and the handlers *)

(** [bot.send_message] and [bot.reply_to] calls, as issued. *)
Record outgoing := {
  to_chat : Z;
  body : string;
  parse_mode : option string;
  reply_to_message_id : option Z;
  reply_markup : bool
}.

Record message := {
  from_user : tg_user;
  chat_id : Z;
  message_id : Z;
  msg_text : string
}.

(** What a handler reads and changes: the tables, the dataset file, the
    messages sent, the HTTP requests issued and the number of clock
    readings taken so far. *)
Record world := {
  db : store;
  disk : option csv_file;
  outbox : list outgoing;
  wire : list http_request;
  ticks : nat
}.

Definition set_db (w : world) (s : store) : world :=
  {| db := s; disk := disk w; outbox := outbox w; wire := wire w;
     ticks := ticks w |}.

Definition set_disk (w : world) (d : option csv_file) : world :=
  {| db := db w; disk := d; outbox := outbox w; wire := wire w;
     ticks := ticks w |}.

Definition tick (w : world) : world :=
  {| db := db w; disk := disk w; outbox := outbox w; wire := wire w;
     ticks := S (ticks w) |}.

Definition emit (w : world) (m : outgoing) : world :=
  {| db := db w; disk := disk w; outbox := outbox w ++ [m]; wire := wire w;
     ticks := ticks w |}.

Definition transmit (w : world) (r : http_request) : world :=
  {| db := db w; disk := disk w; outbox := outbox w; wire := wire w ++ [r];
     ticks := ticks w |}.

(** [bot.send_message(chat_id, text, parse_mode="HTML",
    reply_markup=main_keyboard())] *)
Definition send_html (w : world) (chat : Z) (text : string) : world :=
  emit w {| to_chat := chat; body := text; parse_mode := Some "HTML";
            reply_to_message_id := None; reply_markup := true |}.

(** [bot.reply_to(message, text)]: no parse mode. *)
Definition reply_to (w : world) (m : message) (text : string) : world :=
  emit w {| to_chat := chat_id m; body := text; parse_mode := None;
            reply_to_message_id := Some (message_id m);
            reply_markup := false |}.

(** [bot.reply_to(message, text, reply_markup=main_keyboard())] *)
Definition reply_to_kb (w : world) (m : message) (text : string) : world :=
  emit w {| to_chat := chat_id m; body := text; parse_mode := None;
            reply_to_message_id := Some (message_id m);
            reply_markup := true |}.

(** [bot.send_message(chat_id, text, reply_markup=main_keyboard())]: no
    parse mode. *)
Definition send_plain (w : world) (chat : Z) (text : string) : world :=
  emit w {| to_chat := chat; body := text; parse_mode := None;
            reply_to_message_id := None; reply_markup := true |}.

(** Python truthiness of a value read from a table. *)
Definition sql_truthy (v : sql_value) : bool :=
  match v with
  | Null => false
  | Integer z => negb (z =? 0)
  | Text s => negb (String.eqb s EmptyString)
  end.

(** [escape(v)] on a value read from a table: only text has
    [replace]. *)
Definition escape_sql (v : sql_value) : result string :=
  match v with
  | Text s => Return (escape s)
  | _ => Raise AttributeError
  end.

(** [v[:60]]: only text can be sliced. *)
Definition slice60 (v : sql_value) : result sql_value :=
  match v with
  | Text s => Return (Text (take_chars 60 s))
  | _ => Raise TypeError
  end.

(** [[f(r) for r in rows]]: stops at the first exception. *)
Fixpoint for_each {A B} (f : A -> result B) (rows : list A) : result (list B) :=
  match rows with
  | [] => Return []
  | r :: rest =>
      x ← f r;
      xs ← for_each f rest;
      Return (x :: xs)
  end.

(** [f"• {escape(r[0])} — {escape(r[1][:60])}..."] *)
Definition preset_line (r : sql_value * sql_value) : result string :=
  name ← escape_sql (fst r);
  short ← slice60 (snd r);
  content ← escape_sql short;
  Return ("• " +:+ name +:+ " — " +:+ content +:+ "...").

(** [f"• {escape(r[0])}  —  {escape(r[1])}"] *)
Definition history_line (r : sql_value * sql_value) : result string :=
  text ← escape_sql (fst r);
  ts ← escape_sql (snd r);
  Return ("• " +:+ text +:+ "  —  " +:+ ts).

Definition help_text : string :=
  "Команды:" +:+ nl
  +:+ "/start — показать приветствие" +:+ nl
  +:+ "/report — сформировать отчёт по data/demo.csv" +:+ nl
  +:+ "/preset_add имя текст — сохранить пресет" +:+ nl
  +:+ "/preset_list — список пресетов" +:+ nl
  +:+ "/preset_use имя — применить пресет" +:+ nl
  +:+ "/preset_del имя — удалить пресет" +:+ nl
  +:+ "/profile — показать профиль" +:+ nl
  +:+ "/history — история запросов" +:+ nl
  +:+ "/ask <вопрос> — задать вопрос нейросети (пиши после команды)" +:+ nl
  +:+ "/news <тема> — получить новости по теме (пиши после команды)" +:+ nl.

(** The handlers of the bot, in the order they are registered. *)
Inductive handler :=
| Start | Help | Report | PresetAdd | PresetList | PresetUse | PresetDel
| Profile | History | Ask | News | All.

Section Bot.
(** The environment: the two credentials read at start-up, the clock
    behind [datetime_now()], the HTTP services (the reply may depend
    on how many requests went out before), [str()] of a decoded JSON
    value, and the library behaviour the report needs. *)
Variable OPENROUTER_API_KEY : option string.
Variable NEWS_API_KEY : option string.
Variable clock : nat -> string.
Variable http : nat -> http_request -> http_reply.
Variable str_json : json -> string.
Variable sample_as_cp1251 : result DataFrame.
Variable float_of_text : string -> option Q.
Variable str_float : Q -> string.

(** [requests.post] / [requests.get] *)
Definition request (w : world) (r : http_request) : world * http_reply :=
  (transmit w r, http (List.length (wire w)) r).

(** [ask_neuron] *)
Definition ask_neuron (question : string) (w : world) : world * result json :=
  if negb (configured OPENROUTER_API_KEY) then
    (w, Raise (RuntimeError "OPENROUTER_API_KEY not set"))
  else
    let url := "https://api.openrouter.ai/v1/chat/completions" in
    let headers :=
      [("Authorization", "Bearer " +:+ key_text OPENROUTER_API_KEY)] in
    let payload :=
      JObj [("model", JStr "gpt-4.1-mini");
            ("messages", JArr [JObj [("role", JStr "user");
                                     ("content", JStr question)]]);
            ("max_tokens", JNum (inject_Z 800))] in
    let '(w, r) := request w (Post url headers payload 15) in
    (w,
     j ← checked_json r;
     except_Exception
       (a ← subscript j "choices";
        b ← subscript0 a;
        c ← subscript b "message";
        subscript c "content")
       (fun _ =>
          t ← get j "text" JNull;
          Return (if truthy t then t else JStr (str_json j)))).

(** [for a in articles]: the items of a list, the keys of a mapping,
    the characters of text; nothing else can be iterated. *)
Definition iterate (j : json) : result (list json) :=
  match j with
  | JArr l => Return l
  | JObj l => Return (map (fun kv => JStr (fst kv)) l)
  | JStr s => Return (map (fun c => JStr (String c EmptyString))
                          (list_ascii_of_string s))
  | _ => Raise TypeError
  end.

(** One turn of the loop in [get_news]. *)
Definition news_line (a : json) : result string :=
  t ← get a "title" JNull;
  title ← escape_value (if truthy t then t else JStr "Без заголовка");
  u ← get a "url" JNull;
  let urla := if truthy u then u else JStr EmptyString in
  eu ← escape_value urla;
  Return (title +:+ nl +:+ eu).

Fixpoint news_lines (articles : list json) : result (list string) :=
  match articles with
  | [] => Return []
  | a :: r =>
      line ← news_line a;
      rest ← news_lines r;
      Return (line :: rest)
  end.

(** [get_news] *)
Definition get_news (topic : string) (limit : Z) (w : world)
    : world * result (list string) :=
  if negb (configured NEWS_API_KEY) then
    (w, Raise (RuntimeError "NEWS_API_KEY not set"))
  else
    let url := "https://newsapi.org/v2/everything" in
    let params :=
      [("q", JStr topic); ("pageSize", JNum (inject_Z limit));
       ("language", JStr "ru"); ("apiKey", JStr (key_text NEWS_API_KEY))] in
    let '(w, r) := request w (Get url params 10) in
    (w,
     j ← checked_json r;
     articles ← get j "articles" (JArr []);
     items ← iterate articles;
     news_lines items).

(** *** Handlers *)

(** [str(e)]: the message of a [RuntimeError]; the text of a library
    exception is the library's. *)
Variable str_library_exn : exn -> string.

Definition str_exn (e : exn) : string :=
  match e with
  | RuntimeError msg => msg
  | other => str_library_exn other
  end.

Definition now (w : world) : string := clock (ticks w).

Definition do_log_query (w : world) (user_id : Z) (text source : string)
    : world :=
  tick (set_db w (fst (log_query (now w) user_id text source None (db w)))).

(** The clock advances at each call that may read it, whether or not
    the call does. *)
Definition do_register_user (w : world) (user : tg_user) : world :=
  tick (set_db w (register_user (now w) user (db w))).

(** [a or b] on optional text. *)
Definition or_else (a b : option string) : option string :=
  match a with
  | Some (String _ _) => a
  | _ => b
  end.

(** [escape(x)] where [x] may be [None]. *)
Definition escape_opt (x : option string) : result string :=
  match x with
  | Some s => Return (escape s)
  | None => Raise AttributeError
  end.

(** [handle_start] *)
Definition handle_start (m : message) (w : world) : world * result unit :=
  let w := do_register_user w (from_user m) in
  match escape_opt (or_else (first_name (from_user m))
                            (tg_username (from_user m))) with
  | Raise e => (w, Raise e)
  | Return name =>
      let msg :=
        "👋 Привет, <b>" +:+ name +:+ "</b>!" +:+ nl +:+ nl
        +:+ "Я — Помощник_Аналитика. Выбери действие:" +:+ nl +:+ nl
        +:+ "• Используй команду /ask  чтобы задать вопрос нейросети" +:+ nl
        +:+ "• Используй команду /news чтобы получить новости по теме"
        +:+ nl +:+ nl
        +:+ "Или выбери пункт в меню ниже." in
      (send_html w (chat_id m) msg, Return ())
  end.

(** [handle_report_cmd] *)
Definition handle_report_cmd (m : message) (w : world) : world * result unit :=
  let w := do_log_query w (uid (from_user m)) "/report" "command" in
  let '(d, report) :=
    generate_report_from_demo sample_as_cp1251 float_of_text str_float
      (disk w) in
  let w := set_disk w d in
  match report with
  | Raise e => (w, Raise e)
  | Return report => (send_html w (chat_id m) report, Return ())
  end.

(** [handle_preset_del]: unpacking anything but two fields raises
    [ValueError], which the handler answers with the usage line. *)
Definition handle_preset_del (m : message) (w : world) : world * result unit :=
  match split_ws 1 (msg_text m) with
  | [_; name] =>
      let w := set_db w (delete_preset_db (uid (from_user m)) name (db w)) in
      let w := do_log_query w (uid (from_user m)) ("/preset_del " +:+ name)
                            "command" in
      (reply_to w m ("🗑 Пресет '" +:+ escape name +:+ "' удалён."),
       Return ())
  | _ => (reply_to w m "Использование: /preset_del имя", Return ())
  end.

(** [handle_ask] *)
Definition handle_ask (m : message) (w : world) : world * result unit :=
  let text := strip (after_first_space (msg_text m)) in
  match text with
  | EmptyString =>
      (reply_to w m "Использование: /ask текст_вопроса", Return ())
  | _ =>
      let w := do_log_query w (uid (from_user m)) text "ask" in
      let '(w, answer) := ask_neuron text w in
      match answer with
      | Raise e =>
          (reply_to w m ("⚠️ Ошибка при обращении к нейросети: "
                         +:+ escape (str_exn e)), Return ())
      | Return answer =>
          match escape_value answer with
          | Raise e => (w, Raise e)
          | Return text => (send_html w (chat_id m) text, Return ())
          end
      end
  end.

(** [handle_news] *)
Definition handle_news (m : message) (w : world) : world * result unit :=
  let topic := strip (after_first_space (msg_text m)) in
  match topic with
  | EmptyString => (reply_to w m "Использование: /news тема", Return ())
  | _ =>
      let w := do_log_query w (uid (from_user m)) topic "news" in
      let '(w, articles) := get_news topic 5 w in
      match articles with
      | Raise e =>
          (reply_to w m ("⚠️ Ошибка при получении новостей: "
                         +:+ escape (str_exn e)), Return ())
      | Return [] =>
          (reply_to_kb w m "📰 Новостей не найдено или сервис недоступен.",
           Return ())
      | Return articles =>
          (send_html w (chat_id m) (join (nl +:+ nl) articles), Return ())
      end
  end.

(** [handle_help] *)
Definition handle_help (m : message) (w : world) : world * result unit :=
  (send_plain w (chat_id m) help_text, Return ()).

(** [handle_preset_add]; nothing in its [try] body raises here. *)
Definition handle_preset_add (m : message) (w : world) : world * result unit :=
  match split_ws 2 (msg_text m) with
  | [_; name; content] =>
      let w := tick (set_db w (add_preset_db (now w) (uid (from_user m))
                                             name content (db w))) in
      let w := do_log_query w (uid (from_user m)) ("/preset_add " +:+ name)
                            "command" in
      (reply_to w m ("✅ Пресет '" +:+ escape name +:+ "' сохранён."), Return ())
  | _ => (reply_to w m "Использование: /preset_add имя текст", Return ())
  end.

(** [handle_preset_list] *)
Definition handle_preset_list (m : message) (w : world) : world * result unit :=
  match list_presets_db (uid (from_user m)) (db w) with
  | [] => (reply_to w m "У тебя нет пресетов.", Return ())
  | rows =>
      match for_each preset_line rows with
      | Raise e => (w, Raise e)
      | Return lines =>
          (reply_to w m ("📚 Твои пресеты:" +:+ nl +:+ join nl lines), Return ())
      end
  end.

(** [handle_preset_use] *)
Definition handle_preset_use (m : message) (w : world) : world * result unit :=
  match split_ws 1 (msg_text m) with
  | [_; name] =>
      let content := get_preset_db (uid (from_user m)) name (db w) in
      if negb (sql_truthy content) then
        (reply_to w m ("Пресет '" +:+ escape name +:+ "' не найден."), Return ())
      else
        let w := do_log_query w (uid (from_user m)) ("/preset_use " +:+ name)
                              "command" in
        match escape_sql content with
        | Raise e => (w, Raise e)
        | Return text =>
            (reply_to w m ("📋 Пресет '" +:+ escape name +:+ "':" +:+ nl +:+ nl
                           +:+ text), Return ())
        end
  | _ => (reply_to w m "Использование: /preset_use имя", Return ())
  end.

(** [x or ''] on a value read from a table. *)
Definition or_empty (v : sql_value) : sql_value :=
  if sql_truthy v then v else Text EmptyString.

(** [handle_profile] *)
Definition handle_profile (m : message) (w : world) : world * result unit :=
  match List.filter (fun r => user_id r =? uid (from_user m)) (users (db w)) with
  | [] => (reply_to w m "Профиль не найден. Нажми /start.", Return ())
  | row :: _ =>
      match (name ← escape_sql (fullname row);
             user ← escape_sql (or_empty (username row));
             date ← escape_sql (or_empty (reg_date row));
             Return ("👤 Профиль:" +:+ nl +:+ "Имя: " +:+ name +:+ nl
                     +:+ "Username: @" +:+ user +:+ nl
                     +:+ "Регистрация: " +:+ date)) with
      | Raise e => (w, Raise e)
      | Return text => (reply_to w m text, Return ())
      end
  end.

(** [handle_history] *)
Definition handle_history (m : message) (w : world) : world * result unit :=
  match list_history (uid (from_user m)) 10 (db w) with
  | [] => (reply_to_kb w m "История пуста.", Return ())
  | rows =>
      match for_each history_line rows with
      | Raise e => (w, Raise e)
      | Return lines =>
          (reply_to_kb w m ("📜 Последние запросы:" +:+ nl +:+ nl
                            +:+ join nl lines), Return ())
      end
  end.

(** [handle_all]: registration and logging, then the menu labels. *)
Definition handle_all (m : message) (w : world) : world * result unit :=
  let text := strip (msg_text m) in
  let w := do_register_user w (from_user m) in
  let w := do_log_query w (uid (from_user m)) text "message" in
  if String.eqb text "📊 Отчёт" then handle_report_cmd m w
  else if String.eqb text "🧠 Пресеты" then
    (send_plain w (chat_id m)
       ("Управление пресетами:" +:+ nl +:+ "/preset_add имя текст" +:+ nl
        +:+ "/preset_list" +:+ nl +:+ "/preset_use имя" +:+ nl
        +:+ "/preset_del имя"), Return ())
  else if String.eqb text "📜 История" then handle_history m w
  else if String.eqb text "👤 Профиль" then handle_profile m w
  else if String.eqb text "❓ Помощь" then handle_help m w
  else (send_plain w (chat_id m) "Не распознано. Используй меню или /help.",
        Return ()).

Definition run (h : handler) : message -> world -> world * result unit :=
  match h with
  | Start => handle_start
  | Help => handle_help
  | Report => handle_report_cmd
  | PresetAdd => handle_preset_add
  | PresetList => handle_preset_list
  | PresetUse => handle_preset_use
  | PresetDel => handle_preset_del
  | Profile => handle_profile
  | History => handle_history
  | Ask => handle_ask
  | News => handle_news
  | All => handle_all
  end.
End Bot.

(** ** Markup safety *)

Fixpoint starts_with (p s : string) : bool :=
  match p, s with
  | EmptyString, _ => true
  | String a p', String b s' => Ascii.eqb a b && starts_with p' s'
  | String _ _, EmptyString => false
  end.

(** The character references [html.escape] produces, without their
    ampersand. *)
Definition entities : list string := ["amp;"; "lt;"; "gt;"; "quot;"; "#x27;"].

(** Text that a rich-text (HTML) reply renders as plain characters: it
    holds no raw [<] or [>], and every [&] in it starts one of the
    character references. *)
Fixpoint html_safe (s : string) : bool :=
  match s with
  | EmptyString => true
  | String c r =>
      if Ascii.eqb c "<" || Ascii.eqb c ">" then false
      else if Ascii.eqb c "&" then
        existsb (fun e => starts_with e r) entities && html_safe r
      else html_safe r
  end.



(** The tags the program itself writes into its rich-text replies. *)
Definition authored_tags : list string := ["<b>"; "</b>"].

(** A rich-text body made of authored tags and safe text only. *)
Inductive rich : string -> Prop :=
| rich_end : rich EmptyString
| rich_tag (tag s : string) : In tag authored_tags -> rich s -> rich (tag +:+ s)
| rich_text (t s : string) : html_safe t = true -> rich s -> rich (t +:+ s).

(** A check that rich bodies pass: every [<] opens one of the authored
    tags and every [&] starts a character reference. *)
Fixpoint well_marked (s : string) : bool :=
  match s with
  | EmptyString => true
  | String c r =>
      if Ascii.eqb c "<" then
        (starts_with "b>" r || starts_with "/b>" r) && well_marked r
      else if Ascii.eqb c "&" then
        existsb (fun e => starts_with e r) entities && well_marked r
      else well_marked r
  end.

(** The tags of a body, in order: every stretch from a [<] to the next
    [>], both included (to the end of the body when no [>] follows). *)
Fixpoint tags_from (tag : option string) (s : string) : list string :=
  match s, tag with
  | EmptyString, None => []
  | EmptyString, Some t => [t]
  | String c r, None =>
      if Ascii.eqb c "<" then tags_from (Some "<") r else tags_from None r
  | String c r, Some t =>
      if Ascii.eqb c ">" then (t +:+ ">") :: tags_from None r
      else tags_from (Some (t +:+ String c EmptyString)) r
  end.

Definition tags (s : string) : list string := tags_from None s.

(** One bold span. *)
Definition bold : list string := ["<b>"; "</b>"].





(** Every message sent as rich text satisfies [P]. *)
Definition html_bodies (P : string -> Prop) (msgs : list outgoing) : Prop :=
  forall o, In o msgs -> parse_mode o = Some "HTML" -> P (body o).

(** ** Frequencies *)

(** How often [k] occurs in [l]. *)
Definition occurrences (k : string) (l : list string) : nat :=
  List.length (List.filter (String.eqb k) l).

(** The count a tally holds for [k], 0 when it has no entry. *)
Fixpoint tallied (k : string) (acc : list (string * nat)) : nat :=
  match acc with
  | [] => 0%nat
  | (k', n) :: t => if String.eqb k k' then n else tallied k t
  end.

(** Counts never increase along the list. *)
Fixpoint decreasing (l : list (string * nat)) : Prop :=
  match l with
  | [] => True
  | x :: t => (forall y, In y t -> (snd y <= snd x)%nat) /\ decreasing t
  end.

(** A tally with one entry per key, each with a positive count. *)
Definition proper (acc : list (string * nat)) : Prop :=
  NoDup (map fst acc) /\ forall x, In x acc -> (0 < snd x)%nat.

(** ** Scenarios used by the properties *)




(** A [users] table from before the name and the date were kept. *)
Definition users_before_names : table :=
  {| cols := ["user_id"; "username"];
     data := [[Integer 7; Text "ann"]] |}.

(** A [users] table whose full-name column is spelt [FullName]. *)
Definition users_with_FullName : table :=
  {| cols := ["user_id"; "username"; "FullName"; "reg_date"];
     data := [[Integer 7; Text "ann"; Text "Ann Lee"; Text "2025-09-10 10:00:00"]] |}.

(** The tokens of the sample's skills cells. *)
Definition sample_skill_tokens : list string :=
  split_on ";" (join ";" ["Django;SQL;Docker"; "SQL;Tableau;Python";
                          "Content;UGC;Short video"]).

(** One [log_query] call: the clock reading, the text, the source and
    the parameters. *)
Record log_call := {
  at_time : string;
  logged_text : string;
  logged_source : string;
  logged_params : option string
}.

(** [log_query] called once per element of [calls], in order, each call
    for the user it names. *)
Definition log_calls (calls : list (Z * log_call)) (s : store) : store :=
  fold_left (fun s vc => fst (log_query (at_time (snd vc)) (fst vc)
                                        (logged_text (snd vc))
                                        (logged_source (snd vc))
                                        (logged_params (snd vc)) s))
            calls s.

(** The calls made for one user, in order. *)
Definition calls_of (user_id : Z) (calls : list (Z * log_call)) : list log_call :=
  map snd (List.filter (fun vc => fst vc =? user_id) calls).

(** The whole history of a user: [list_history] without its [LIMIT]. *)
Definition full_history (user_id : Z) (s : store) : list (sql_value * sql_value) :=
  map (fun r => (q_text r, q_ts r))
      (order_by_id_desc
         (List.filter (fun r => sql_eqb (q_user_id r) (Integer user_id))
                      (queries s))).

(** The [(text, ts)] pair a call stores. *)
Definition logged_pair (c : log_call) : sql_value * sql_value :=
  (Text (logged_text c), Text (at_time c)).

(** The row a call stores, but for its key. *)
Definition logged_row (user_id : Z) (c : log_call) (r : query_row) : Prop :=
  q_user_id r = Integer user_id /\ q_text r = Text (logged_text c)
  /\ q_source r = Text (logged_source c)
  /\ q_params r = Text (str_params (logged_params c))
  /\ q_ts r = Text (at_time c).

(** A presets row of the given user under the given name. *)
Definition keyed (user_id : Z) (name : string) (r : preset_row) : Prop :=
  p_user_id r = Integer user_id /\ p_name r = Text name.

#[global] Instance keyed_dec (user_id : Z) (name : string) (r : preset_row) :
  Decision (keyed user_id name r).
Proof. unfold keyed. apply _. Defined.

(** The rows of [users] with a given key. *)
Definition rows_of_user (user_id' : Z) (s : store) : list user_row :=
  List.filter (fun r => user_id r =? user_id') (users s).

(** The row [register_user] writes for a new user. *)
Definition new_user_row (now : string) (user : tg_user) : user_row :=
  {| user_id := uid user;
     username := sql_of_str (tg_username user);
     fullname := Text (join " " (filter_None [first_name user; last_name user]));
     reg_date := Text now |}.

Definition empty_store : store :=
  {| users := []; queries := []; presets := [];
     seq_queries := 0; seq_presets := 0 |}.

Definition ann : tg_user :=
  {| uid := 7; tg_username := Some "ann"; first_name := Some "Ann";
     last_name := Some "Lee" |}.

(** The same account after a change of name. *)
Definition ann_renamed : tg_user :=
  {| uid := 7; tg_username := Some "ann_lee"; first_name := Some "Anna";
     last_name := None |}.

Definition fresh_world : world :=
  {| db := empty_store; disk := None; outbox := []; wire := []; ticks := 0 |}.

Definition preset_del_x : message :=
  {| from_user := ann; chat_id := 7; message_id := 41;
     msg_text := "/preset_del x" |}.

(** The reply [handle_preset_del] gives after deleting. *)
Definition deletion_reply (m : message) (name : string) : outgoing :=
  {| to_chat := chat_id m;
     body := "🗑 Пресет '" +:+ escape name +:+ "' удалён.";
     parse_mode := None;
     reply_to_message_id := Some (message_id m);
     reply_markup := false |}.

(** A clock and two services for the examples: the services refuse every
    connection. *)
Definition fixed_clock (n : nat) : string := "2025-09-10 10:00:00".
Definition unreachable (n : nat) (r : http_request) : http_reply :=
  Failed RequestException.

(** A completion service that answers with markup in its text, and a
    question sent to it. *)
Definition answering (n : nat) (r : http_request) : http_reply :=
  Response 200
    (Some (JObj [("choices",
                  JArr [JObj [("message",
                               JObj [("content", JStr "use <b> & </b>")])]])])).

Definition ask_bold : message :=
  {| from_user := ann; chat_id := 7; message_id := 42;
     msg_text := "/ask  what is <b>? " |}.

(** Three logged queries, the second one by another user. *)
Definition three_logged : store :=
  fst (log_query "2025-09-10 10:00:03" 7 "c" "message" None
    (fst (log_query "2025-09-10 10:00:02" 8 "b" "message" None
      (fst (log_query "2025-09-10 10:00:01" 7 "a" "message" None empty_store))))).

(** ** Notions used by the further properties *)



(** No key of [ids] exceeds the sequence value [seq]. *)
Definition keys_below (seq : Z) (ids : list Z) : Prop :=
  forall x, In x ids -> x <= seq.

(** The tables respect their keys: no key occurs twice, and each
    [AUTOINCREMENT] sequence has reached the keys of its table. *)
Definition well_keyed (s : store) : Prop :=
  NoDup (map user_id (users s))
  /\ NoDup (map q_id (queries s))
  /\ NoDup (map p_id (presets s))
  /\ keys_below (seq_queries s) (map q_id (queries s))
  /\ keys_below (seq_presets s) (map p_id (presets s)).

(** The rows of [queries] that belong to a user. *)
Definition queries_of (user_id : Z) (s : store) : list query_row :=
  List.filter (fun r => sql_eqb (q_user_id r) (Integer user_id)) (queries s).

(** Two presets of one user under one name, and a preset of another
    user. *)
Definition some_presets : store :=
  add_preset_db "2025-09-10 10:00:03" 8 "x" "other"
    (add_preset_db "2025-09-10 10:00:02" 7 "x" "second"
       (add_preset_db "2025-09-10 10:00:01" 7 "x" "first" empty_store)).

(** Tables with rows in each: a user, a query, and the three presets. *)
Definition busy_store : store :=
  fst (log_query "2025-09-10 10:00:05" 7 "hello <there>" "message" None
         (register_user "2025-09-10 10:00:04" ann some_presets)).

Definition busy_world : world :=
  {| db := busy_store; disk := None; outbox := []; wire := []; ticks := 0 |}.

Definition history_msg : message :=
  {| from_user := ann; chat_id := 7; message_id := 51; msg_text := "/history" |}.

(** A name that is there: neither [None] nor empty. *)
Definition given (x : option string) : option string :=
  match x with
  | Some (String c r) => Some (String c r)
  | _ => None
  end.

(** A sender with a first name only. *)
Definition bob : tg_user :=
  {| uid := 8; tg_username := None; first_name := Some "Bob";
     last_name := None |}.

(** A dataset whose salary column holds text that is no number. *)
Definition salary_tbd : DataFrame :=
  {| columns := ["title"; "salary"];
     rows := [[CStr "Tester"; CStr "tbd"]; [CStr "Writer"; CInt 90000]] |}.

(** [float(s)] for the examples: no text is a number. *)
Definition no_number (s : string) : option Q := None.

(** A dataset with a skills column and no skill in it. *)
Definition no_skills : DataFrame :=
  {| columns := ["skills"]; rows := [[CNaN]; [CNaN]] |}.

(** The request [ask_neuron] sends for a question. *)
Definition completion_request (key : option string) (question : string)
    : http_request :=
  Post "https://api.openrouter.ai/v1/chat/completions"
       [("Authorization", "Bearer " +:+ key_text key)]
       (JObj [("model", JStr "gpt-4.1-mini");
              ("messages", JArr [JObj [("role", JStr "user");
                                       ("content", JStr question)]]);
              ("max_tokens", JNum (inject_Z 800))])
       15.

(** The request [get_news] sends for a topic. *)
Definition news_request (key : option string) (topic : string) (limit : Z)
    : http_request :=
  Get "https://newsapi.org/v2/everything"
      [("q", JStr topic); ("pageSize", JNum (inject_Z limit));
       ("language", JStr "ru"); ("apiKey", JStr (key_text key))]
      10.

(** A status that [raise_for_status] lets through. *)
Definition passes (status : Z) : Prop := status < 400 \/ 600 <= status.

(** A value that is text, or that [x or default] replaces. *)
Definition text_or_falsy (j : json) : bool :=
  match j with
  | JStr _ => true
  | other => negb (truthy other)
  end.

Definition field (name : string) (fields : list (string * json)) : json :=
  match assoc name fields with
  | Some v => v
  | None => JNull
  end.

(** An article the loop of [get_news] can render: a mapping whose title
    and link are text, or missing, or falsy. *)
Definition article_ok (a : json) : bool :=
  match a with
  | JObj fields =>
      text_or_falsy (field "title" fields) && text_or_falsy (field "url" fields)
  | _ => false
  end.

(** The title and the link an article is shown with: the escaped text,
    or the placeholder, or nothing, when the field is missing or
    falsy. *)
Definition shown_title (fields : list (string * json)) : string :=
  match assoc "title" fields with
  | Some (JStr (String c r)) => escape (String c r)
  | _ => "Без заголовка"
  end.

Definition shown_link (fields : list (string * json)) : string :=
  match assoc "url" fields with
  | Some (JStr s) => escape s
  | _ => EmptyString
  end.

(** A service that answers every request with the same response. *)
Definition always (r : http_reply) (n : nat) (q : http_request) : http_reply := r.

(** A completion response in the alternate shape. *)
Definition text_shape : json := JObj [("text", JStr "forty-two")].

(** A news response with one article that has no title. *)
Definition untitled_news : json :=
  JObj [("articles", JArr [JObj [("url", JStr "https://example.org/a?b=1&c=2")]])].

Definition is_text (v : sql_value) : bool :=
  match v with
  | Text _ => true
  | _ => false
  end.

Definition text_or_null (v : sql_value) : bool :=
  match v with
  | Integer _ => false
  | _ => true
  end.

(** Tables that hold what the program writes into them: text in every
    column it fills with text, and a username that is text or NULL. *)
Definition program_written (s : store) : Prop :=
  Forall (fun r => is_text (fullname r) = true
                   /\ text_or_null (username r) = true
                   /\ is_text (reg_date r) = true) (users s)
  /\ Forall (fun r => is_text (q_text r) = true /\ is_text (q_ts r) = true)
            (queries s)
  /\ Forall (fun r => is_text (p_name r) = true /\ is_text (p_content r) = true)
            (presets s).

(** The handlers that have every failing call inside a [try], or make
    none on tables the program wrote. *)
Definition guarded_handlers : list handler :=
  [Help; PresetAdd; PresetList; PresetUse; PresetDel; Profile; History; News].

(** A preset left over from a table that had no [content] column: the
    column was added later and holds NULL. *)
Definition legacy_preset : store :=
  {| users := []; queries := [];
     presets := [ {| p_id := 1; p_user_id := Integer 7; p_name := Text "x";
                     p_content := Null; p_created_at := Null |} ];
     seq_queries := 0; seq_presets := 1 |}.

Definition preset_list_msg : message :=
  {| from_user := ann; chat_id := 7; message_id := 44;
     msg_text := "/preset_list" |}.

(** The reply of [handle_preset_use] for a name that is not found. *)
Definition not_found_reply (m : message) (name : string) : outgoing :=
  {| to_chat := chat_id m;
     body := "Пресет '" +:+ escape name +:+ "' не найден.";
     parse_mode := None;
     reply_to_message_id := Some (message_id m);
     reply_markup := false |}.

(** The reply of [handle_preset_use] for a preset that is found. *)
Definition preset_reply (m : message) (name content : string) : outgoing :=
  {| to_chat := chat_id m;
     body := "📋 Пресет '" +:+ escape name +:+ "':" +:+ nl +:+ nl
             +:+ escape content;
     parse_mode := None;
     reply_to_message_id := Some (message_id m);
     reply_markup := false |}.

(** The reply of [handle_profile] for a stored profile. *)
Definition profile_reply (m : message) (full user date : string) : outgoing :=
  {| to_chat := chat_id m;
     body := "👤 Профиль:" +:+ nl +:+ "Имя: " +:+ escape full +:+ nl
             +:+ "Username: @" +:+ escape user +:+ nl
             +:+ "Регистрация: " +:+ escape date;
     parse_mode := None;
     reply_to_message_id := Some (message_id m);
     reply_markup := false |}.

(** The full name [register_user] stores. *)
Definition full_name (user : tg_user) : string :=
  join " " (filter_None [first_name user; last_name user]).

Definition preset_add_x : message :=
  {| from_user := ann; chat_id := 7; message_id := 45;
     msg_text := "/preset_add x say <hello>  twice" |}.

Definition preset_use_x : message :=
  {| from_user := ann; chat_id := 7; message_id := 46;
     msg_text := "/preset_use x" |}.

Definition start_msg : message :=
  {| from_user := ann; chat_id := 7; message_id := 47; msg_text := "/start" |}.

Definition profile_msg : message :=
  {| from_user := ann; chat_id := 7; message_id := 48; msg_text := "/profile" |}.

(** The five menu labels [handle_all] recognises. *)
Definition menu_labels : list string :=
  ["📊 Отчёт"; "🧠 Пресеты"; "📜 История"; "👤 Профиль"; "❓ Помощь"].

(** A username as [handle_profile] shows it. *)
Definition shown_username (user : tg_user) : string :=
  match tg_username user with
  | Some name => name
  | None => EmptyString
  end.

Definition plain_message (chat : Z) (text : string) : outgoing :=
  {| to_chat := chat; body := text; parse_mode := None;
     reply_to_message_id := None; reply_markup := true |}.

Definition chat_msg : message :=
  {| from_user := bob; chat_id := 8; message_id := 49;
     msg_text := "  hello there " |}.

Definition news_msg : message :=
  {| from_user := ann; chat_id := 7; message_id := 50;
     msg_text := "/news rocq" |}.

(** A completion response whose content is not text. *)
Definition null_content : json :=
  JObj [("choices", JArr [JObj [("message", JObj [("content", JNull)])]])].

(** The exception a reply makes [raise_for_status] or [json()] raise,
    if any. *)
Definition failure_of (reply : http_reply) : option exn :=
  match reply with
  | Failed e => Some e
  | Response status body =>
      if (400 <=? status) && (status <? 600) then Some (HTTPError status)
      else match body with
           | None => Some ValueError
           | Some _ => None
           end
  end.

Definition error_reply (m : message) (prefix detail : string) : outgoing :=
  {| to_chat := chat_id m;
     body := prefix +:+ escape detail;
     parse_mode := None;
     reply_to_message_id := Some (message_id m);
     reply_markup := false |}.

Definition no_news_reply (m : message) : outgoing :=
  {| to_chat := chat_id m;
     body := "📰 Новостей не найдено или сервис недоступен.";
     parse_mode := None;
     reply_to_message_id := Some (message_id m);
     reply_markup := true |}.

(** * Properties *)

(** ** Schema manager *)

Section SchemaProperties.
Implicit Types (conn : gmap string table) (t : table).

Lemma bind_Return {A B} (a : A) (k : A -> result B) : (Return a ≫= k) = k a.
Proof. reflexivity. Qed.

Lemma bind_Return_r {A} (r : result A) : (r ≫= Return) = r.
Proof. by destruct r. Qed.

Lemma table_exists_lookup conn name :
  table_exists conn name = match conn !! name with
                           | Some _ => true
                           | None => false
                           end.
Proof.
  unfold table_exists. destruct (conn !! name) eqn:E.
  - apply bool_decide_eq_true. eauto.
  - apply bool_decide_eq_false. intros [x Hx]. discriminate.
Qed.

Lemma same_name_refl (a : string) : same_name a a = true.
Proof. apply String.eqb_refl. Qed.

Lemma find_table_exact conn name t :
  conn !! name = Some t -> find_table conn name = Some (name, t).
Proof. unfold find_table. by intros ->. Qed.

Lemma find_none_iff {A} (f : A -> bool) (l : list A) :
  List.find f l = None <-> forall x, In x l -> f x = false.
Proof.
  split; [apply find_none|].
  induction l as [|a l IH]; intros H; simpl; [done|].
  rewrite (H a) by (by left). apply IH. intros x Hx. apply H. by right.
Qed.

(** A name is free when no table has it, in whatever case. *)
Lemma find_table_None conn name :
  find_table conn name = None
  <-> forall k t, conn !! k = Some t -> same_name k name = false.
Proof.
  unfold find_table. destruct (conn !! name) as [t|] eqn:E.
  - split; [done|]. intros H. specialize (H _ _ E).
    by rewrite same_name_refl in H.
  - rewrite find_none_iff. split.
    + intros H k t Hk. apply (H (k, t)). apply list_elem_of_In.
      by apply elem_of_map_to_list.
    + intros H [k t] Hin. apply list_elem_of_In, elem_of_map_to_list in Hin.
      by apply (H k t).
Qed.

Lemma add_missing_app l1 l2 t :
  add_missing (l1 ++ l2) t = add_missing l2 (add_missing l1 t).
Proof. unfold add_missing. apply fold_left_app. Qed.

Lemma clashes_with_column (l : list string) t (c : string) :
  existsb (same_name c) (cols t) = false ->
  (forall c', c' ∈ l -> same_name c' c = true -> c' = c) ->
  clashes l (with_column c t) = clashes l t.
Proof.
  intros Hc Hl. unfold clashes. induction l as [|a l IH]; [done|].
  cbn [existsb].
  rewrite IH by (intros c' Hc'; apply Hl; set_solver). f_equal.
  cbn [with_column cols].
  destruct (decide (a = c)) as [->|Hne].
  - rewrite Hc, andb_false_r.
    rewrite bool_decide_eq_true_2 by set_solver. done.
  - assert (Hs : same_name a c = false).
    { destruct (same_name a c) eqn:E; [|done].
      destruct Hne. apply Hl; [set_solver|done]. }
    rewrite existsb_app. cbn [existsb]. rewrite Hs, !orb_false_r. f_equal. f_equal.
    apply bool_decide_ext. set_solver.
Qed.

(** The checks of an existing table: every wanted column the table lacks
    is appended, unless one of them clashes. *)
Lemma ensure_columns_spec l : forall conn tbl t,
  conn !! tbl = Some t ->
  (forall c c', c ∈ l -> c' ∈ l -> same_name c c' = true -> c = c') ->
  ensure_columns tbl l conn
  = if clashes l t then Raise OperationalError
    else Return (<[tbl := add_missing l t]> conn).
Proof.
  induction l as [|c l IH]; intros conn tbl t Ht Hl; simpl.
  - by rewrite insert_id.
  - unfold ensure_column, column_exists, add_column.
    rewrite (find_table_exact _ _ _ Ht).
    destruct (bool_decide (c ∈ cols t)) eqn:Hin; simpl.
    + apply IH; [done|]. intros; apply Hl; set_solver.
    + destruct (existsb (same_name c) (cols t)) eqn:Hc; simpl; [done|].
      rewrite (IH _ tbl (with_column c t)); cycle 1.
      { apply lookup_insert_eq. }
      { intros; apply Hl; set_solver. }
      rewrite clashes_with_column; [|done|]; cycle 1.
      { intros c' Hc' Hs. symmetry. apply Hl; [set_solver..|].
        unfold same_name in *. by rewrite String.eqb_sym. }
      by rewrite insert_insert_eq.
Qed.

Lemma migrated_distinct name c c' :
  c ∈ migrated_columns name -> c' ∈ migrated_columns name ->
  same_name c c' = true -> c = c'.
Proof.
  unfold migrated_columns. intros Hc Hc' Hs. repeat case_match.
  all: repeat (apply elem_of_cons in Hc as [->|Hc]);
       try (by apply elem_of_nil in Hc).
  all: repeat (apply elem_of_cons in Hc' as [->|Hc']);
       try (by apply elem_of_nil in Hc'); try done.
  all: vm_compute in Hs; discriminate.
Qed.

Lemma cols_add_missing_incl l : forall t c,
  c ∈ cols t -> c ∈ cols (add_missing l t).
Proof.
  induction l as [|a l IH]; intros t c Hc; simpl; [done|].
  apply IH. case_bool_decide; [done|]. simpl. set_solver.
Qed.

Lemma cols_add_missing_has l : forall t c,
  c ∈ l -> c ∈ cols (add_missing l t).
Proof.
  induction l as [|a l IH]; intros t c Hc; [by apply elem_of_nil in Hc|].
  apply elem_of_cons in Hc as [->|Hc]; simpl.
  - apply cols_add_missing_incl. case_bool_decide; [done|]. simpl. set_solver.
  - by apply IH.
Qed.


Lemma add_missing_fixed l : forall t,
  (forall c, c ∈ l -> c ∈ cols t) -> add_missing l t = t.
Proof.
  induction l as [|a l IH]; intros t H; simpl; [done|].
  rewrite bool_decide_eq_true_2 by (apply H; set_solver).
  apply IH. intros c Hc. apply H. set_solver.
Qed.

Lemma add_missing_idem l t : add_missing l (add_missing l t) = add_missing l t.
Proof. apply add_missing_fixed. intros c Hc. by apply cols_add_missing_has. Qed.



Lemma ensure_table_step conn name (create : result (gmap string table))
      (migrate : result (gmap string table)) :
  create = create_table name (target_columns name) (autoincrement name) conn ->
  (forall t, conn !! name = Some t ->
             migrate = ensure_columns name (migrated_columns name) conn) ->
  (if negb (table_exists conn name) then create else migrate)
  = if step_ok name conn then Return (ensured_step name conn)
    else Raise OperationalError.
Proof.
  intros -> Hm. unfold step_ok, ensured_step, ensured_table, create_table.
  rewrite table_exists_lookup. destruct (conn !! name) as [t|] eqn:E; simpl.
  - rewrite (Hm t eq_refl), (ensure_columns_spec _ _ _ _ E)
      by apply migrated_distinct.
    by destruct (clashes _ t).
  - by destruct (find_table conn name).
Qed.

(** What a step leaves of the other tables. *)
Lemma ensured_step_keeps conn name k t :
  conn !! k = Some t -> k ≠ name -> ensured_step name conn !! k = Some t.
Proof.
  intros Hk Hne. unfold ensured_step. rewrite lookup_insert_ne by done.
  destruct (conn !! name); [done|]. destruct (autoincrement name); [|done].
  unfold with_sequence. destruct (conn !! "sqlite_sequence") eqn:E; [done|].
  rewrite lookup_insert_ne; [done|]. intros <-. congruence.
Qed.

Lemma ensured_step_other conn name k :
  k ≠ name -> k ≠ "sqlite_sequence" ->
  ensured_step name conn !! k = conn !! k.
Proof.
  intros Hne Hs. unfold ensured_step. rewrite lookup_insert_ne by done.
  destruct (conn !! name); [done|]. destruct (autoincrement name); [|done].
  unfold with_sequence. destruct (conn !! "sqlite_sequence"); [done|].
  by rewrite lookup_insert_ne.
Qed.


Lemma ensured_step_keys conn name k t :
  ensured_step name conn !! k = Some t ->
  k = name \/ k = "sqlite_sequence" \/ conn !! k = Some t.
Proof.
  destruct (decide (k = name)) as [->|Hn]; [by left|].
  destruct (decide (k = "sqlite_sequence")) as [->|Hs]; [by right; left|].
  rewrite ensured_step_other by done. by right; right.
Qed.

Lemma find_table_step conn name m :
  same_name name m = false -> same_name "sqlite_sequence" m = false ->
  (find_table (ensured_step name conn) m = None <-> find_table conn m = None).
Proof.
  intros Hn Hs. rewrite !find_table_None. split; intros H k t Hk.
  - destruct (decide (k = name)) as [->|Hne]; [done|].
    apply (H k t). by apply ensured_step_keeps.
  - apply ensured_step_keys in Hk as [-> | [-> | Hk] ]; [done..|].
    by apply (H k t).
Qed.

Lemma step_ok_step conn name m :
  same_name name m = false -> same_name "sqlite_sequence" m = false ->
  step_ok m (ensured_step name conn) = step_ok m conn.
Proof.
  intros Hn Hs. unfold step_ok.
  assert (m ≠ name) by (intros ->; by rewrite same_name_refl in Hn).
  assert (m ≠ "sqlite_sequence") by (intros ->; by rewrite same_name_refl in Hs).
  rewrite ensured_step_other by done. destruct (conn !! m); [done|].
  pose proof (find_table_step conn name m Hn Hs) as Hf.
  destruct (find_table (ensured_step name conn) m),
           (find_table conn m); try done.
  - discriminate (proj2 Hf eq_refl).
  - discriminate (proj1 Hf eq_refl).
Qed.

(** The routine fails exactly on a clash of names, and otherwise leaves
    the three tables brought up to date one after the other. *)
Lemma ensure_tables_and_columns_spec conn :
  ensure_tables_and_columns conn
  = if regular conn then Return (ensured conn) else Raise OperationalError.
Proof.
  unfold ensure_tables_and_columns, regular, ensured. simpl forallb.
  rewrite (ensure_table_step conn "users" _ _ eq_refl); cycle 1.
  { intros t Ht. change (migrated_columns "users") with ["fullname"; "reg_date"].
    cbn [ensure_columns].
    destruct (ensure_column "users" "fullname" conn) as [c1|e]; [|done].
    rewrite !bind_Return. by destruct (ensure_column "users" "reg_date" c1). }
  destruct (step_ok "users" conn); [|done]. rewrite bind_Return.
  rewrite (ensure_table_step _ "queries" _ _ eq_refl) by done.
  rewrite step_ok_step by done.
  destruct (step_ok "queries" conn); [|done]. rewrite bind_Return.
  rewrite (ensure_table_step _ "presets" _ _ eq_refl); cycle 1.
  { intros t Ht. change (migrated_columns "presets") with ["content"; "created_at"].
    cbn [ensure_columns].
    destruct (ensure_column "presets" "content" _) as [c1|e]; [|done].
    rewrite !bind_Return. by destruct (ensure_column "presets" "created_at" c1). }
  rewrite !step_ok_step by done.
  by destruct (step_ok "presets" conn).
Qed.






End SchemaProperties.










(** The two clashes of names: a table [Users], and a column [FullName]
    in [users]. *)
Example ensure_fails_on_names_in_another_case :
  table_exists {["Users" := users_before_names]} "users" = false
  /\ ensure_tables_and_columns {["Users" := users_before_names]}
     = Raise OperationalError
  /\ column_exists {["users" := users_with_FullName]} "users" "fullname" = false
  /\ ensure_tables_and_columns {["users" := users_with_FullName]}
     = Raise OperationalError.
Proof. vm_compute. by repeat split. Qed.

(** ** Report engine *)

Section ReportProperties.
Variable sample_as_cp1251 : result DataFrame.
Variable float_of_text : string -> option Q.
Variable str_float : Q -> string.

(** A frame without rows gives the fixed message. *)
Lemma report_without_rows (f : csv_file) names :
  read_utf8 f = Return {| columns := names; rows := [] |} ->
  generate_report_from_demo sample_as_cp1251 float_of_text str_float (Some f)
  = (Some f, Return data_unavailable).
Proof.
  intros H. unfold generate_report_from_demo, load_csv_safe. simpl.
  rewrite H. simpl. by destruct names.
Qed.

(** A failure of the first read other than a decoding failure gives
    the fixed message. *)
Lemma report_on_load_failure (f : csv_file) e :
  read_utf8 f = Raise e -> e ≠ UnicodeDecodeError ->
  generate_report_from_demo sample_as_cp1251 float_of_text str_float (Some f)
  = (Some f, Return data_unavailable).
Proof.
  intros H He. unfold generate_report_from_demo, load_csv_safe. simpl.
  rewrite H. by destruct e.
Qed.

(** Whatever the retry with the legacy encoding returns or raises is
    what [load_csv_safe] returns or raises. *)
Lemma load_after_decode_failure (f : csv_file) :
  read_utf8 f = Raise UnicodeDecodeError ->
  load_csv_safe sample_as_cp1251 (Some f) = (Some f, read_cp1251 f).
Proof.
  intros H. unfold load_csv_safe. simpl. by rewrite H.
Qed.

(** The report function raises exactly when the retry does. *)
Lemma report_raises_iff (f : csv_file) e :
  snd (generate_report_from_demo sample_as_cp1251 float_of_text str_float (Some f))
  = Raise e
  <-> read_utf8 f = Raise UnicodeDecodeError /\ read_cp1251 f = Raise e.
Proof.
  unfold generate_report_from_demo, load_csv_safe. simpl. split.
  - destruct (read_utf8 f) as [df|e1] eqn:E1.
    + simpl. destruct (df_empty df); [done|].
      by destruct (report_body _ _ df).
    + destruct e1; simpl; try done.
      destruct (read_cp1251 f) as [df|e2] eqn:E2; simpl.
      * destruct (df_empty df); [done|].
        by destruct (report_body _ _ df).
      * by intros [= ->].
  - intros [-> ->]. reflexivity.
Qed.
End ReportProperties.

(** *** [value_counts] counts occurrences *)

Lemma tallied_tally (k k' : string) (acc : list (string * nat)) :
  tallied k' (tally String.eqb k acc)
  = (tallied k' acc + if String.eqb k' k then 1 else 0)%nat.
Proof.
  induction acc as [|[a n] acc IH]; simpl.
  - destruct (String.eqb k' k); lia.
  - destruct (String.eqb_spec k a) as [->|Hne]; simpl.
    + destruct (String.eqb k' a); lia.
    + destruct (String.eqb_spec k' a) as [->|Hne'].
      * rewrite (proj2 (String.eqb_neq a k)) by congruence. lia.
      * apply IH.
Qed.

Lemma tallied_fold (k : string) (l : list string) : forall acc,
  tallied k (fold_left (fun acc x => tally String.eqb x acc) l acc)
  = (tallied k acc + occurrences k l)%nat.
Proof.
  unfold occurrences. induction l as [|x l IH]; intros acc; simpl; [lia|].
  rewrite IH, tallied_tally. destruct (String.eqb k x); simpl; lia.
Qed.

Lemma tally_keys (k : string) (acc : list (string * nat)) (a : string) :
  In a (map fst (tally String.eqb k acc)) <-> a = k \/ In a (map fst acc).
Proof.
  induction acc as [|[b n] acc IH]; simpl; [intuition|].
  destruct (String.eqb_spec k b) as [->|Hne]; simpl; [intuition|].
  rewrite IH. intuition.
Qed.

Lemma tally_proper (k : string) (acc : list (string * nat)) :
  proper acc -> proper (tally String.eqb k acc).
Proof.
  unfold proper. induction acc as [|[b n] acc IH]; intros [Hnd Hpos]; simpl.
  - split; [apply NoDup_singleton|]. intros x [<-|[]]. simpl. lia.
  - simpl in Hnd. apply NoDup_cons in Hnd as [Hb Hnd].
    destruct (String.eqb_spec k b) as [->|Hne]; simpl.
    + split; [by apply NoDup_cons|].
      intros x [<-|Hx]; [simpl; lia|]. apply Hpos. by right.
    + destruct IH as [IH1 IH2].
      { split; [done|]. intros x Hx. apply Hpos. by right. }
      split.
      * apply NoDup_cons. split; [|done]. rewrite list_elem_of_In, tally_keys.
        intros [->|Hin]; [done|]. by apply Hb, list_elem_of_In.
      * intros x [<-|Hx]; [|by apply IH2]. apply (Hpos (b, n)). by left.
Qed.

Lemma tally_all_proper (l : list string) : proper (tally_all String.eqb l).
Proof.
  unfold tally_all.
  assert (H : forall acc, proper acc ->
            proper (fold_left (fun acc x => tally String.eqb x acc) l acc)).
  { induction l as [|x l IH]; intros acc Hacc; simpl; [done|].
    by apply IH, tally_proper. }
  apply H. split; [apply NoDup_nil_2|]. by intros x [].
Qed.

Lemma proper_entries (acc : list (string * nat)) (k : string) (n : nat) :
  proper acc -> (In (k, n) acc <-> tallied k acc = n /\ (0 < n)%nat).
Proof.
  unfold proper. induction acc as [|[b m] acc IH]; intros [Hnd Hpos]; simpl.
  - split; [done|]. lia.
  - simpl in Hnd. apply NoDup_cons in Hnd as [Hb Hnd].
    assert (IH' : In (k, n) acc <-> tallied k acc = n /\ (0 < n)%nat).
    { apply IH. split; [done|]. intros x Hx. apply Hpos. by right. }
    destruct (String.eqb_spec k b) as [->|Hne].
    + split.
      * intros [[= <-]|Hin]; [split; [done|]; apply (Hpos (b, m)); by left|].
        exfalso. apply Hb, list_elem_of_In. by apply (in_map fst _ (b, n)).
      * intros [<- _]. by left.
    + rewrite <- IH'. split; [|by right].
      intros [[= ? ?]|Hin]; [congruence|done].
Qed.

Lemma insert_desc_In (x y : string * nat) (l : list (string * nat)) :
  In y (insert_desc x l) <-> y = x \/ In y l.
Proof.
  induction l as [|a l IH]; simpl; [intuition|].
  destruct (snd a <=? snd x)%nat; simpl; [intuition|]. rewrite IH. intuition.
Qed.

Lemma sort_desc_In (y : string * nat) (l : list (string * nat)) :
  In y (sort_desc l) <-> In y l.
Proof.
  unfold sort_desc. induction l as [|a l IH]; simpl; [done|].
  rewrite insert_desc_In, IH. intuition.
Qed.

Lemma insert_desc_decreasing (x : string * nat) (l : list (string * nat)) :
  decreasing l -> decreasing (insert_desc x l).
Proof.
  induction l as [|a l IH]; simpl; [done|]. intros [Ha Hl].
  destruct (Nat.leb_spec (snd a) (snd x)); simpl.
  - split; [|done]. intros y [<-|Hy]; [done|]. specialize (Ha y Hy). lia.
  - split; [|by apply IH].
    intros y Hy. apply insert_desc_In in Hy as [->|Hy]; [lia|by apply Ha].
Qed.

(** [value_counts] on text: its entries are the values that occur, each
    with the number of its occurrences, by decreasing count. *)
Lemma value_counts_occurrences (l : list string) (k : string) (n : nat) :
  (In (k, n) (value_counts String.eqb l) <-> occurrences k l = n /\ (0 < n)%nat)
  /\ decreasing (value_counts String.eqb l).
Proof.
  unfold value_counts. split.
  - rewrite sort_desc_In, (proper_entries _ _ _ (tally_all_proper l)).
    unfold tally_all. by rewrite tallied_fold.
  - unfold sort_desc. induction (tally_all String.eqb l) as [|a t IH]; [done|].
    simpl. by apply insert_desc_decreasing.
Qed.

(** C1: on a disk without [demo.csv] the report is built from the three
    sample rows.  Its salary line shows the mean 460000/3 rounded to
    153333 as [153,333]; its cities line lists Москва (2 rows) before
    Санкт-Петербург (1 row); its skills line lists the tokens obtained by
    joining the skills cells with [;] and splitting on [;], by decreasing
    number of occurrences over all rows. *)
Theorem report_on_demo_dataset :
  forall (sample_as_cp1251 : result DataFrame)
         (float_of_text : string -> option Q) (str_float : Q -> string),
    let df := frame_of_rows sample in
    generate_report_from_demo sample_as_cp1251 float_of_text str_float None
    = (Some (demo_csv sample_as_cp1251),
       Return (join nl
         [ "<b>📊 Аналитический отчёт (demo.csv)</b>";
           "💰 Средняя зарплата: <b>153,333 ₽</b>";
           "🏙️ Топ городов: Москва, Санкт-Петербург";
           "💼 Топ вакансий: Python developer, Data analyst, SMM manager";
           "🔥 Частые навыки: "
             +:+ join ", " (map escape
                   (map fst (head 10 (value_counts String.eqb sample_skill_tokens))));
           nl +:+ "⚠️ Это демонстрационный отчёт. Ответ составлен ботом-ассистентом." ]))
    /\ (x ← astype_float float_of_text (column df "salary"); Return (mean x))
       = Return (Some (460000 # 3))
    /\ round_half_even (460000 # 3) = 153333
    /\ format_thousands 153333 = "153,333"
    /\ value_counts cell_eqb (dropna (column df "city"))
       = [(CStr "Москва", 2%nat); (CStr "Санкт-Петербург", 1%nat)]
    /\ map (str_cell str_float) (dropna (column df "skills"))
       = ["Django;SQL;Docker"; "SQL;Tableau;Python"; "Content;UGC;Short video"]
    /\ value_counts String.eqb sample_skill_tokens
       = [("SQL", 2%nat); ("Django", 1%nat); ("Docker", 1%nat);
          ("Tableau", 1%nat); ("Python", 1%nat); ("Content", 1%nat);
          ("UGC", 1%nat); ("Short video", 1%nat)]
    /\ (forall k n,
          In (k, n) (value_counts String.eqb sample_skill_tokens)
          <-> occurrences k sample_skill_tokens = n /\ (0 < n)%nat).
Proof.
  intros. repeat (split; [vm_compute; reflexivity|]).
  intros k n. apply value_counts_occurrences.
Qed.

(** C4 at its failing input: when the file decodes under neither
    encoding, the exception of the retry leaves [load_csv_safe] and
    [generate_report_from_demo]; no message is returned. *)
Theorem report_raises_when_retry_fails :
  forall (sample_as_cp1251 : result DataFrame)
         (float_of_text : string -> option Q) (str_float : Q -> string),
    let undecodable := {| read_utf8 := Raise UnicodeDecodeError;
                          read_cp1251 := Raise UnicodeDecodeError |} in
    generate_report_from_demo sample_as_cp1251 float_of_text str_float
                              (Some undecodable)
    = (Some undecodable, Raise UnicodeDecodeError).
Proof.
  intros. reflexivity.
Qed.

(** ** Persistence gateway *)

Section StoreProperties.
Implicit Types (s : store) (r : query_row).

Lemma next_id_above seq ids x : In x ids -> x < next_id seq ids.
Proof.
  unfold next_id. induction ids as [|a ids IH]; simpl; [done|].
  intros [->|H]; [lia|]. specialize (IH H). lia.
Qed.

Lemma next_id_above_seq seq ids : seq < next_id seq ids.
Proof.
  unfold next_id. induction ids as [|a ids IH]; simpl; lia.
Qed.

(** A row whose key exceeds every key of [l] sorts first. *)
Lemma order_by_id_desc_snoc l r :
  (forall x, In x l -> q_id x < q_id r) ->
  order_by_id_desc (l ++ [r]) = r :: order_by_id_desc l.
Proof.
  unfold order_by_id_desc. rewrite fold_right_app. simpl.
  induction l as [|a l IH]; intros H; simpl; [done|].
  rewrite IH by (intros x Hx; apply H; by right). simpl.
  assert (q_id a < q_id r) by (apply H; by left).
  by rewrite (proj2 (Z.leb_gt _ _)) by lia.
Qed.

Lemma full_history_list_history u limit s :
  list_history u limit s = sql_limit limit (full_history u s).
Proof.
  unfold list_history, full_history, sql_limit.
  destruct (limit <? 0); [done|]. by rewrite firstn_map.
Qed.

(** One more call of the user puts its pair in front of the history. *)
Lemma full_history_log_query u c s :
  full_history u (fst (log_query (at_time c) u (logged_text c)
                                 (logged_source c) (logged_params c) s))
  = logged_pair c :: full_history u s.
Proof.
  unfold full_history, log_query. simpl.
  rewrite List.filter_app. simpl. rewrite Z.eqb_refl.
  rewrite order_by_id_desc_snoc; [done|].
  intros x Hx. apply filter_In in Hx as [Hx _]. simpl.
  apply next_id_above. by apply in_map.
Qed.

(** A call of another user leaves the history alone. *)
Lemma full_history_log_query_other u v now text source params s :
  v ≠ u ->
  full_history u (fst (log_query now v text source params s)) = full_history u s.
Proof.
  intros Hne. unfold full_history, log_query. simpl.
  rewrite List.filter_app. simpl.
  rewrite (proj2 (Z.eqb_neq v u)) by done. by rewrite app_nil_r.
Qed.

Lemma full_history_log_calls u calls : forall s,
  full_history u (log_calls calls s)
  = rev (map logged_pair (calls_of u calls)) ++ full_history u s.
Proof.
  unfold log_calls, calls_of.
  induction calls as [|[v c] calls IH]; intros s; [done|].
  cbn [fold_left List.filter fst snd]. rewrite IH.
  destruct (Z.eqb_spec v u) as [->|Hne].
  - cbn [map rev]. rewrite full_history_log_query. by rewrite <- app_assoc.
  - by rewrite full_history_log_query_other.
Qed.

Lemma log_calls_appends calls : forall s,
  exists new,
    queries (log_calls calls s) = queries s ++ new
    /\ Forall2 (fun vc r => logged_row (fst vc) (snd vc) r) calls new
    /\ (forall r x, In r new -> In x (queries s) -> q_id x < q_id r)
    /\ users (log_calls calls s) = users s
    /\ presets (log_calls calls s) = presets s.
Proof.
  unfold log_calls. induction calls as [|[v c] calls IH]; intros s; simpl.
  - exists []. rewrite app_nil_r. repeat split; try done.
  - destruct (IH (fst (log_query (at_time c) v (logged_text c)
                                 (logged_source c) (logged_params c) s)))
      as (new & Hq & Hrows & Hids & Hu & Hp).
    simpl in Hq, Hids, Hu, Hp. eexists (_ :: new).
    split; [by rewrite Hq, <- app_assoc|].
    split; [constructor; [by repeat split|done]|].
    split; [|done].
    intros r x [<-|Hr] Hx; simpl.
    + apply next_id_above. by apply in_map.
    + apply Hids; [done|]. apply in_or_app. by left.
Qed.
End StoreProperties.

(** C5: from any state of the tables, calls of [log_query], for the
    user and for any other users in between, append one row per call to
    [queries], each with the user, text and time of its call and a key
    larger than every key present before, leaving the earlier rows and
    the other tables as they were.  When [N] of the calls were for the
    user, [list_history] with [limit = N] then returns the [(text, ts)]
    pairs of those [N] calls and of no other user's, the last logged
    first; a larger limit returns them followed by the user's earlier
    history. *)
Theorem history_after_logging :
  forall (s : store) (u : Z) (calls : list (Z * log_call)) (k : nat),
    let s' := log_calls calls s in
    let mine := calls_of u calls in
    let N := List.length mine in
    (exists new,
        queries s' = queries s ++ new
        /\ List.length new = List.length calls
        /\ Forall2 (fun vc r => logged_row (fst vc) (snd vc) r) calls new
        /\ (forall r x, In r new -> In x (queries s) -> q_id x < q_id r))
    /\ users s' = users s
    /\ presets s' = presets s
    /\ list_history u (Z.of_nat N) s' = rev (map logged_pair mine)
    /\ list_history u (Z.of_nat (N + k)) s'
       = rev (map logged_pair mine) ++ list_history u (Z.of_nat k) s.
Proof.
  intros s u calls k s' mine N.
  destruct (log_calls_appends calls s) as (new & Hq & Hrows & Hids & Hu & Hp).
  split; [|split; [done|split; [done|]]].
  - exists new. repeat split; try done.
    symmetry. by eapply Forall2_length.
  - assert (HN : List.length (rev (map logged_pair mine)) = N)
      by (by rewrite length_rev, length_map).
    rewrite !full_history_list_history. subst s'.
    rewrite full_history_log_calls. fold mine. unfold sql_limit.
    rewrite !(proj2 (Z.ltb_ge _ _)) by lia. rewrite !Nat2Z.id.
    split.
    + rewrite <- HN at 1.
      by rewrite firstn_app, Nat.sub_diag, firstn_all, firstn_O, app_nil_r.
    + rewrite <- HN at 1. by rewrite firstn_app_2.
Qed.

Lemma rows_of_user_none u (l : list user_row) :
  existsb (fun r => user_id r =? u) l = false ->
  List.filter (fun r => user_id r =? u) l = [].
Proof.
  induction l as [|a l IH]; simpl; [done|].
  destruct (user_id a =? u); simpl; [done|]. apply IH.
Qed.

Lemma rows_of_user_unique u (l : list user_row) :
  NoDup (map user_id l) ->
  existsb (fun r => user_id r =? u) l = true ->
  List.length (List.filter (fun r => user_id r =? u) l) = 1%nat.
Proof.
  induction l as [|a l IH]; simpl; [done|].
  intros Hnd. apply NoDup_cons in Hnd as [Hnotin Hnd].
  destruct (Z.eqb_spec (user_id a) u) as [<-|Hne]; simpl.
  - intros _. rewrite rows_of_user_none; [done|].
    apply not_true_is_false. intros Hex. apply existsb_exists in Hex as (x & Hx & Heq).
    apply Z.eqb_eq in Heq. apply Hnotin. rewrite <- Heq.
    apply list_elem_of_In. by apply in_map.
  - by apply IH.
Qed.

(** C6: when [users] respects its primary key, two registrations of the
    same user identifier leave exactly one row with that identifier, and
    the second registration changes nothing, whatever names and clock
    reading it comes with: if the first one created the row, that row
    (username, fullname, reg_date) is still the one stored. *)
Theorem register_user_twice :
  forall (s : store) (user user' : tg_user) (t1 t2 : string),
    uid user' = uid user ->
    NoDup (map user_id (users s)) ->
    let s1 := register_user t1 user s in
    let s2 := register_user t2 user' s1 in
    s2 = s1
    /\ List.length (rows_of_user (uid user) s2) = 1%nat
    /\ (rows_of_user (uid user) s = [] ->
        rows_of_user (uid user) s2 = [new_user_row t1 user]).
Proof.
  intros s user user' t1 t2 Hid Hnd s1 s2.
  assert (Hin : existsb (fun r => user_id r =? uid user) (users s1) = true).
  { subst s1. unfold register_user.
    destruct (existsb _ (users s)) eqn:E; [done|]. simpl.
    rewrite existsb_app. simpl. rewrite Z.eqb_refl. by rewrite orb_true_r. }
  assert (H21 : s2 = s1).
  { subst s2. unfold register_user at 1. by rewrite Hid, Hin. }
  split; [done|]. rewrite H21. subst s1. unfold rows_of_user, register_user.
  destruct (existsb _ (users s)) eqn:E.
  - split; [by apply rows_of_user_unique|].
    intros Hnone. apply existsb_exists in E as (x & Hx & Heq).
    assert (In x []) as []. rewrite <- Hnone. apply filter_In. by split.
  - simpl. rewrite List.filter_app, rows_of_user_none by done. simpl.
    rewrite Z.eqb_refl. by split.
Qed.

(** The same account registers twice, the second time under new names. *)
Lemma register_user_twice_witness :
  register_user "2025-09-11 08:00:00" ann_renamed
    (register_user "2025-09-10 10:00:00" ann empty_store)
  = register_user "2025-09-10 10:00:00" ann empty_store
  /\ List.length (rows_of_user 7
        (register_user "2025-09-11 08:00:00" ann_renamed
           (register_user "2025-09-10 10:00:00" ann empty_store))) = 1%nat
  /\ (rows_of_user 7 empty_store = [] ->
      rows_of_user 7
        (register_user "2025-09-11 08:00:00" ann_renamed
           (register_user "2025-09-10 10:00:00" ann empty_store))
      = [new_user_row "2025-09-10 10:00:00" ann]).
Proof.
  apply (register_user_twice empty_store ann ann_renamed
           "2025-09-10 10:00:00" "2025-09-11 08:00:00").
  - reflexivity.
  - simpl. apply NoDup_nil_2.
Defined.

Lemma preset_matches_keyed (u : Z) (name : string) (r : preset_row) :
  preset_matches u name r = true <-> keyed u name r.
Proof.
  unfold preset_matches, keyed, sql_eqb. rewrite andb_true_iff.
  destruct (p_user_id r) as [|x|x], (p_name r) as [|y|y];
    try (split; [intros [? ?]|intros [? ?] ]; done).
  rewrite Z.eqb_eq, String.eqb_eq. split; intros [H1 H2]; split; congruence.
Qed.

Lemma not_matched_not_keyed (u : Z) (name : string) (r : preset_row) :
  negb (preset_matches u name r) = bool_decide (~ keyed u name r).
Proof.
  destruct (preset_matches u name r) eqn:E; simpl; symmetry.
  - apply bool_decide_eq_false. intros H. apply H. by apply preset_matches_keyed.
  - apply bool_decide_eq_true. intros H. apply preset_matches_keyed in H.
    congruence.
Qed.

(** C7: [delete_preset_db] removes every row of [presets] whose user is
    the given user and whose name is the given name, and nothing else:
    the table is left with the other rows, in their order, so the rows
    of any other user, and of the user under any other name, are the
    same as before; the other tables are untouched; and after two
    [add_preset_db] calls with one name, which add two rows of that user
    and name, both new rows are gone. *)
Theorem delete_preset_removes_all :
  forall (s : store) (u : Z) (name : string),
    let s' := delete_preset_db u name s in
    presets s' = List.filter (fun r => bool_decide (~ keyed u name r)) (presets s)
    /\ (forall r, In r (presets s') <-> In r (presets s) /\ ~ keyed u name r)
    /\ (forall v n, v <> u \/ n <> name ->
          List.filter (fun r => bool_decide (keyed v n r)) (presets s')
          = List.filter (fun r => bool_decide (keyed v n r)) (presets s))
    /\ users s' = users s /\ queries s' = queries s
    /\ (forall c1 c2 t1 t2,
          let added := add_preset_db t2 u name c2 (add_preset_db t1 u name c1 s) in
          (exists r1 r2,
              presets added = presets s ++ [r1; r2]
              /\ keyed u name r1 /\ keyed u name r2
              /\ p_content r1 = Text c1 /\ p_content r2 = Text c2)
          /\ presets (delete_preset_db u name added) = presets s').
Proof.
  intros s u name s'. subst s'. unfold delete_preset_db. cbn [presets users queries].
  assert (Hf : forall l : list preset_row,
             List.filter (fun r => negb (preset_matches u name r)) l
             = List.filter (fun r => bool_decide (~ keyed u name r)) l).
  { intros l. apply filter_ext. intros r. apply not_matched_not_keyed. }
  rewrite !Hf. split; [done|]. split; [|split; [|split; [done|split; [done|] ] ] ].
  - intros r. rewrite filter_In, bool_decide_eq_true. tauto.
  - intros v n Hne. induction (presets s) as [|a l IH]; [done|].
    cbn [List.filter]. case_bool_decide as Ha; cbn [List.filter].
    + by rewrite IH.
    + rewrite IH. rewrite bool_decide_eq_false_2; [done|].
      intros [H1 H2]. destruct Ha as [H3 H4]. destruct Hne; congruence.
  - intros c1 c2 t1 t2. split.
    + eexists _, _. unfold add_preset_db. cbn [presets].
      rewrite <- app_assoc. split; [reflexivity|]. by repeat split.
    + unfold add_preset_db. cbn [presets]. rewrite Hf.
      rewrite !List.filter_app. cbn [List.filter].
      rewrite !bool_decide_eq_false_2 by (intros H; apply H; by split).
      by rewrite !app_nil_r.
Qed.

Lemma filter_none_keeps_all {A} (f : A -> bool) (l : list A) :
  List.filter f l = [] -> List.filter (fun x => negb (f x)) l = l.
Proof.
  induction l as [|a l IH]; simpl; [done|].
  destruct (f a); simpl; [done|]. intros H. by rewrite IH.
Qed.

(** ** Handlers and adapters *)

(** C10: when no row of [presets] matches the user and the name,
    [handle_preset_del] returns normally, leaves [presets] (and [users])
    as they were, appends one row to [queries] for the command, and
    replies with the deletion confirmation; that reply is the one it
    gives from any other state of the tables, matching rows or not. *)
Theorem preset_del_of_absent_preset :
  forall (clock : nat -> string) (m : message) (w : world) (cmd name : string),
    split_ws 1 (msg_text m) = [cmd; name] ->
    List.filter (preset_matches (uid (from_user m)) name) (presets (db w)) = [] ->
    let w' := fst (handle_preset_del clock m w) in
    snd (handle_preset_del clock m w) = Return ()
    /\ presets (db w') = presets (db w)
    /\ users (db w') = users (db w)
    /\ (exists r,
          queries (db w') = queries (db w) ++ [r]
          /\ q_user_id r = Integer (uid (from_user m))
          /\ q_text r = Text ("/preset_del " +:+ name)
          /\ q_source r = Text "command"
          /\ q_ts r = Text (clock (ticks w)))
    /\ outbox w' = outbox w ++ [deletion_reply m name]
    /\ (forall w2 : world,
          outbox (fst (handle_preset_del clock m w2))
          = outbox w2 ++ [deletion_reply m name]).
Proof.
  intros clock m w cmd name Hsplit Hnone w'. subst w'.
  unfold handle_preset_del. rewrite Hsplit. simpl.
  rewrite (filter_none_keeps_all _ _ Hnone).
  repeat split; try done. eexists. repeat split.
Qed.

(** [/preset_del x] on empty tables. *)
Lemma preset_del_of_absent_preset_witness :
  snd (handle_preset_del fixed_clock preset_del_x fresh_world) = Return ()
  /\ presets (db (fst (handle_preset_del fixed_clock preset_del_x fresh_world)))
     = []
  /\ outbox (fst (handle_preset_del fixed_clock preset_del_x fresh_world))
     = [deletion_reply preset_del_x "x"].
Proof.
  destruct (preset_del_of_absent_preset fixed_clock preset_del_x fresh_world
              "/preset_del" "x") as (H1 & H2 & _ & _ & H5 & _).
  - vm_compute. reflexivity.
  - reflexivity.
  - split; [exact H1|]. split; [exact H2|exact H5].
Defined.

(** C8: without its credential (unset or empty) [ask_neuron], and
    likewise [get_news], raises [RuntimeError("... not set")] at once:
    the world is returned as it was, so no request has gone out, and the
    outcome is the same whatever the HTTP service would have replied. *)
Theorem adapters_fail_fast_without_credential :
  forall (key : option string) (http : nat -> http_request -> http_reply)
         (str_json : json -> string) (w : world),
    configured key = false ->
    (forall question,
        ask_neuron key http str_json question w
        = (w, Raise (RuntimeError "OPENROUTER_API_KEY not set")))
    /\ (forall topic limit,
          get_news key http topic limit w
          = (w, Raise (RuntimeError "NEWS_API_KEY not set"))).
Proof.
  intros key http str_json w Hkey. split; intros.
  - unfold ask_neuron. by rewrite Hkey.
  - unfold get_news. by rewrite Hkey.
Qed.

(** An unset key and an empty key. *)
Lemma adapters_fail_fast_without_credential_witness :
  ask_neuron None unreachable (fun _ => EmptyString) "why?" fresh_world
  = (fresh_world, Raise (RuntimeError "OPENROUTER_API_KEY not set"))
  /\ get_news (Some EmptyString) unreachable "rocq" 5 fresh_world
     = (fresh_world, Raise (RuntimeError "NEWS_API_KEY not set")).
Proof.
  split.
  - apply (adapters_fail_fast_without_credential None unreachable
             (fun _ => EmptyString) fresh_world); reflexivity.
  - apply (adapters_fail_fast_without_credential (Some EmptyString) unreachable
             (fun _ => EmptyString) fresh_world); reflexivity.
Defined.

(** ** Escaping *)

Lemma append_cons (c : ascii) (a b : string) :
  String c a +:+ b = String c (a +:+ b).
Proof. reflexivity. Qed.


Lemma append_nil_r (a : string) : a +:+ EmptyString = a.
Proof.
  induction a as [|c a IH]; [done|]. by rewrite append_cons, IH.
Qed.

Lemma append_assoc (a b c : string) : (a +:+ b) +:+ c = a +:+ (b +:+ c).
Proof.
  induction a as [|x a IH]; [done|]. by rewrite !append_cons, IH.
Qed.

Lemma starts_with_app (p : string) : forall r b,
  starts_with p r = true -> starts_with p (r +:+ b) = true.
Proof.
  induction p as [|a p IH]; intros r b H; [done|].
  destruct r as [|c r]; [done|]. rewrite append_cons. simpl in *.
  apply andb_true_iff in H as [H1 H2]. rewrite H1. simpl. by apply IH.
Qed.

Lemma html_safe_cons (c : ascii) (r : string) :
  html_safe (String c r)
  = if Ascii.eqb c "<" || Ascii.eqb c ">" then false
    else if Ascii.eqb c "&" then
      existsb (fun e => starts_with e r) entities && html_safe r
    else html_safe r.
Proof. reflexivity. Qed.

Lemma html_safe_app (a b : string) :
  html_safe a = true -> html_safe b = true -> html_safe (a +:+ b) = true.
Proof.
  intros Ha Hb. induction a as [|c a IH]; [done|].
  rewrite append_cons, html_safe_cons. rewrite html_safe_cons in Ha.
  destruct (Ascii.eqb c "<" || Ascii.eqb c ">"); [done|].
  destruct (Ascii.eqb c "&"); [|by apply IH].
  apply andb_true_iff in Ha as [He Ha]. rewrite (IH Ha), andb_true_r.
  apply existsb_exists in He as (e & Hin & He).
  apply existsb_exists. exists e. split; [done|]. by apply starts_with_app.
Qed.

Lemma replace_char_app c rep (a b : string) :
  replace_char c rep (a +:+ b) = replace_char c rep a +:+ replace_char c rep b.
Proof.
  induction a as [|x a IH]; [done|]. rewrite append_cons. simpl.
  destruct (Ascii.eqb x c); rewrite IH; [by rewrite append_assoc|done].
Qed.

Lemma escape_app (a b : string) : escape (a +:+ b) = escape a +:+ escape b.
Proof. unfold escape. by rewrite !replace_char_app. Qed.

Lemma html_safe_escape_char (c : ascii) :
  html_safe (escape (String c EmptyString)) = true.
Proof. destruct c as [[] [] [] [] [] [] [] []]; reflexivity. Qed.

(** Escaped text is safe, whatever the text was. *)
Lemma html_safe_escape (s : string) : html_safe (escape s) = true.
Proof.
  induction s as [|c s IH]; [done|].
  change (String c s) with (String c EmptyString +:+ s).
  rewrite escape_app. apply html_safe_app; [apply html_safe_escape_char|done].
Qed.













(** *** Bodies made of authored tags and safe text *)

Lemma rich_safe (t : string) : html_safe t = true -> rich t.
Proof.
  intros H. rewrite <- (append_nil_r t). apply rich_text; [done|constructor].
Qed.

Lemma rich_app (a b : string) : rich a -> rich b -> rich (a +:+ b).
Proof.
  intros Ha Hb. induction Ha as [|tag s Hin Hs IH|t s Ht Hs IH]; [done| |];
    rewrite append_assoc; by constructor.
Qed.






(** *** The tags of a body *)








Section ReportMarkup.
Variable float_of_text : string -> option Q.
Variable str_float : Q -> string.






End ReportMarkup.

Lemma well_marked_cons (c : ascii) (r : string) :
  well_marked (String c r)
  = if Ascii.eqb c "<" then
      (starts_with "b>" r || starts_with "/b>" r) && well_marked r
    else if Ascii.eqb c "&" then
      existsb (fun e => starts_with e r) entities && well_marked r
    else well_marked r.
Proof. reflexivity. Qed.

Lemma well_marked_app (a b : string) :
  well_marked a = true -> well_marked b = true -> well_marked (a +:+ b) = true.
Proof.
  intros Ha Hb. induction a as [|c a IH]; [done|].
  rewrite append_cons, well_marked_cons. rewrite well_marked_cons in Ha.
  destruct (Ascii.eqb c "<").
  - apply andb_true_iff in Ha as [Ht Ha]. rewrite (IH Ha), andb_true_r.
    apply orb_true_iff in Ht as [Ht|Ht]; apply orb_true_iff;
      [left|right]; by apply starts_with_app.
  - destruct (Ascii.eqb c "&"); [|by apply IH].
    apply andb_true_iff in Ha as [He Ha]. rewrite (IH Ha), andb_true_r.
    apply existsb_exists in He as (e & Hin & He).
    apply existsb_exists. exists e. split; [done|]. by apply starts_with_app.
Qed.

Lemma html_safe_well_marked (t : string) :
  html_safe t = true -> well_marked t = true.
Proof.
  induction t as [|c t IH]; [done|].
  rewrite html_safe_cons, well_marked_cons.
  destruct (Ascii.eqb c "<"); [done|]. simpl.
  destruct (Ascii.eqb c ">"); [done|].
  destruct (Ascii.eqb c "&"); [|done].
  intros H. apply andb_true_iff in H as [He Ht]. by rewrite He, IH.
Qed.

(** A rich body has no markup but the authored tags. *)
Lemma rich_well_marked (s : string) : rich s -> well_marked s = true.
Proof.
  induction 1 as [|tag s Hin Hs IH|t s Ht Hs IH]; [done| |].
  - apply well_marked_app; [|done].
    destruct Hin as [<-|[<-|[]]]; reflexivity.
  - apply well_marked_app; [by apply html_safe_well_marked|done].
Qed.

(** Text with markup of its own is not a rich body: the property of the
    handlers below fails for a body that takes its input as it comes. *)
Example raw_input_is_not_rich :
  ~ rich ("👋 Привет, <b>" +:+ "<i>Ann</i>" +:+ "</b>!")
  /\ ~ rich ("Tom & Jerry")
  /\ rich ("👋 Привет, <b>" +:+ escape "<i>Ann</i>" +:+ "</b>!").
Proof.
  split; [|split].
  - intros H. apply rich_well_marked in H. vm_compute in H. discriminate.
  - intros H. apply rich_well_marked in H. vm_compute in H. discriminate.
  - change (rich ("👋 Привет, " +:+ ("<b>" +:+ escape "<i>Ann</i>" +:+ "</b>!"))).
    apply rich_app; [by apply rich_safe|]. apply rich_tag; [by left|].
    apply rich_app; [apply rich_safe, html_safe_escape|].
    change (rich ("</b>" +:+ "!")). apply rich_tag; [right; by left|].
    by apply rich_safe.
Qed.

(** A name taken as it comes would pass for authored tags, and shows in
    the tags of the greeting; escaped, it adds none. *)
Example unescaped_name_adds_tags :
  rich ("👋 Привет, <b>" +:+ "</b><b>Ann" +:+ "</b>!")
  /\ tags ("👋 Привет, <b>" +:+ "</b><b>Ann" +:+ "</b>!")
     = ["<b>"; "</b>"; "<b>"; "</b>"]
  /\ tags ("👋 Привет, <b>" +:+ escape "</b><b>Ann" +:+ "</b>!") = bold
  /\ tags ("🏙️ Топ городов: " +:+ join ", " ["<i>Rome</i>"]) = ["<i>"; "</i>"]
  /\ tags ("🏙️ Топ городов: " +:+ join ", " (map escape ["<i>Rome</i>"])) = [].
Proof.
  split; [|vm_compute; by repeat split].
  change (rich ("👋 Привет, " +:+ ("<b>" +:+ ("</b>" +:+ ("<b>" +:+ ("Ann" +:+ ("</b>" +:+ "!"))))))).
  apply rich_app; [by apply rich_safe|]. apply rich_tag; [by left|].
  apply rich_tag; [right; by left|]. apply rich_tag; [by left|].
  apply rich_app; [by apply rich_safe|]. apply rich_tag; [right; by left|].
  by apply rich_safe.
Qed.

(** *** The four handlers that send rich text *)





Lemma ask_neuron_outbox key http str_json question w :
  outbox (fst (ask_neuron key http str_json question w)) = outbox w.
Proof. unfold ask_neuron. by destruct (negb (configured key)). Qed.


Section HandlerMarkup.
Variable OPENROUTER_API_KEY : option string.
Variable NEWS_API_KEY : option string.
Variable clock : nat -> string.
Variable http : nat -> http_request -> http_reply.
Variable str_json : json -> string.
Variable sample_as_cp1251 : result DataFrame.
Variable float_of_text : string -> option Q.
Variable str_float : Q -> string.
Variable str_library_exn : exn -> string.







(** The handlers that reply without a parse mode. *)
Lemma html_bodies_plain (P : string -> Prop) (msgs : list outgoing) :
  (forall o, In o msgs -> parse_mode o = None) -> html_bodies P msgs.
Proof. intros H o Ho Hmode. rewrite (H o Ho) in Hmode. discriminate. Qed.











End HandlerMarkup.


(** ** The model on concrete inputs *)

Example ask_reply_is_escaped :
  let w := fst (handle_ask (Some "key") fixed_clock answering
                           (fun _ => EmptyString) (fun _ => EmptyString)
                           ask_bold fresh_world) in
  map body (outbox w) = ["use &lt;b&gt; &amp; &lt;/b&gt;"]
  /\ map parse_mode (outbox w) = [Some "HTML"]
  /\ List.length (wire w) = 1%nat
  /\ map q_text (queries (db w)) = [Text "what is <b>?"].
Proof. vm_compute. by repeat split. Qed.

Example ask_without_key_sends_nothing :
  let w := fst (handle_ask None fixed_clock answering
                           (fun _ => EmptyString) (fun _ => EmptyString)
                           ask_bold fresh_world) in
  wire w = []
  /\ map body (outbox w)
     = ["⚠️ Ошибка при обращении к нейросети: OPENROUTER_API_KEY not set"]
  /\ map parse_mode (outbox w) = [None].
Proof. vm_compute. by repeat split. Qed.

Example history_of_interleaved_users :
  list_history 7 10 three_logged
  = [(Text "c", Text "2025-09-10 10:00:03"); (Text "a", Text "2025-09-10 10:00:01")]
  /\ list_history 7 1 three_logged = [(Text "c", Text "2025-09-10 10:00:03")]
  /\ list_history 8 10 three_logged = [(Text "b", Text "2025-09-10 10:00:02")].
Proof. vm_compute. by repeat split. Qed.

Example split_keeps_the_tail :
  split_ws 1 "/preset_del  my preset  " = ["/preset_del"; "my preset  "]
  /\ split_ws 1 "/preset_del" = ["/preset_del"]
  /\ strip (after_first_space "/ask  what is <b>? ") = "what is <b>?".
Proof. vm_compute. by repeat split. Qed.

(** * Further properties *)

(** ** Schema manager: what a run keeps and what it creates *)









Example fresh_database_gets_target_schema :
  exists conn1 : gmap string table,
    ensure_tables_and_columns ∅ = Return conn1
    /\ (cols <$> conn1 !! "users") = Some (target_columns "users")
    /\ (cols <$> conn1 !! "queries") = Some (target_columns "queries")
    /\ (cols <$> conn1 !! "presets") = Some (target_columns "presets")
    /\ conn1 !! "sqlite_sequence" = Some sqlite_sequence
    /\ dom conn1 = {["users"; "queries"; "presets"; "sqlite_sequence"]}.
Proof.
  eexists. rewrite ensure_tables_and_columns_spec.
  split; [vm_compute; reflexivity|]. vm_compute. by repeat split.
Qed.

(** ** Persistence gateway: keys, round trips and bounds *)

Lemma NoDup_snoc_Z (l : list Z) (x : Z) :
  NoDup l -> ~ In x l -> NoDup (l ++ [x]).
Proof.
  intros Hl Hx. apply NoDup_app. split; [done|]. split.
  - intros y Hy Hyx. apply list_elem_of_In in Hy, Hyx.
    destruct Hyx as [<-|[]]. done.
  - apply NoDup_singleton.
Qed.

Lemma next_id_fresh (seq : Z) (ids : list Z) : ~ In (next_id seq ids) ids.
Proof. intros H. apply (next_id_above seq) in H. lia. Qed.

Lemma keys_below_snoc (seq : Z) (ids : list Z) :
  keys_below (next_id seq ids) (ids ++ [next_id seq ids]).
Proof.
  intros x Hx. apply in_app_or in Hx as [Hx|[<-|[]]]; [|lia].
  apply (next_id_above seq) in Hx. lia.
Qed.

Lemma NoDup_map_filter {A} (f : A -> Z) (p : A -> bool) (l : list A) :
  NoDup (map f l) -> NoDup (map f (List.filter p l)).
Proof.
  induction l as [|a l IH]; simpl; [done|]. intros H.
  apply NoDup_cons in H as [Ha Hl]. destruct (p a); simpl; [|by apply IH].
  apply NoDup_cons. split; [|by apply IH].
  intros Hin. apply Ha. apply list_elem_of_In in Hin. apply list_elem_of_In.
  apply in_map_iff in Hin as (x & Hx & Hin). apply in_map_iff.
  exists x. split; [done|]. apply filter_In in Hin. tauto.
Qed.

Lemma existsb_user_id_false (u : Z) (l : list user_row) :
  existsb (fun r => user_id r =? u) l = false -> ~ In u (map user_id l).
Proof.
  intros H Hin. apply in_map_iff in Hin as (x & Hx & Hin).
  assert (existsb (fun r => user_id r =? u) l = true); [|congruence].
  apply existsb_exists. exists x. split; [done|]. by apply Z.eqb_eq.
Qed.

(** X3: every writing operation keeps the tables well keyed: no user
    identifier, query key or preset key comes to occur twice, and the
    sequences stay at or above the keys handed out. *)
Theorem writes_keep_keys :
  forall (s : store), well_keyed s ->
    (forall now user, well_keyed (register_user now user s))
    /\ (forall now u text source params,
          well_keyed (fst (log_query now u text source params s)))
    /\ (forall now u name content, well_keyed (add_preset_db now u name content s))
    /\ (forall u name, well_keyed (delete_preset_db u name s)).
Proof.
  intros s (Hu & Hq & Hp & Hsq & Hsp). repeat split; try done; simpl.
  - unfold register_user. destruct (existsb _ (users s)) eqn:E; [done|]. simpl.
    rewrite map_app. apply NoDup_snoc_Z; [done|].
    by apply existsb_user_id_false.
  - unfold register_user. by destruct (existsb _ (users s)).
  - unfold register_user. by destruct (existsb _ (users s)).
  - unfold register_user. by destruct (existsb _ (users s)).
  - unfold register_user. by destruct (existsb _ (users s)).
  - rewrite map_app. apply NoDup_snoc_Z; [done|apply next_id_fresh].
  - rewrite map_app. apply keys_below_snoc.
  - rewrite map_app. apply NoDup_snoc_Z; [done|apply next_id_fresh].
  - rewrite map_app. apply keys_below_snoc.
  - by apply NoDup_map_filter.
  - intros x Hx. apply Hsp. apply in_map_iff in Hx as (r & Hr & Hin).
    apply in_map_iff. exists r. split; [done|]. apply filter_In in Hin. tauto.
Qed.

(** On tables with rows in each: a user who is new and one who is
    registered, one more query, a fourth preset, and the deletion of
    two. *)
Lemma writes_keep_keys_witness :
  well_keyed (register_user "2025-09-10 10:00:06" bob busy_store)
  /\ well_keyed (register_user "2025-09-10 10:00:06" ann_renamed busy_store)
  /\ well_keyed (fst (log_query "2025-09-10 10:00:06" 8 "again" "message" None
                                busy_store))
  /\ well_keyed (add_preset_db "2025-09-10 10:00:06" 7 "x" "fourth" busy_store)
  /\ well_keyed (delete_preset_db 7 "x" busy_store).
Proof.
  assert (H : well_keyed busy_store).
  { repeat split; try compute_done.
    - intros x Hx. vm_compute in Hx.
      repeat (destruct Hx as [<-|Hx]; [vm_compute; discriminate|]).
      destruct Hx.
    - intros x Hx. vm_compute in Hx.
      repeat (destruct Hx as [<-|Hx]; [vm_compute; discriminate|]).
      destruct Hx. }
  destruct (writes_keep_keys busy_store H) as (Hr & Hl & Ha & Hd).
  split; [apply Hr|]. split; [apply Hr|]. split; [apply Hl|].
  split; [apply Ha|apply Hd].
Defined.

(** X4: a preset key is never handed out again.  After any deletion, the
    key of the next preset added exceeds the key of every row the table
    held before the deletion. *)
Theorem preset_keys_are_not_reused :
  forall (s : store) (u u' : Z) (name name' content now : string),
    keys_below (seq_presets s) (map p_id (presets s)) ->
    let deleted := delete_preset_db u name s in
    exists r,
      presets (add_preset_db now u' name' content deleted) = presets deleted ++ [r]
      /\ p_content r = Text content
      /\ (forall x, In x (presets s) -> p_id x < p_id r).
Proof.
  intros s u u' name name' content now Hseq deleted. eexists.
  split; [reflexivity|]. split; [reflexivity|]. intros x Hx. simpl.
  assert (p_id x <= seq_presets s) by (apply Hseq; by apply in_map).
  pose proof (next_id_above_seq (seq_presets s)
                (map p_id (List.filter (fun r => negb (preset_matches u name r))
                                       (presets s)))). lia.
Qed.

(** Both presets named [x] are deleted; the next one gets key 4. *)
Lemma preset_keys_are_not_reused_witness :
  exists r,
    presets (add_preset_db "2025-09-10 10:00:04" 7 "x" "third"
               (delete_preset_db 7 "x" some_presets))
    = presets (delete_preset_db 7 "x" some_presets) ++ [r]
    /\ p_content r = Text "third"
    /\ (forall x, In x (presets some_presets) -> p_id x < p_id r).
Proof.
  apply (preset_keys_are_not_reused some_presets 7 7 "x" "x" "third"
           "2025-09-10 10:00:04").
  intros x Hx. vm_compute in Hx. vm_compute.
  destruct Hx as [<-|[<-|[<-|[]]]]; discriminate.
Defined.

Lemma preset_matches_inj (u u' : Z) (n n' : string) (r : preset_row) :
  preset_matches u n r = true -> preset_matches u' n' r = true ->
  u = u' /\ n = n'.
Proof.
  unfold preset_matches, sql_eqb. intros H H'.
  apply andb_true_iff in H as [H1 H2]. apply andb_true_iff in H' as [H1' H2'].
  destruct (p_user_id r); try done. destruct (p_name r); try done.
  apply Z.eqb_eq in H1, H1'. apply String.eqb_eq in H2, H2'. split; congruence.
Qed.

Lemma filter_other_key (u u' : Z) (n n' : string) (l : list preset_row) :
  u' ≠ u \/ n' ≠ n ->
  List.filter (preset_matches u' n')
              (List.filter (fun r => negb (preset_matches u n r)) l)
  = List.filter (preset_matches u' n') l.
Proof.
  intros Hne. induction l as [|a l IH]; simpl; [done|].
  destruct (preset_matches u n a) eqn:E; simpl.
  - destruct (preset_matches u' n' a) eqn:E'; [|done].
    destruct (preset_matches_inj _ _ _ _ _ E E'). destruct Hne; congruence.
  - by rewrite IH.
Qed.

(** X5: what [get_preset_db] finds after [add_preset_db].  A first
    preset under a name is found with its content; a preset added under a
    name the user already has is shadowed by the oldest one, which stays
    the one found; presets under other names or of other users are found
    as before. *)
Theorem get_after_add :
  forall (s : store) (u : Z) (name content now : string),
    get_preset_db u name (add_preset_db now u name content s)
    = match List.filter (preset_matches u name) (presets s) with
      | [] => Text content
      | oldest :: _ => p_content oldest
      end
    /\ (forall u' name', u' ≠ u \/ name' ≠ name ->
          get_preset_db u' name' (add_preset_db now u name content s)
          = get_preset_db u' name' s).
Proof.
  intros s u name content now. unfold get_preset_db, add_preset_db. simpl.
  rewrite !List.filter_app. simpl. split.
  - unfold preset_matches at 2. simpl.
    rewrite Z.eqb_refl, String.eqb_refl. simpl.
    by destruct (List.filter _ (presets s)).
  - intros u' name' Hne. rewrite List.filter_app. simpl.
    assert (E : preset_matches u' name'
                  {| p_id := next_id (seq_presets s) (map p_id (presets s));
                     p_user_id := Integer u; p_name := Text name;
                     p_content := Text content; p_created_at := Text now |}
                = false).
    { unfold preset_matches. simpl. apply andb_false_iff.
      destruct Hne as [H|H]; [left; apply Z.eqb_neq|right; apply String.eqb_neq];
        congruence. }
    by rewrite E, app_nil_r.
Qed.

(** X6: [list_presets_db] after [add_preset_db]: the user's list grows
    by the new pair at its end, duplicates of a name included; the lists
    of the other users do not change. *)
Theorem list_after_add :
  forall (s : store) (u : Z) (name content now : string),
    list_presets_db u (add_preset_db now u name content s)
    = list_presets_db u s ++ [(Text name, Text content)]
    /\ (forall v, v ≠ u ->
          list_presets_db v (add_preset_db now u name content s)
          = list_presets_db v s).
Proof.
  intros s u name content now. unfold list_presets_db, add_preset_db. simpl.
  rewrite !List.filter_app. simpl. rewrite Z.eqb_refl. split.
  - by rewrite map_app.
  - intros v Hv. rewrite List.filter_app. simpl.
    rewrite (proj2 (Z.eqb_neq u v)) by congruence. by rewrite app_nil_r.
Qed.

(** X7: after [delete_preset_db] the name is not found ([get_preset_db]
    gives [None]) and is missing from the user's list; deleting again
    changes nothing; presets under other names or of other users are
    found as before. *)
Theorem get_after_delete :
  forall (s : store) (u : Z) (name : string),
    let s' := delete_preset_db u name s in
    get_preset_db u name s' = Null
    /\ (forall content, ~ In (Text name, content) (list_presets_db u s'))
    /\ delete_preset_db u name s' = s'
    /\ (forall u' name', u' ≠ u \/ name' ≠ name ->
          get_preset_db u' name' s' = get_preset_db u' name' s).
Proof.
  intros s u name s'. subst s'.
  assert (Hnone : List.filter (preset_matches u name)
                    (List.filter (fun r => negb (preset_matches u name r))
                                 (presets s)) = []).
  { induction (presets s) as [|a l IH]; simpl; [done|].
    destruct (preset_matches u name a) eqn:E; simpl; [done|]. by rewrite E. }
  split; [|split; [|split]].
  - unfold get_preset_db. simpl. by rewrite Hnone.
  - intros content Hin. unfold list_presets_db in Hin. simpl in Hin.
    apply in_map_iff in Hin as (r & Hr & Hin). injection Hr as Hn Hc.
    apply filter_In in Hin as [Hin Hu]. apply filter_In in Hin as [_ Hneg].
    apply negb_true_iff in Hneg. unfold preset_matches in Hneg.
    rewrite Hu, Hn in Hneg. simpl in Hneg. by rewrite String.eqb_refl in Hneg.
  - unfold delete_preset_db. simpl. f_equal.
    by apply filter_none_keeps_all.
  - intros u' name' Hne. unfold get_preset_db. simpl.
    by rewrite filter_other_key.
Qed.

Lemma insert_by_id_In (r x : query_row) (l : list query_row) :
  In x (insert_by_id r l) <-> x = r \/ In x l.
Proof.
  induction l as [|a l IH]; simpl; [intuition|].
  destruct (q_id a <=? q_id r); simpl; [intuition|]. rewrite IH. intuition.
Qed.

Lemma insert_by_id_length (r : query_row) (l : list query_row) :
  List.length (insert_by_id r l) = S (List.length l).
Proof.
  induction l as [|a l IH]; simpl; [done|].
  destruct (q_id a <=? q_id r); simpl; [done|]. by rewrite IH.
Qed.

Lemma order_by_id_desc_In (x : query_row) (l : list query_row) :
  In x (order_by_id_desc l) <-> In x l.
Proof.
  unfold order_by_id_desc. induction l as [|a l IH]; simpl; [done|].
  rewrite insert_by_id_In, IH. intuition.
Qed.

Lemma order_by_id_desc_length (l : list query_row) :
  List.length (order_by_id_desc l) = List.length l.
Proof.
  unfold order_by_id_desc. induction l as [|a l IH]; simpl; [done|].
  by rewrite insert_by_id_length, IH.
Qed.

Lemma In_take {A} (x : A) (n : nat) : forall l, In x (firstn n l) -> In x l.
Proof.
  induction n as [|n IH]; intros [|a l]; simpl; try done.
  intros [->|H]; [by left|right; by apply IH].
Qed.

(** X8: [list_history] with a limit [n] returns [n] pairs, or all the
    user's pairs when there are fewer; each pair is the text and time of
    one of that user's rows, never of another user's; and a smaller limit
    gives the beginning of what a larger limit gives. *)
Theorem history_is_bounded :
  forall (s : store) (u : Z) (n m : nat),
    List.length (list_history u (Z.of_nat n) s)
    = Nat.min n (List.length (queries_of u s))
    /\ (forall p, In p (list_history u (Z.of_nat n) s) ->
          exists r, In r (queries s) /\ q_user_id r = Integer u
                    /\ p = (q_text r, q_ts r))
    /\ ((n <= m)%nat ->
        list_history u (Z.of_nat n) s
        = firstn n (list_history u (Z.of_nat m) s)).
Proof.
  intros s u n m. unfold list_history, sql_limit, queries_of.
  rewrite !(proj2 (Z.ltb_ge _ _)) by lia. rewrite !Nat2Z.id.
  split; [|split].
  - by rewrite length_map, length_firstn, order_by_id_desc_length.
  - intros p Hp. apply in_map_iff in Hp as (r & Hr & Hin).
    apply In_take in Hin. apply (proj1 (order_by_id_desc_In _ _)) in Hin.
    apply filter_In in Hin as [Hin Hu]. exists r. split; [done|].
    split; [|done]. unfold sql_eqb in Hu. destruct (q_user_id r); try done.
    apply Z.eqb_eq in Hu. by subst.
  - intros Hnm. rewrite firstn_map, firstn_firstn.
    by rewrite Nat.min_l by done.
Qed.

(** X9: the first registration of a user appends one row holding the
    identifier, the username (NULL when there is none), the clock reading
    and the full name: first and last name joined by one space, or the
    one that is present alone, with no stray space.  The other tables
    are not touched. *)
Theorem register_new_user :
  forall (s : store) (user : tg_user) (now : string),
    rows_of_user (uid user) s = [] ->
    let s' := register_user now user s in
    (exists row,
        users s' = users s ++ [row]
        /\ user_id row = uid user
        /\ username row = sql_of_str (tg_username user)
        /\ reg_date row = Text now
        /\ fullname row
           = Text match given (first_name user), given (last_name user) with
                  | Some f, Some l => f +:+ " " +:+ l
                  | Some f, None => f
                  | None, Some l => l
                  | None, None => EmptyString
                  end)
    /\ queries s' = queries s /\ presets s' = presets s.
Proof.
  intros s user now Hnew s'. subst s'. unfold register_user.
  assert (E : existsb (fun r => user_id r =? uid user) (users s) = false).
  { apply not_true_is_false. intros H.
    apply existsb_exists in H as (x & Hx & Heq).
    assert (In x (rows_of_user (uid user) s)) as Hin
      by (apply filter_In; by split).
    by rewrite Hnew in Hin. }
  rewrite E. simpl. split; [|done]. eexists. split; [reflexivity|].
  repeat split.
  destruct (first_name user) as [[|c f]|], (last_name user) as [[|d l]|];
    simpl; try reflexivity;
    unfold join; simpl; by rewrite ?append_nil_r.
Qed.

(** A sender without a last name or username. *)
Lemma register_new_user_witness :
  (exists row,
      users (register_user "2025-09-10 10:00:00" bob empty_store) = [] ++ [row]
      /\ user_id row = 8
      /\ username row = Null
      /\ reg_date row = Text "2025-09-10 10:00:00"
      /\ fullname row = Text "Bob")
  /\ queries (register_user "2025-09-10 10:00:00" bob empty_store) = []
  /\ presets (register_user "2025-09-10 10:00:00" bob empty_store) = [].
Proof.
  apply (register_new_user empty_store bob "2025-09-10 10:00:00").
  reflexivity.
Defined.

(** X10: [log_query] returns the key of the row it has just appended;
    that key exceeds every key in the table and the sequence value, so
    the keys returned by successive calls, for whatever users, strictly
    increase. *)
Theorem log_query_returns_new_key :
  forall (s : store) (now text source : string) (u : Z) (params : option string),
    let s' := fst (log_query now u text source params s) in
    let qid := snd (log_query now u text source params s) in
    (exists r, queries s' = queries s ++ [r] /\ q_id r = qid)
    /\ (forall x, In x (queries s) -> q_id x < qid)
    /\ seq_queries s < qid
    /\ (forall now' u' text' source' params',
          qid < snd (log_query now' u' text' source' params' s')).
Proof.
  intros s now text source u params s' qid. subst s' qid. simpl.
  split; [eexists; by split|]. split; [|split].
  - intros x Hx. apply next_id_above. by apply in_map.
  - apply next_id_above_seq.
  - intros. apply next_id_above_seq.
Qed.

(** ** Report engine: the file, the failures, the tokens *)

(** X11: the report and the dataset file.  An existing file is never
    replaced, a missing one is created from the sample, and a second
    report finds the file the first one left.  The report raises exactly
    when the file decodes under neither encoding or the retry fails
    otherwise, with the exception of the retry; on the file it created
    itself it never raises. *)
Theorem report_and_dataset_file :
  forall (sample_as_cp1251 : result DataFrame)
         (float_of_text : string -> option Q) (str_float : Q -> string)
         (disk : option csv_file) (f : csv_file) (e : exn),
    let report := generate_report_from_demo sample_as_cp1251 float_of_text
                                            str_float in
    fst (report (Some f)) = Some f
    /\ fst (report None) = Some (demo_csv sample_as_cp1251)
    /\ fst (report (fst (report disk))) = fst (report disk)
    /\ (snd (report (Some f)) = Raise e
        <-> read_utf8 f = Raise UnicodeDecodeError /\ read_cp1251 f = Raise e)
    /\ snd (report None) <> Raise e.
Proof.
  intros X F S disk f e report. subst report.
  split; [done|]. split; [done|]. split; [by destruct disk|].
  split; [apply report_raises_iff|].
  unfold generate_report_from_demo, load_csv_safe. simpl.
  by destruct (report_body F S (frame_of_rows sample)).
Qed.

Lemma float_of_cell_raises (F : string -> option Q) (c : cell) (e : exn) :
  float_of_cell F c = Raise e
  <-> e = ValueError /\ exists s, c = CStr s /\ F s = None.
Proof.
  split.
  - destruct c; simpl; try done. destruct (F s) eqn:Es; [done|].
    intros [= <-]. eauto.
  - intros (-> & s & -> & Hs). simpl. by rewrite Hs.
Qed.

Lemma astype_float_raises (F : string -> option Q) (l : list cell) (e : exn) :
  astype_float F l = Raise e
  <-> e = ValueError /\ exists s, In (CStr s) l /\ F s = None.
Proof.
  revert e. induction l as [|c l IH]; intros e; simpl.
  - split; [done|]. by intros (_ & s & [] & _).
  - destruct (float_of_cell F c) as [x|e1] eqn:Ec.
    + rewrite bind_Return. destruct (astype_float F l) as [xs|e2] eqn:El.
      * rewrite bind_Return. split; [done|]. intros (-> & s & [->|Hin] & Hs).
        -- simpl in Ec. by rewrite Hs in Ec.
        -- assert (H : Return xs = Raise ValueError :> result (list (option Q)))
             by (apply (IH ValueError); eauto).
           discriminate.
      * split.
        -- intros [= <-]. destruct (proj1 (IH e2) eq_refl) as (-> & s & Hin & Hs).
           split; [done|]. exists s. split; [by right|done].
        -- intros (-> & _).
           destruct (proj1 (IH e2) eq_refl) as (-> & _). reflexivity.
    + split.
      * intros [= <-].
        destruct (proj1 (float_of_cell_raises F c e1) Ec) as (-> & s & -> & Hs).
        split; [done|]. exists s. split; [by left|done].
      * intros (-> & _).
        destruct (proj1 (float_of_cell_raises F c e1) Ec) as (-> & _).
        reflexivity.
Qed.

(** X12: when the salary column holds text that [float()] rejects,
    building the report fails with [ValueError], whatever else the
    dataset holds; the report function then returns its second fixed
    message instead of a report. *)
Theorem report_fails_on_salary_text :
  forall (sample_as_cp1251 : result DataFrame)
         (float_of_text : string -> option Q) (str_float : Q -> string)
         (df : DataFrame) (s : string),
    has_column df "salary" = true ->
    In (CStr s) (column df "salary") ->
    float_of_text s = None ->
    report_body float_of_text str_float df = Raise ValueError
    /\ (forall f, read_utf8 f = Return df -> df_empty df = false ->
          snd (generate_report_from_demo sample_as_cp1251 float_of_text
                                         str_float (Some f))
          = Return report_failed).
Proof.
  intros X F S df s Hcol Hin Hs.
  assert (Hbody : report_body F S df = Raise ValueError).
  { unfold report_body. rewrite Hcol.
    assert (astype_float F (column df "salary") = Raise ValueError) as ->
      by (apply astype_float_raises; eauto).
    reflexivity. }
  split; [exact Hbody|].
  intros f Hf Hne. unfold generate_report_from_demo, load_csv_safe. simpl.
  rewrite Hf. simpl. by rewrite Hne, Hbody.
Qed.

Lemma report_fails_on_salary_text_witness :
  report_body no_number (fun _ => EmptyString) salary_tbd = Raise ValueError
  /\ snd (generate_report_from_demo (Raise OtherException) no_number
            (fun _ => EmptyString)
            (Some {| read_utf8 := Return salary_tbd;
                     read_cp1251 := Raise OtherException |}))
     = Return report_failed.
Proof.
  destruct (report_fails_on_salary_text (Raise OtherException) no_number
              (fun _ => EmptyString) salary_tbd "tbd") as [Hb Hr].
  - reflexivity.
  - simpl. by left.
  - reflexivity.
  - split; [exact Hb|]. by apply Hr.
Defined.

Lemma split_on_nonempty (c : ascii) (s : string) : split_on c s <> [].
Proof. destruct s as [|a s]; simpl; [done|]. destruct (Ascii.eqb a c); [done|]. by destruct (split_on c s). Qed.

Lemma split_on_append (c : ascii) (a b : string) :
  split_on c (a +:+ String c b) = split_on c a ++ split_on c b.
Proof.
  induction a as [|x a IH]; [simpl; by rewrite Ascii.eqb_refl|].
  rewrite append_cons. simpl. rewrite IH.
  destruct (Ascii.eqb x c); [done|].
  pose proof (split_on_nonempty c a). by destruct (split_on c a).
Qed.

(** X13: joining cells with the separator and splitting the result
    yields the fields of every cell, cell after cell; with no cell at all
    it yields one empty field. *)
Theorem split_of_join :
  forall (c : ascii) (cells : list string),
    split_on c (join (String c EmptyString) cells)
    = match cells with
      | [] => [EmptyString]
      | _ => flat_map (split_on c) cells
      end.
Proof.
  intros c cells. unfold join. induction cells as [|x l IH]; [done|].
  simpl. destruct l as [|y l]; [by rewrite app_nil_r|].
  change (String c EmptyString +:+ ?t) with (String c t).
  rewrite split_on_append. f_equal. exact IH.
Qed.

(** X14: when the dataset has a skills column and no value in it, the
    single empty field counts as a skill: the report carries a skills
    line with an empty entry. *)
Theorem report_with_empty_skills :
  forall (float_of_text : string -> option Q) (str_float : Q -> string)
         (data : list (list cell)),
    data <> [] ->
    Forall (fun r => nth 0 r CNaN = CNaN) data ->
    report_body float_of_text str_float {| columns := ["skills"]; rows := data |}
    = Return (join nl
        [ "<b>📊 Аналитический отчёт (demo.csv)</b>";
          "🔥 Частые навыки: ";
          nl +:+ "⚠️ Это демонстрационный отчёт. Ответ составлен ботом-ассистентом." ]).
Proof.
  intros F S data Hne Hall. unfold report_body. simpl.
  assert (E : dropna (column {| columns := ["skills"]; rows := data |} "skills") = []).
  { unfold column. simpl. induction Hall as [|r l Hr Hl IH]; [done|].
    simpl. rewrite Hr. simpl. destruct l; [done|]. by apply IH. }
  rewrite E. reflexivity.
Qed.

Lemma report_with_empty_skills_witness :
  report_body no_number (fun _ => EmptyString) no_skills
  = Return (join nl
      [ "<b>📊 Аналитический отчёт (demo.csv)</b>";
        "🔥 Частые навыки: ";
        nl +:+ "⚠️ Это демонстрационный отчёт. Ответ составлен ботом-ассистентом." ]).
Proof.
  apply (report_with_empty_skills no_number (fun _ => EmptyString)
           [[CNaN]; [CNaN]]).
  - discriminate.
  - repeat constructor.
Defined.

(** ** Adapters: requests, answers and failures *)

(** X15: with its credential, each adapter sends exactly one request,
    whatever comes back: [ask_neuron] a POST with the bearer header, the
    fixed model, the question as the only message and a 15 s timeout;
    [get_news] a GET with the topic, the page size, the language and the
    key, and a 10 s timeout.  Nothing is sent a second time, and no
    message and no table is touched. *)
Theorem adapters_send_one_request :
  forall (key : option string) (http : nat -> http_request -> http_reply)
         (str_json : json -> string) (w : world),
    configured key = true ->
    (forall question,
        let w' := fst (ask_neuron key http str_json question w) in
        wire w' = wire w ++ [completion_request key question]
        /\ outbox w' = outbox w /\ db w' = db w)
    /\ (forall topic limit,
          let w' := fst (get_news key http topic limit w) in
          wire w' = wire w ++ [news_request key topic limit]
          /\ outbox w' = outbox w /\ db w' = db w).
Proof.
  intros key http str_json w Hkey. split; intros.
  - subst w'. unfold ask_neuron. by rewrite Hkey.
  - subst w'. unfold get_news. by rewrite Hkey.
Qed.

Lemma adapters_send_one_request_witness :
  wire (fst (ask_neuron (Some "key") unreachable (fun _ => EmptyString)
                        "why?" fresh_world))
  = [completion_request (Some "key") "why?"]
  /\ wire (fst (get_news (Some "key") unreachable "rocq" 5 fresh_world))
     = [news_request (Some "key") "rocq" 5].
Proof.
  destruct (adapters_send_one_request (Some "key") unreachable
              (fun _ => EmptyString) fresh_world eq_refl) as [Hask Hnews].
  split.
  - exact (proj1 (Hask "why?")).
  - exact (proj1 (Hnews "rocq" 5)).
Defined.

Lemma passes_checked (status : Z) (body : option json) :
  passes status ->
  checked_json (Response status body)
  = match body with Some j => Return j | None => Raise ValueError end.
Proof.
  intros [H|H]; simpl.
  - by rewrite (proj2 (Z.leb_gt 400 status)) by lia.
  - rewrite (proj2 (Z.ltb_ge status 600)) by lia. by rewrite andb_false_r.
Qed.

(** X16: what [ask_neuron] makes of a response that passes the status
    check.  The content of the first choice's message is returned as it
    is when the response has that shape; a mapping without [choices]
    gives its [text] field when that is truthy and [str()] of the whole
    response otherwise; a response that is no mapping raises
    [AttributeError]. *)
Theorem ask_neuron_answer :
  forall (key : option string) (http : nat -> http_request -> http_reply)
         (str_json : json -> string) (w : world) (question : string)
         (status : Z) (j : json),
    configured key = true ->
    passes status ->
    http (List.length (wire w)) (completion_request key question)
    = Response status (Some j) ->
    let answer := snd (ask_neuron key http str_json question w) in
    (forall fields first rest message content,
        j = JObj fields ->
        assoc "choices" fields = Some (JArr (JObj first :: rest)) ->
        assoc "message" first = Some (JObj message) ->
        assoc "content" message = Some content ->
        answer = Return content)
    /\ (forall fields,
          j = JObj fields -> assoc "choices" fields = None ->
          answer = Return (if truthy (field "text" fields)
                           then field "text" fields else JStr (str_json j)))
    /\ ((forall fields, j <> JObj fields) -> answer = Raise AttributeError).
Proof.
  intros key http str_json w question status j Hkey Hpass Hreply answer.
  assert (E : answer
              = except_Exception
                  (a ← subscript j "choices";
                   b ← subscript0 a;
                   c ← subscript b "message";
                   subscript c "content")
                  (fun _ =>
                     t ← get j "text" JNull;
                     Return (if truthy t then t else JStr (str_json j)))).
  { subst answer. unfold ask_neuron. rewrite Hkey. simpl.
    unfold completion_request in Hreply. rewrite Hreply.
    by rewrite (passes_checked _ _ Hpass). }
  rewrite E. split; [|split].
  - intros fields first rest message content -> Hc Hm Hk. simpl.
    rewrite Hc. simpl. rewrite Hm. simpl. by rewrite Hk.
  - intros fields -> Hc. simpl. rewrite Hc. simpl. unfold field.
    by destruct (assoc "text" fields).
  - intros Hno. destruct j; try done. by destruct (Hno fields).
Qed.

Lemma ask_neuron_answer_witness :
  snd (ask_neuron (Some "key") (always (Response 200 (Some text_shape)))
                  (fun _ => EmptyString) "why?" fresh_world)
  = Return (JStr "forty-two").
Proof.
  destruct (ask_neuron_answer (Some "key")
              (always (Response 200 (Some text_shape)))
              (fun _ => EmptyString) fresh_world "why?" 200 text_shape)
    as (_ & H & _).
  - reflexivity.
  - left. lia.
  - reflexivity.
  - exact (H [("text", JStr "forty-two")] eq_refl eq_refl).
Defined.

(** X17: how the adapters fail.  A transport failure is raised as it
    is; a status from 400 to 599 raises [HTTPError] with that status; a
    body that is not JSON raises [ValueError].  Both adapters behave
    alike, and in each case the one request has gone out. *)
Theorem adapters_report_failures :
  forall (key : option string) (http : nat -> http_request -> http_reply)
         (str_json : json -> string) (w : world) (reply : http_reply),
    configured key = true ->
    (forall r, http (List.length (wire w)) r = reply) ->
    let failure :=
      match reply with
      | Failed e => Some e
      | Response status body =>
          if (400 <=? status) && (status <? 600) then Some (HTTPError status)
          else match body with None => Some ValueError | Some _ => None end
      end in
    forall e, failure = Some e ->
      (forall question,
          snd (ask_neuron key http str_json question w) = Raise e)
      /\ (forall topic limit,
            snd (get_news key http topic limit w) = Raise e).
Proof.
  intros key http str_json w reply Hkey Hreply failure e He. subst failure.
  assert (Hc : checked_json reply = Raise e).
  { destruct reply as [e0|status body]; simpl in *; [congruence|].
    destruct ((400 <=? status) && (status <? 600)); [congruence|].
    destruct body; [done|congruence]. }
  split; intros.
  - unfold ask_neuron. rewrite Hkey. simpl. by rewrite Hreply, Hc.
  - unfold get_news. rewrite Hkey. simpl. by rewrite Hreply, Hc.
Qed.

Lemma adapters_report_failures_witness :
  snd (ask_neuron (Some "key") (always (Response 503 None))
                  (fun _ => EmptyString) "why?" fresh_world)
  = Raise (HTTPError 503)
  /\ snd (get_news (Some "key") (always (Response 503 None)) "rocq" 5 fresh_world)
     = Raise (HTTPError 503).
Proof.
  destruct (adapters_report_failures (Some "key") (always (Response 503 None))
              (fun _ => EmptyString) fresh_world (Response 503 None)
              eq_refl (fun _ => eq_refl) (HTTPError 503) eq_refl)
    as [Hask Hnews].
  split; [exact (Hask "why?")|exact (Hnews "rocq" 5)].
Defined.

Lemma escape_value_returns (j : json) :
  (exists t, escape_value j = Return t) <-> exists s, j = JStr s.
Proof.
  split.
  - intros [t H]. destruct j; try done. eauto.
  - intros [s ->]. simpl. eauto.
Qed.

Lemma or_default_text (t : json) (d : string) :
  (exists s, escape_value (if truthy t then t else JStr d) = Return s)
  <-> text_or_falsy t = true.
Proof.
  assert (Hno : forall e, ~ exists s : string, Raise e = Return s)
    by (intros e [? ?]; done).
  destruct t; simpl;
    repeat match goal with
           | |- context [if ?b then _ else _] => destruct b; simpl
           | |- context [match ?l with [] => _ | _ :: _ => _ end] =>
               destruct l; simpl
           end;
    split; eauto; try done; intros H; by apply Hno in H.
Qed.

Lemma news_line_returns (a : json) :
  (exists line, news_line a = Return line) <-> article_ok a = true.
Proof.
  unfold news_line, article_ok. destruct a; simpl;
    try (split; [by intros [? ?]|done]).
  fold (field "title" fields). fold (field "url" fields).
  pose proof (or_default_text (field "title" fields) "Без заголовка") as Ht.
  pose proof (or_default_text (field "url" fields) EmptyString) as Hu.
  destruct (escape_value (if truthy (field "title" fields) then _ else _))
    as [title|e1].
  - rewrite bind_Return, (proj1 Ht) by eauto. simpl.
    destruct (escape_value (if truthy (field "url" fields) then _ else _))
      as [eu|e2].
    + rewrite bind_Return, (proj1 Hu) by eauto. split; eauto.
    + split; [by intros [? ?]|]. intros H. apply Hu in H as [? ?]. done.
  - split; [by intros [? ?]|]. intros H. apply andb_true_iff in H as [H _].
    apply Ht in H as [? ?]. done.
Qed.

Lemma news_lines_length (items : list json) : forall lines,
  news_lines items = Return lines -> List.length lines = List.length items.
Proof.
  induction items as [|a items IH]; simpl; intros lines.
  - by intros [= <-].
  - destruct (news_line a) as [line|]; [|done]. rewrite bind_Return.
    destruct (news_lines items) as [rest|]; [|done]. rewrite bind_Return.
    intros [= <-]. simpl. f_equal. by apply IH.
Qed.

Lemma shown_field (t : json) (d : string) (line : string) :
  escape_value (if truthy t then t else JStr d) = Return line ->
  line = match t with
         | JStr (String c r) => escape (String c r)
         | _ => escape d
         end.
Proof.
  destruct t as [|b|q|s|l|l]; simpl.
  - by intros [= <-].
  - destruct b; [done|]. by intros [= <-].
  - destruct (negb _); [done|]. by intros [= <-].
  - destruct s; simpl; by intros [= <-].
  - destruct l; [|done]. by intros [= <-].
  - destruct l; [|done]. by intros [= <-].
Qed.

Lemma news_line_shown (a : json) (line : string) :
  news_line a = Return line ->
  exists fields, a = JObj fields
                 /\ line = shown_title fields +:+ nl +:+ shown_link fields.
Proof.
  unfold news_line. destruct a as [| | | | |fields]; try done. simpl.
  intros H. exists fields. split; [done|].
  destruct (escape_value (if truthy _ then _ else JStr "Без заголовка"))
    as [title|] eqn:Et; [|done].
  rewrite bind_Return in H.
  destruct (escape_value (if truthy _ then _ else JStr EmptyString))
    as [eu|] eqn:Eu; [|done].
  rewrite bind_Return in H. injection H as <-.
  apply shown_field in Et, Eu. unfold shown_title, shown_link.
  destruct (assoc "title" fields) as [t|], (assoc "url" fields) as [u|];
    subst title eu; f_equal; try f_equal.
  all: try (destruct t as [| | |[|c r]| |]; reflexivity).
  all: try (destruct u as [| | |[|c r]| |]; reflexivity).
Qed.

(** X18: the loop of [get_news] gives one line per article, in order,
    and succeeds exactly when every article is a mapping whose title and
    link are text, missing or falsy: anything else stops it with an
    exception.  The line of an article is its escaped title, or the
    fixed placeholder when the title is missing or falsy, above its
    escaped link, or above nothing when the link is missing or falsy. *)
Theorem news_lines_one_per_article :
  forall items : list json,
    ((exists lines, news_lines items = Return lines)
     <-> forallb article_ok items = true)
    /\ (forall lines, news_lines items = Return lines ->
          List.length lines = List.length items
          /\ Forall2 (fun a line =>
                        exists fields,
                          a = JObj fields
                          /\ line = shown_title fields +:+ nl
                                    +:+ shown_link fields)
                     items lines)
    /\ (forall fields link rest,
          items = JObj fields :: rest ->
          assoc "title" fields = None ->
          assoc "url" fields = Some (JStr link) ->
          forall lines, news_lines items = Return lines ->
            head 1 lines = ["Без заголовка" +:+ nl +:+ escape link]).
Proof.
  intros items. split; [|split].
  - induction items as [|a items IH]; simpl; [split; eauto|].
    destruct (news_line a) as [line|e] eqn:Ea.
    + rewrite bind_Return.
      assert (article_ok a = true) as -> by (apply news_line_returns; eauto).
      simpl. rewrite <- IH.
      destruct (news_lines items) as [rest|e]; simpl; split; eauto;
        by intros [? ?].
    + simpl. split; [by intros [? ?]|]. intros H.
      apply andb_true_iff in H as [H _].
      apply news_line_returns in H as [line H]. congruence.
  - intros lines H. split; [by apply news_lines_length|].
    revert lines H. induction items as [|a items IH]; simpl; intros lines.
    + intros [= <-]. constructor.
    + destruct (news_line a) as [line|] eqn:Ea; [|done]. rewrite bind_Return.
      destruct (news_lines items) as [rest|]; [|done]. rewrite bind_Return.
      intros [= <-]. constructor; [by apply news_line_shown|by apply IH].
  - intros fields link rest -> Ht Hu lines.
    assert (E : news_line (JObj fields)
                = Return ("Без заголовка" +:+ nl +:+ escape link)).
    { unfold news_line. simpl. rewrite Ht, Hu. by destruct link. }
    simpl. rewrite E, bind_Return.
    destruct (news_lines rest) as [more|]; [|done]. rewrite bind_Return.
    by intros [= <-].
Qed.

(** ** Handlers: arguments, failures and round trips *)

Lemma space_width_drop (s : string) :
  space_width s <> 0%nat ->
  (String.length (drop_bytes (space_width s) s) < String.length s)%nat.
Proof.
  destruct s as [|c s]; [done|]. intros H.
  assert (Hd : forall k t, (String.length (drop_bytes k t) <= String.length t)%nat).
  { induction k as [|k IHk]; intros [|a t]; simpl; try lia.
    specialize (IHk t). lia. }
  destruct (space_width (String c s)) as [|k] eqn:E; [done|].
  simpl. specialize (Hd k s). lia.
Qed.

Lemma lstrip_fuel_done (n : nat) : forall s,
  (String.length s <= n)%nat -> space_width (lstrip_fuel n s) = 0%nat.
Proof.
  induction n as [|n IH]; intros s Hn.
  - destruct s; [done|simpl in Hn; lia].
  - cbn [lstrip_fuel]. destruct (space_width s) as [|k] eqn:E; [done|].
    apply IH. pose proof (space_width_drop s) as Hd. rewrite E in Hd.
    assert (Hlt := Hd (Nat.neq_succ_0 k)). lia.
Qed.

(** What [lstrip] returns does not start with whitespace. *)
Lemma lstrip_done (s : string) : space_width (lstrip s) = 0%nat.
Proof. by apply lstrip_fuel_done. Qed.

Lemma break_space_first (c : ascii) (r : string) :
  space_width (String c r) = 0%nat ->
  exists w, fst (break_space (String c r)) = String c w.
Proof.
  intros H. cbn [break_space]. rewrite H.
  destruct (break_space r) as [w rest]. by exists w.
Qed.

Lemma split_ws_shape :
  forall (k : nat) (s : string),
    (List.length (split_ws k s) <= k + 1)%nat
    /\ Forall (fun x => x <> EmptyString) (split_ws k s).
Proof.
  induction k as [|k IH]; intros s; cbn [split_ws].
  - destruct (lstrip s) as [|c r]; simpl; [split; [lia|constructor]|].
    split; [lia|]. by repeat constructor.
  - pose proof (lstrip_done s) as Hw.
    destruct (lstrip s) as [|c r]; [simpl; split; [lia|constructor]|].
    destruct (break_space_first c r Hw) as [w Hfirst].
    destruct (break_space (String c r)) as [w' rest]. simpl in Hfirst.
    subst w'. destruct (IH rest) as [Hlen Hall]. simpl. split; [lia|].
    by constructor.
Qed.

(** X19: [split(maxsplit=k)] gives at most [k + 1] fields and never an
    empty one, so a command with an argument missing is recognised by
    the number of fields alone, and a name or content that was parsed is
    never empty. *)
Theorem split_ws_fields :
  forall (k : nat) (s : string),
    (List.length (split_ws k s) <= k + 1)%nat
    /\ Forall (fun x => x <> EmptyString) (split_ws k s).
Proof. apply split_ws_shape. Qed.

Lemma pw_register (s : store) (now : string) (user : tg_user) :
  program_written s -> program_written (register_user now user s).
Proof.
  intros (Hu & Hq & Hp). unfold register_user.
  destruct (existsb _ (users s)); [done|]. split; [|done]. simpl.
  apply Forall_app. split; [done|]. constructor; [|constructor].
  simpl. by destruct (tg_username user).
Qed.

Lemma pw_log (s : store) now u text source params :
  program_written s -> program_written (fst (log_query now u text source params s)).
Proof.
  intros (Hu & Hq & Hp). split; [done|]. split; [|done]. simpl.
  apply Forall_app. split; [done|]. by repeat constructor.
Qed.

Lemma pw_add (s : store) now u name content :
  program_written s -> program_written (add_preset_db now u name content s).
Proof.
  intros (Hu & Hq & Hp). split; [done|]. split; [done|]. simpl.
  apply Forall_app. split; [done|]. by repeat constructor.
Qed.

Lemma pw_delete (s : store) u name :
  program_written s -> program_written (delete_preset_db u name s).
Proof.
  intros (Hu & Hq & Hp). split; [done|]. split; [done|]. simpl.
  apply Forall_forall. intros r Hr. apply list_elem_of_In, filter_In in Hr as [Hr _].
  rewrite Forall_forall in Hp. by apply Hp, list_elem_of_In.
Qed.

Lemma for_each_returns {A B} (f : A -> result B) (rows : list A) :
  (exists xs, for_each f rows = Return xs)
  <-> Forall (fun r => exists x, f r = Return x) rows.
Proof.
  induction rows as [|r rows IH]; simpl.
  - split; [constructor|eauto].
  - destruct (f r) as [x|e] eqn:E.
    + rewrite bind_Return. split.
      * intros [xs H]. constructor; [eauto|]. apply IH.
        destruct (for_each f rows); [eauto|done].
      * intros H. apply Forall_cons in H as [_ H]. apply IH in H as [xs ->].
        rewrite bind_Return. eauto.
    + split; [by intros [? ?]|]. intros H. apply Forall_cons in H as [[x ?] _].
      congruence.
Qed.

Lemma escape_sql_returns (v : sql_value) :
  (exists t, escape_sql v = Return t) <-> is_text v = true.
Proof. destruct v; simpl; split; eauto; try done; by intros [? ?]. Qed.

Lemma preset_line_returns (p : sql_value * sql_value) :
  (exists line, preset_line p = Return line)
  <-> is_text (fst p) = true /\ is_text (snd p) = true.
Proof.
  destruct p as [n c]. unfold preset_line. simpl.
  destruct n, c; simpl; split; eauto; try (by intros [? ?]); by intros [? ?].
Qed.

Lemma history_line_returns (p : sql_value * sql_value) :
  (exists line, history_line p = Return line)
  <-> is_text (fst p) = true /\ is_text (snd p) = true.
Proof.
  destruct p as [t ts]. unfold history_line. simpl.
  destruct t, ts; simpl; split; eauto; try (by intros [? ?]); by intros [? ?].
Qed.

(** X20: [handle_preset_list] answers exactly when every preset of the
    user has text for its name and its content.  A single preset whose
    content is NULL (a row that was there before the [content] column was
    added) makes the handler raise, and then nothing is sent for any of
    the user's presets. *)
Theorem preset_list_needs_text :
  forall (m : message) (w : world),
    let listed := list_presets_db (uid (from_user m)) (db w) in
    (snd (handle_preset_list m w) = Return ()
     <-> Forall (fun p => is_text (fst p) = true /\ is_text (snd p) = true) listed)
    /\ (snd (handle_preset_list m w) <> Return () ->
        fst (handle_preset_list m w) = w).
Proof.
  intros m w listed. subst listed. unfold handle_preset_list.
  destruct (list_presets_db _ _) as [|p rows] eqn:El; [by split|].
  pose proof (for_each_returns preset_line (p :: rows)) as Hfe.
  destruct (for_each preset_line (p :: rows)) as [lines|e].
  - split; [|done]. split; [|done]. intros _.
    eapply Forall_impl; [apply Hfe; eauto|]. intros x. apply preset_line_returns.
  - split; [|done]. split; [done|]. intros Hall.
    destruct (proj2 Hfe) as [xs ?]; [|done].
    eapply Forall_impl; [exact Hall|]. intros x. apply preset_line_returns.
Qed.

Lemma list_history_rows (u limit : Z) (s : store) (p : sql_value * sql_value) :
  In p (list_history u limit s) ->
  exists r, In r (queries s) /\ p = (q_text r, q_ts r).
Proof.
  unfold list_history, sql_limit. intros Hp.
  apply in_map_iff in Hp as (r & Hr & Hin). exists r. split; [|done].
  assert (Hs : In r (order_by_id_desc
                       (List.filter (fun r => sql_eqb (q_user_id r) (Integer u))
                                    (queries s)))).
  { destruct (limit <? 0); [done|]. by apply In_take in Hin. }
  apply (proj1 (order_by_id_desc_In _ _)) in Hs. apply filter_In in Hs. tauto.
Qed.

Section HandlerProperties.
Variable OPENROUTER_API_KEY : option string.
Variable NEWS_API_KEY : option string.
Variable clock : nat -> string.
Variable http : nat -> http_request -> http_reply.
Variable str_json : json -> string.
Variable sample_as_cp1251 : result DataFrame.
Variable float_of_text : string -> option Q.
Variable str_float : Q -> string.
Variable str_library_exn : exn -> string.

Lemma db_ask_neuron question w :
  db (fst (ask_neuron OPENROUTER_API_KEY http str_json question w)) = db w.
Proof. unfold ask_neuron. by destruct (negb (configured _)). Qed.

Lemma db_get_news topic limit w :
  db (fst (get_news NEWS_API_KEY http topic limit w)) = db w.
Proof. unfold get_news. by destruct (negb (configured _)). Qed.

Lemma pw_do_log w u text source :
  program_written (db w) -> program_written (db (do_log_query clock w u text source)).
Proof. intros H. exact (pw_log (db w) _ _ _ _ _ H). Qed.

Lemma pw_do_register w user :
  program_written (db w) -> program_written (db (do_register_user clock w user)).
Proof. intros H. exact (pw_register (db w) _ _ H). Qed.

Lemma pw_report m w :
  program_written (db w) ->
  program_written
    (db (fst (handle_report_cmd clock sample_as_cp1251 float_of_text str_float m w))).
Proof.
  intros H. unfold handle_report_cmd.
  destruct (generate_report_from_demo _ _ _ _) as [d [r|e]];
    exact (pw_do_log w _ _ _ H).
Qed.

Lemma pw_history m w :
  program_written (db w) -> program_written (db (fst (handle_history m w))).
Proof.
  intros H. unfold handle_history. destruct (list_history _ _ _); [done|].
  by destruct (for_each _ _).
Qed.

Lemma pw_profile m w :
  program_written (db w) -> program_written (db (fst (handle_profile m w))).
Proof.
  intros H. unfold handle_profile. destruct (List.filter _ _); [done|].
  match goal with |- context [match ?r with Return _ => _ | Raise _ => _ end] =>
    by destruct r end.
Qed.

Lemma handlers_keep_text w h m :
  program_written (db w) ->
  program_written
    (db (fst (run OPENROUTER_API_KEY NEWS_API_KEY clock http str_json
                  sample_as_cp1251 float_of_text str_float str_library_exn
                  h m w))).
Proof.
  intros H. destruct h; cbn [run].
  - unfold handle_start. destruct (escape_opt _); exact (pw_do_register w _ H).
  - done.
  - by apply pw_report.
  - unfold handle_preset_add.
    destruct (split_ws 2 (msg_text m)) as [|a [|b [|c [|d l]]]]; try done.
    exact (pw_log _ _ _ _ _ _ (pw_add (db w) (now clock w) _ _ _ H)).
  - unfold handle_preset_list. destruct (list_presets_db _ _); [done|].
    by destruct (for_each _ _).
  - unfold handle_preset_use.
    destruct (split_ws 1 (msg_text m)) as [|a [|b [|c l]]]; try done.
    destruct (negb _); [done|].
    destruct (escape_sql _); exact (pw_do_log w _ _ _ H).
  - unfold handle_preset_del.
    destruct (split_ws 1 (msg_text m)) as [|a [|b [|c l]]]; try done.
    exact (pw_log _ _ _ _ _ _ (pw_delete (db w) _ _ H)).
  - by apply pw_profile.
  - by apply pw_history.
  - unfold handle_ask. destruct (strip _) as [|c q]; [done|].
    set (w1 := do_log_query clock w _ _ _).
    pose proof (db_ask_neuron (String c q) w1) as Hdb.
    destruct (ask_neuron _ _ _ _ w1) as [w2 [a|e]]; simpl in Hdb.
    + destruct (escape_value a); cbn [fst db send_html emit]; rewrite Hdb;
        by apply pw_do_log.
    + cbn [fst db reply_to emit]. rewrite Hdb. by apply pw_do_log.
  - unfold handle_news. destruct (strip _) as [|c q]; [done|].
    set (w1 := do_log_query clock w _ _ _).
    pose proof (db_get_news (String c q) 5 w1) as Hdb.
    destruct (get_news _ _ _ _ w1) as [w2 [[|a l]|e]]; simpl in Hdb;
      cbn [fst db send_html reply_to reply_to_kb emit];
      rewrite Hdb; by apply pw_do_log.
  - unfold handle_all.
    set (w2 := do_log_query clock (do_register_user clock w _) _ _ _).
    assert (H2 : program_written (db w2))
      by (by apply pw_do_log, pw_do_register).
    repeat match goal with |- context [if ?b then _ else _] => destruct b end;
      try done; [by apply pw_report|by apply pw_history|by apply pw_profile].
Qed.

Lemma history_does_not_raise m w :
  program_written (db w) -> snd (handle_history m w) = Return ().
Proof.
  intros (_ & Hq & _). unfold handle_history.
  destruct (list_history _ _ _) as [|p rows] eqn:El; [done|].
  destruct (proj2 (for_each_returns history_line (p :: rows))) as [lines ->];
    [|done].
  apply Forall_forall. intros x Hx. apply history_line_returns.
  apply list_elem_of_In in Hx. rewrite <- El in Hx.
  apply list_history_rows in Hx as (r & Hr & ->).
  rewrite Forall_forall in Hq. by apply Hq, list_elem_of_In.
Qed.

Lemma preset_list_does_not_raise m w :
  program_written (db w) -> snd (handle_preset_list m w) = Return ().
Proof.
  intros (_ & _ & Hp). unfold handle_preset_list.
  destruct (list_presets_db _ _) as [|p rows] eqn:El; [done|].
  destruct (proj2 (for_each_returns preset_line (p :: rows))) as [lines ->];
    [|done].
  apply Forall_forall. intros x Hx. apply preset_line_returns.
  apply list_elem_of_In in Hx. rewrite <- El in Hx. unfold list_presets_db in Hx.
  apply in_map_iff in Hx as (r & <- & Hin). apply filter_In in Hin as [Hin _].
  rewrite Forall_forall in Hp. by apply Hp, list_elem_of_In.
Qed.

Lemma get_preset_text u name s :
  program_written s ->
  get_preset_db u name s = Null \/ exists c, get_preset_db u name s = Text c.
Proof.
  intros (_ & _ & Hp). unfold get_preset_db.
  destruct (List.filter _ _) as [|row rows] eqn:E; [by left|]. right.
  assert (Hin : In row (presets s)).
  { assert (In row (List.filter (preset_matches u name) (presets s)))
      as Hin by (rewrite E; by left).
    apply filter_In in Hin. tauto. }
  rewrite Forall_forall in Hp. destruct (Hp row) as [_ Hc];
    [by apply list_elem_of_In|].
  destruct (p_content row); try done. eauto.
Qed.

Lemma preset_use_does_not_raise m w :
  program_written (db w) -> snd (handle_preset_use clock m w) = Return ().
Proof.
  intros H. unfold handle_preset_use.
  destruct (split_ws 1 (msg_text m)) as [|a [|name [|c l]]]; try done.
  destruct (get_preset_text (uid (from_user m)) name (db w) H) as [->|[c ->]];
    [done|]. simpl. by destruct (negb _).
Qed.

Lemma profile_does_not_raise m w :
  program_written (db w) -> snd (handle_profile m w) = Return ().
Proof.
  intros (Hu & _ & _). unfold handle_profile.
  destruct (List.filter _ _) as [|row rows] eqn:E; [done|].
  assert (Hin : In row (users (db w))).
  { assert (In row (List.filter (fun r => user_id r =? uid (from_user m))
                                (users (db w))))
      as Hin by (rewrite E; by left).
    apply filter_In in Hin. tauto. }
  rewrite Forall_forall in Hu.
  destruct (Hu row) as (Hf & Hn & Hd); [by apply list_elem_of_In|].
  destruct (fullname row); try done.
  destruct (reg_date row) as [|z|[|d date]]; try done;
    destruct (username row) as [|z|[|c un]]; try done.
Qed.

Lemma news_does_not_raise m w :
  snd (handle_news NEWS_API_KEY clock http str_library_exn m w) = Return ().
Proof.
  unfold handle_news. destruct (strip _); [done|].
  by destruct (get_news _ _ _ _ _) as [w2 [[|x l]|e]].
Qed.

Lemma guarded_do_not_raise w h m :
  program_written (db w) ->
  In h guarded_handlers ->
  snd (run OPENROUTER_API_KEY NEWS_API_KEY clock http str_json
           sample_as_cp1251 float_of_text str_float str_library_exn h m w)
  = Return ().
Proof.
  intros H Hh. unfold guarded_handlers in Hh. simpl in Hh.
  destruct Hh as [<-|[<-|[<-|[<-|[<-|[<-|[<-|[<-|[]]]]]]]]]; cbn [run].
  - done.
  - unfold handle_preset_add.
    by destruct (split_ws 2 (msg_text m)) as [|a [|b [|c [|d l]]]].
  - by apply preset_list_does_not_raise.
  - by apply preset_use_does_not_raise.
  - unfold handle_preset_del.
    by destruct (split_ws 1 (msg_text m)) as [|a [|b [|c l]]].
  - by apply profile_does_not_raise.
  - by apply history_does_not_raise.
  - apply news_does_not_raise.
Qed.
End HandlerProperties.

(** X21: tables that hold only what the program writes stay that way:
    whichever handler runs, on whatever message, every row still has text
    in the columns the handlers read as text. *)
Theorem handlers_write_text :
  forall (openrouter_key news_key : option string) (clock : nat -> string)
         (http : nat -> http_request -> http_reply) (str_json : json -> string)
         (sample_as_cp1251 : result DataFrame)
         (float_of_text : string -> option Q) (str_float : Q -> string)
         (str_library_exn : exn -> string) (h : handler) (m : message) (w : world),
    program_written (db w) ->
    program_written
      (db (fst (run openrouter_key news_key clock http str_json
                    sample_as_cp1251 float_of_text str_float str_library_exn
                    h m w))).
Proof. intros. by apply handlers_keep_text. Qed.

Lemma handlers_write_text_witness :
  program_written
    (db (fst (run None None fixed_clock unreachable (fun _ => EmptyString)
                  (Raise OtherException) no_number (fun _ => EmptyString)
                  (fun _ => EmptyString) PresetAdd preset_add_x fresh_world))).
Proof.
  apply handlers_write_text. repeat split; constructor.
Defined.

(** X22: on tables that hold only what the program writes, the help,
    preset, profile, history and news handlers never raise, whatever the
    message and whatever the news service does. *)
Theorem guarded_handlers_do_not_raise :
  forall (openrouter_key news_key : option string) (clock : nat -> string)
         (http : nat -> http_request -> http_reply) (str_json : json -> string)
         (sample_as_cp1251 : result DataFrame)
         (float_of_text : string -> option Q) (str_float : Q -> string)
         (str_library_exn : exn -> string) (h : handler) (m : message) (w : world),
    program_written (db w) ->
    In h guarded_handlers ->
    snd (run openrouter_key news_key clock http str_json
             sample_as_cp1251 float_of_text str_float str_library_exn h m w)
    = Return ().
Proof. intros. by apply guarded_do_not_raise. Qed.

(** The handlers that read the tables, on tables with rows in each: the
    list of three presets, the use of the first, the profile and the
    history of a registered user. *)
Lemma guarded_handlers_do_not_raise_witness :
  let ran h m :=
    snd (run None None fixed_clock unreachable (fun _ => EmptyString)
             (Raise OtherException) no_number (fun _ => EmptyString)
             (fun _ => EmptyString) h m busy_world) in
  ran PresetList preset_list_msg = Return ()
  /\ ran PresetUse preset_use_x = Return ()
  /\ ran Profile profile_msg = Return ()
  /\ ran History history_msg = Return ()
  /\ ran News news_msg = Return ().
Proof.
  assert (H : program_written (db busy_world))
    by (repeat split; repeat constructor).
  cbv zeta.
  split; [apply (guarded_handlers_do_not_raise _ _ _ _ _ _ _ _ _ PresetList
                   preset_list_msg busy_world H); simpl; tauto|].
  split; [apply (guarded_handlers_do_not_raise _ _ _ _ _ _ _ _ _ PresetUse
                   preset_use_x busy_world H); simpl; tauto|].
  split; [apply (guarded_handlers_do_not_raise _ _ _ _ _ _ _ _ _ Profile
                   profile_msg busy_world H); simpl; tauto|].
  split; [apply (guarded_handlers_do_not_raise _ _ _ _ _ _ _ _ _ History
                   history_msg busy_world H); simpl; tauto|].
  apply (guarded_handlers_do_not_raise _ _ _ _ _ _ _ _ _ News
           news_msg busy_world H); simpl; tauto.
Defined.

(** What they answer there. *)
Example guarded_handlers_on_rows :
  map body (outbox (fst (handle_preset_list preset_list_msg busy_world)))
  = ["📚 Твои пресеты:" +:+ nl +:+ "• x — first..." +:+ nl +:+ "• x — second..."]
  /\ map body (outbox (fst (handle_preset_use fixed_clock preset_use_x busy_world)))
     = ["📋 Пресет 'x':" +:+ nl +:+ nl +:+ "first"]
  /\ map body (outbox (fst (handle_profile profile_msg busy_world)))
     = ["👤 Профиль:" +:+ nl +:+ "Имя: Ann Lee" +:+ nl +:+ "Username: @ann" +:+ nl
        +:+ "Регистрация: 2025-09-10 10:00:04"]
  /\ map body (outbox (fst (handle_history history_msg busy_world)))
     = ["📜 Последние запросы:" +:+ nl +:+ nl
        +:+ "• hello &lt;there&gt;  —  2025-09-10 10:00:05"].
Proof. vm_compute. by repeat split. Qed.

Lemma registered_exists (now : string) (user : tg_user) (s : store) :
  existsb (fun r => user_id r =? uid user) (users (register_user now user s))
  = true.
Proof.
  unfold register_user. destruct (existsb _ (users s)) eqn:E; [done|]. simpl.
  rewrite existsb_app. simpl. rewrite Z.eqb_refl. by rewrite orb_true_r.
Qed.

Lemma or_empty_text (t : string) : escape_sql (or_empty (Text t)) = Return (escape t).
Proof. by destruct t. Qed.

(** X23: [handle_ask] raises in one case only: the service answered, and
    the answer it extracted is not text (a null or numeric content, for
    instance).  The exception is [AttributeError], from escaping the
    answer outside the [try]; the question has been logged and the
    request sent, and no reply goes out. *)
Theorem ask_raises_on_non_text_answer :
  forall (key : option string) (clock : nat -> string)
         (http : nat -> http_request -> http_reply) (str_json : json -> string)
         (str_library_exn : exn -> string) (m : message) (w : world),
    let question := strip (after_first_space (msg_text m)) in
    let logged := do_log_query clock w (uid (from_user m)) question "ask" in
    let handled := handle_ask key clock http str_json str_library_exn m w in
    (forall e,
        snd handled = Raise e
        <-> e = AttributeError /\ question <> EmptyString
            /\ exists j, snd (ask_neuron key http str_json question logged) = Return j
                         /\ forall s, j <> JStr s)
    /\ (snd handled <> Return () ->
        outbox (fst handled) = outbox w /\ db (fst handled) = db logged).
Proof.
  intros key clock http str_json str_library_exn m w question logged handled.
  subst handled logged. unfold handle_ask. fold question.
  destruct question as [|c q] eqn:Eq.
  { split; [|done]. intros e. split; [done|]. by intros (_ & ? & _). }
  set (w1 := do_log_query clock w _ _ _).
  pose proof (ask_neuron_outbox key http str_json (String c q) w1) as Hout.
  pose proof (db_ask_neuron key http str_json (String c q) w1) as Hdb.
  destruct (ask_neuron key http str_json (String c q) w1) as [w2 [j|e0]];
    simpl in Hout, Hdb.
  - destruct j; simpl;
      try (split; [intros e; split;
                   [intros [= <-]; split; [done|]; split; [done|]; eexists;
                    split; [reflexivity|done]
                   |by intros (-> & _)]
                  |by intros _]).
    split; [|done]. intros e. split; [done|].
    intros (_ & _ & j & [= <-] & Hj). by destruct (Hj s).
  - simpl. split; [|done]. intros e. split; [done|].
    by intros (_ & _ & j & ? & _).
Qed.

(** X24: a command without its argument changes nothing but the outbox:
    [/ask] and [/news] with no text after the command, and the preset
    commands with too few fields, reply with their usage line; nothing
    is stored, logged or sent to a service. *)
Theorem missing_arguments_change_nothing :
  forall (key : option string) (clock : nat -> string)
         (http : nat -> http_request -> http_reply) (str_json : json -> string)
         (str_library_exn : exn -> string) (m : message) (w : world),
    (strip (after_first_space (msg_text m)) = EmptyString ->
     handle_ask key clock http str_json str_library_exn m w
     = (reply_to w m "Использование: /ask текст_вопроса", Return ())
     /\ handle_news key clock http str_library_exn m w
        = (reply_to w m "Использование: /news тема", Return ()))
    /\ ((List.length (split_ws 2 (msg_text m)) < 3)%nat ->
        handle_preset_add clock m w
        = (reply_to w m "Использование: /preset_add имя текст", Return ()))
    /\ ((List.length (split_ws 1 (msg_text m)) < 2)%nat ->
        handle_preset_use clock m w
        = (reply_to w m "Использование: /preset_use имя", Return ())
        /\ handle_preset_del clock m w
           = (reply_to w m "Использование: /preset_del имя", Return ())).
Proof.
  intros. split; [|split].
  - intros H. unfold handle_ask, handle_news. by rewrite H.
  - intros H. unfold handle_preset_add.
    destruct (split_ws 2 (msg_text m)) as [|a [|b [|c [|d l]]]]; try done;
      simpl in H; lia.
  - intros H. unfold handle_preset_use, handle_preset_del.
    destruct (split_ws 1 (msg_text m)) as [|a [|b [|c l]]]; try done;
      simpl in H; lia.
Qed.

(** X25: a preset that has been deleted is not found.  After
    [/preset_del name], [/preset_use name] of the same user answers with
    the not-found line that quotes the escaped name, and logs nothing. *)
Theorem deleted_preset_is_not_found :
  forall (clock : nat -> string) (m1 m2 : message) (w : world)
         (c1 c2 name : string),
    split_ws 1 (msg_text m1) = [c1; name] ->
    split_ws 1 (msg_text m2) = [c2; name] ->
    uid (from_user m2) = uid (from_user m1) ->
    let w1 := fst (handle_preset_del clock m1 w) in
    handle_preset_use clock m2 w1 = (emit w1 (not_found_reply m2 name), Return ()).
Proof.
  intros clock m1 m2 w c1 c2 name H1 H2 Hu w1. subst w1.
  unfold handle_preset_use, handle_preset_del. rewrite H1, H2, Hu.
  cbn [fst reply_to emit db do_log_query tick set_db].
  assert (E : get_preset_db (uid (from_user m1)) name
                (fst (log_query (now clock
                        (set_db w (delete_preset_db (uid (from_user m1)) name (db w))))
                      (uid (from_user m1)) ("/preset_del " +:+ name) "command" None
                      (delete_preset_db (uid (from_user m1)) name (db w))))
              = Null).
  { unfold get_preset_db. simpl.
    induction (presets (db w)) as [|a l IH]; simpl; [done|].
    destruct (preset_matches (uid (from_user m1)) name a) eqn:Ea; simpl; [done|].
    by rewrite Ea. }
  rewrite E. reflexivity.
Qed.

Lemma deleted_preset_is_not_found_witness :
  handle_preset_use fixed_clock preset_use_x
    (fst (handle_preset_del fixed_clock preset_del_x
            (set_db fresh_world some_presets)))
  = (emit (fst (handle_preset_del fixed_clock preset_del_x
                  (set_db fresh_world some_presets)))
          (not_found_reply preset_use_x "x"), Return ()).
Proof.
  apply (deleted_preset_is_not_found fixed_clock preset_del_x preset_use_x
           (set_db fresh_world some_presets) "/preset_del" "/preset_use" "x");
    reflexivity.
Defined.

(** X26: a preset that has been saved can be used.  After
    [/preset_add name content], when the user had no preset of that name
    before, [/preset_use name] answers with the escaped content, all of
    it, inner whitespace included. *)
Theorem added_preset_is_used :
  forall (clock : nat -> string) (m1 m2 : message) (w : world)
         (c1 c2 name content : string),
    split_ws 2 (msg_text m1) = [c1; name; content] ->
    split_ws 1 (msg_text m2) = [c2; name] ->
    uid (from_user m2) = uid (from_user m1) ->
    List.filter (preset_matches (uid (from_user m1)) name) (presets (db w)) = [] ->
    let w1 := fst (handle_preset_add clock m1 w) in
    snd (handle_preset_use clock m2 w1) = Return ()
    /\ outbox (fst (handle_preset_use clock m2 w1))
       = outbox w1 ++ [preset_reply m2 name content].
Proof.
  intros clock m1 m2 w c1 c2 name content H1 H2 Hu Hnew w1. subst w1.
  assert (Hc : content <> EmptyString).
  { pose proof (split_ws_shape 2 (msg_text m1)) as [_ Hall]. rewrite H1 in Hall.
    apply Forall_cons in Hall as [_ Hall]. apply Forall_cons in Hall as [_ Hall].
    by apply Forall_cons in Hall as [Hall _]. }
  unfold handle_preset_use, handle_preset_add. rewrite H1, H2, Hu.
  cbn [fst reply_to emit db do_log_query tick set_db].
  assert (E : forall now now' text,
             get_preset_db (uid (from_user m1)) name
               (fst (log_query now (uid (from_user m1)) text "command" None
                       (add_preset_db now' (uid (from_user m1)) name content (db w))))
             = Text content).
  { intros. unfold get_preset_db. simpl. rewrite List.filter_app, Hnew. simpl.
    unfold preset_matches. simpl. by rewrite Z.eqb_refl, String.eqb_refl. }
  rewrite E. destruct content as [|a content]; [done|]. by split.
Qed.

Lemma added_preset_is_used_witness :
  snd (handle_preset_use fixed_clock preset_use_x
         (fst (handle_preset_add fixed_clock preset_add_x fresh_world)))
  = Return ()
  /\ outbox (fst (handle_preset_use fixed_clock preset_use_x
                    (fst (handle_preset_add fixed_clock preset_add_x fresh_world))))
     = outbox (fst (handle_preset_add fixed_clock preset_add_x fresh_world))
       ++ [preset_reply preset_use_x "x" "say <hello>  twice"].
Proof.
  apply (added_preset_is_used fixed_clock preset_add_x preset_use_x fresh_world
           "/preset_add" "/preset_use" "x" "say <hello>  twice");
    reflexivity.
Defined.

(** X27: the profile of a user.  Before the first registration
    [handle_profile] answers that there is no profile; after
    [handle_start] (even one that fails for want of a name to greet) it
    shows the stored full name, the username or nothing after the [@],
    and the time of registration, each escaped. *)
Theorem profile_after_start :
  forall (clock : nat -> string) (m m' : message) (w : world),
    uid (from_user m') = uid (from_user m) ->
    rows_of_user (uid (from_user m)) (db w) = [] ->
    let w1 := fst (handle_start clock m w) in
    handle_profile m' w = (reply_to w m' "Профиль не найден. Нажми /start.", Return ())
    /\ handle_profile m' w1
       = (emit w1 (profile_reply m' (full_name (from_user m))
                                 (shown_username (from_user m))
                                 (clock (ticks w))), Return ()).
Proof.
  intros clock m m' w Hu Hnew w1. unfold rows_of_user in Hnew.
  split; [unfold handle_profile; by rewrite Hu, Hnew|].
  assert (Hdb : users (db w1) = users (db w) ++ [new_user_row (clock (ticks w))
                                                             (from_user m)]).
  { subst w1. unfold handle_start.
    assert (E : users (db (do_register_user clock w (from_user m)))
                = users (db w) ++ [new_user_row (clock (ticks w)) (from_user m)]).
    { unfold do_register_user. cbn [db tick set_db]. unfold register_user.
      assert (existsb (fun r => user_id r =? uid (from_user m)) (users (db w))
              = false) as ->; [|done].
      apply not_true_is_false. intros H.
      apply existsb_exists in H as (x & Hx & Heq).
      assert (In x []) as []. rewrite <- Hnew. apply filter_In. by split. }
    by destruct (escape_opt _). }
  unfold handle_profile. rewrite Hu, Hdb, List.filter_app, Hnew. simpl.
  rewrite Z.eqb_refl. simpl. rewrite or_empty_text. unfold shown_username.
  destruct (tg_username (from_user m)) as [[|c un]|]; reflexivity.
Qed.

Lemma profile_after_start_witness :
  handle_profile profile_msg fresh_world
  = (reply_to fresh_world profile_msg "Профиль не найден. Нажми /start.", Return ())
  /\ handle_profile profile_msg (fst (handle_start fixed_clock start_msg fresh_world))
     = (emit (fst (handle_start fixed_clock start_msg fresh_world))
             (profile_reply profile_msg "Ann Lee" "ann" "2025-09-10 10:00:00"),
        Return ()).
Proof.
  apply (profile_after_start fixed_clock start_msg profile_msg fresh_world);
    reflexivity.
Defined.

Lemma existsb_rows (u : Z) (l : list user_row) :
  existsb (fun r => user_id r =? u) l = true ->
  List.filter (fun r => user_id r =? u) l <> [].
Proof.
  intros H E. apply existsb_exists in H as (x & Hx & Heq).
  assert (In x []) as []. rewrite <- E. apply filter_In. by split.
Qed.

Lemma db_history m w : db (fst (handle_history m w)) = db w.
Proof.
  unfold handle_history. destruct (list_history _ _ _); [done|].
  by destruct (for_each _ _).
Qed.

Lemma db_profile m w : db (fst (handle_profile m w)) = db w.
Proof.
  unfold handle_profile. destruct (List.filter _ _); [done|].
  match goal with |- context [match ?r with Return _ => _ | Raise _ => _ end] =>
    by destruct r end.
Qed.

Lemma db_report clock X F S m w :
  db (fst (handle_report_cmd clock X F S m w))
  = fst (log_query (clock (ticks w)) (uid (from_user m)) "/report" "command"
                   None (db w)).
Proof.
  unfold handle_report_cmd.
  by destruct (generate_report_from_demo _ _ _ _) as [d [r|e]].
Qed.

(** X28: whatever text arrives, [handle_all] first registers the sender
    and logs the stripped text with source [message]: afterwards the
    sender has a row in [users], the row for the text follows the earlier
    rows of [queries] (a menu label for the report logs a second row
    after it), and [presets] is untouched.  Text that is none of the five
    menu labels is answered with the fallback line. *)
Theorem every_message_is_logged :
  forall (clock : nat -> string) (sample_as_cp1251 : result DataFrame)
         (float_of_text : string -> option Q) (str_float : Q -> string)
         (m : message) (w : world),
    let text := strip (msg_text m) in
    let handled := handle_all clock sample_as_cp1251 float_of_text str_float m w in
    rows_of_user (uid (from_user m)) (db (fst handled)) <> []
    /\ (exists r rest,
          queries (db (fst handled)) = queries (db w) ++ r :: rest
          /\ q_user_id r = Integer (uid (from_user m))
          /\ q_text r = Text text
          /\ q_source r = Text "message")
    /\ presets (db (fst handled)) = presets (db w)
    /\ (~ In text menu_labels ->
        snd handled = Return ()
        /\ outbox (fst handled)
           = outbox w ++ [plain_message (chat_id m)
                            "Не распознано. Используй меню или /help."]).
Proof.
  intros clock X F S m w text handled. subst handled. unfold handle_all.
  fold text.
  set (w2 := do_log_query clock (do_register_user clock w (from_user m))
                          (uid (from_user m)) text "message").
  assert (Hu : rows_of_user (uid (from_user m)) (db w2) <> []).
  { apply existsb_rows. subst w2. cbn [db do_log_query tick set_db fst log_query users].
    unfold do_register_user. cbn [db tick set_db]. apply registered_exists. }
  assert (Hq : exists r,
             queries (db w2) = queries (db w) ++ [r]
             /\ q_user_id r = Integer (uid (from_user m))
             /\ q_text r = Text text /\ q_source r = Text "message").
  { subst w2.
    assert (Hrq : queries (register_user (now clock w) (from_user m) (db w))
                  = queries (db w)).
    { unfold register_user. by destruct (existsb _ (users (db w))). }
    unfold do_log_query, do_register_user. cbn [db tick set_db fst log_query queries].
    rewrite Hrq. eexists. split; [reflexivity|]. by repeat split. }
  assert (Hp : presets (db w2) = presets (db w)).
  { subst w2. unfold do_log_query, do_register_user, register_user. simpl.
    by destruct (existsb _ (users (db w))). }
  assert (Ho : outbox w2 = outbox w) by done.
  clearbody w2. destruct Hq as (r & Hq & Hr).
  assert (Hsame : forall w3, db w3 = db w2 ->
             rows_of_user (uid (from_user m)) (db w3) <> []
             /\ (exists r rest,
                   queries (db w3) = queries (db w) ++ r :: rest
                   /\ q_user_id r = Integer (uid (from_user m))
                   /\ q_text r = Text text /\ q_source r = Text "message")
             /\ presets (db w3) = presets (db w)).
  { intros w3 ->. split; [done|]. split; [|done]. exists r, []. by split. }
  destruct (String.eqb_spec text "📊 Отчёт") as [E1|E1].
  { split; [|split; [|split]].
    - by rewrite db_report.
    - rewrite db_report. cbn [fst log_query queries].
      rewrite Hq, <- app_assoc. by eexists r, [_].
    - by rewrite db_report.
    - intros Hno. destruct Hno. rewrite E1. by left. }
  destruct (String.eqb_spec text "🧠 Пресеты") as [E2|E2].
  { destruct (Hsame w2 eq_refl) as (H1 & H2 & H3). repeat split; try done.
    all: destruct H. rewrite E2. right. by left. }
  destruct (String.eqb_spec text "📜 История") as [E3|E3].
  { destruct (Hsame _ (db_history m w2)) as (H1 & H2 & H3).
    split; [done|]. split; [done|]. split; [done|].
    intros Hno. destruct Hno. rewrite E3. right. right. by left. }
  destruct (String.eqb_spec text "👤 Профиль") as [E4|E4].
  { destruct (Hsame _ (db_profile m w2)) as (H1 & H2 & H3).
    split; [done|]. split; [done|]. split; [done|].
    intros Hno. destruct Hno. rewrite E4. right. right. right. by left. }
  destruct (String.eqb_spec text "❓ Помощь") as [E5|E5].
  { destruct (Hsame w2 eq_refl) as (H1 & H2 & H3).
    split; [done|]. split; [done|]. split; [done|].
    intros Hno. destruct Hno. rewrite E5. right. right. right. right. by left. }
  destruct (Hsame w2 eq_refl) as (H1 & H2 & H3).
  split; [done|]. split; [done|]. split; [done|]. intros _. split; [done|].
  cbn [fst send_plain emit outbox]. by rewrite Ho.
Qed.

(** X29: a news response without articles.  When the response passes
    the status check and is a mapping that has no [articles] entry, or an
    empty list there, [handle_news] answers with the fixed no-news line,
    having logged the topic and sent its one request. *)
Theorem news_without_articles :
  forall (key : option string) (clock : nat -> string)
         (http : nat -> http_request -> http_reply)
         (str_library_exn : exn -> string) (m : message) (w : world)
         (status : Z) (fields : list (string * json)),
    let topic := strip (after_first_space (msg_text m)) in
    configured key = true ->
    topic <> EmptyString ->
    passes status ->
    http (List.length (wire w)) (news_request key topic 5)
    = Response status (Some (JObj fields)) ->
    assoc "articles" fields = None \/ assoc "articles" fields = Some (JArr []) ->
    let handled := handle_news key clock http str_library_exn m w in
    snd handled = Return ()
    /\ outbox (fst handled) = outbox w ++ [no_news_reply m]
    /\ wire (fst handled) = wire w ++ [news_request key topic 5]
    /\ db (fst handled) = db (do_log_query clock w (uid (from_user m)) topic "news").
Proof.
  intros key clock http str_library_exn m w status fields topic Hkey Htopic
         Hpass Hreply Hart handled.
  subst handled. unfold handle_news. fold topic.
  destruct topic as [|c t] eqn:Et; [done|].
  unfold get_news. rewrite Hkey. cbn [negb request].
  change (wire (do_log_query clock w (uid (from_user m)) (String c t) "news"))
    with (wire w).
  unfold news_request in Hreply. rewrite Hreply, (passes_checked _ _ Hpass).
  destruct Hart as [Ha|Ha]; simpl; by rewrite Ha.
Qed.

Lemma news_without_articles_witness :
  snd (handle_news (Some "key") fixed_clock
         (always (Response 200 (Some (JObj [("status", JStr "ok")]))))
         (fun _ => EmptyString) news_msg fresh_world)
  = Return ()
  /\ outbox (fst (handle_news (Some "key") fixed_clock
                    (always (Response 200 (Some (JObj [("status", JStr "ok")]))))
                    (fun _ => EmptyString) news_msg fresh_world))
     = [no_news_reply news_msg].
Proof.
  destruct (news_without_articles (Some "key") fixed_clock
              (always (Response 200 (Some (JObj [("status", JStr "ok")]))))
              (fun _ => EmptyString) news_msg fresh_world 200
              [("status", JStr "ok")]) as (H1 & H2 & _).
  - reflexivity.
  - vm_compute. discriminate.
  - left. lia.
  - reflexivity.
  - by left.
  - split; [exact H1|exact H2].
Defined.

(** X30: a failing service never fails the handler.  When the reply to
    the request is a transport failure, an error status or a body that is
    not JSON, [handle_ask] and [handle_news] return normally and send one
    plain-text reply: their error prefix followed by the escaped text of
    the exception. *)
Theorem service_failures_are_reported :
  forall (key : option string) (clock : nat -> string)
         (http : nat -> http_request -> http_reply) (str_json : json -> string)
         (str_library_exn : exn -> string) (m : message) (w : world)
         (reply : http_reply) (e : exn),
    configured key = true ->
    strip (after_first_space (msg_text m)) <> EmptyString ->
    (forall r, http (List.length (wire w)) r = reply) ->
    failure_of reply = Some e ->
    let asked := handle_ask key clock http str_json str_library_exn m w in
    let searched := handle_news key clock http str_library_exn m w in
    snd asked = Return ()
    /\ outbox (fst asked)
       = outbox w ++ [error_reply m "⚠️ Ошибка при обращении к нейросети: "
                                  (str_exn str_library_exn e)]
    /\ snd searched = Return ()
    /\ outbox (fst searched)
       = outbox w ++ [error_reply m "⚠️ Ошибка при получении новостей: "
                                  (str_exn str_library_exn e)].
Proof.
  intros key clock http str_json str_library_exn m w reply e Hkey Hq Hreply He
         asked searched.
  assert (Hc : checked_json reply = Raise e).
  { destruct reply as [e0|status body]; simpl in *; [congruence|].
    destruct ((400 <=? status) && (status <? 600)); [congruence|].
    destruct body; [done|congruence]. }
  subst asked searched. unfold handle_ask, handle_news.
  destruct (strip (after_first_space (msg_text m))) as [|c q]; [done|].
  unfold ask_neuron, get_news. rewrite Hkey. cbn [negb request].
  change (wire (do_log_query clock w (uid (from_user m)) (String c q) "ask"))
    with (wire w).
  change (wire (do_log_query clock w (uid (from_user m)) (String c q) "news"))
    with (wire w).
  rewrite !Hreply, Hc. by repeat split.
Qed.

Lemma service_failures_are_reported_witness :
  snd (handle_ask (Some "key") fixed_clock unreachable (fun _ => EmptyString)
                  (fun _ => "connection refused") ask_bold fresh_world)
  = Return ()
  /\ outbox (fst (handle_ask (Some "key") fixed_clock unreachable
                    (fun _ => EmptyString) (fun _ => "connection refused")
                    ask_bold fresh_world))
     = [error_reply ask_bold "⚠️ Ошибка при обращении к нейросети: "
                    "connection refused"].
Proof.
  destruct (service_failures_are_reported (Some "key") fixed_clock unreachable
              (fun _ => EmptyString) (fun _ => "connection refused")
              ask_bold fresh_world (Failed RequestException) RequestException)
    as (H1 & H2 & _).
  - reflexivity.
  - vm_compute. discriminate.
  - reflexivity.
  - reflexivity.
  - split; [exact H1|exact H2].
Defined.

(** ** The further properties on concrete inputs *)

Example legacy_preset_breaks_the_list :
  handle_preset_list preset_list_msg (set_db fresh_world legacy_preset)
  = (set_db fresh_world legacy_preset, Raise TypeError).
Proof. reflexivity. Qed.

Example null_content_raises :
  let handled := handle_ask (Some "key") fixed_clock
                   (always (Response 200 (Some null_content)))
                   (fun _ => EmptyString) (fun _ => EmptyString)
                   ask_bold fresh_world in
  snd handled = Raise AttributeError
  /\ outbox (fst handled) = []
  /\ List.length (wire (fst handled)) = 1%nat
  /\ List.length (queries (db (fst handled))) = 1%nat.
Proof. vm_compute. by repeat split. Qed.

Example untitled_article_gets_placeholder :
  map body (outbox (fst (handle_news (Some "key") fixed_clock
                           (always (Response 200 (Some untitled_news)))
                           (fun _ => EmptyString) news_msg fresh_world)))
  = ["Без заголовка" +:+ nl +:+ "https://example.org/a?b=1&amp;c=2"].
Proof. vm_compute. reflexivity. Qed.

Example free_text_is_logged_stripped :
  let w := fst (handle_all fixed_clock (Raise OtherException) no_number
                           (fun _ => EmptyString) chat_msg fresh_world) in
  map q_text (queries (db w)) = [Text "hello there"]
  /\ map fullname (users (db w)) = [Text "Bob"]
  /\ map body (outbox w) = ["Не распознано. Используй меню или /help."].
Proof. vm_compute. by repeat split. Qed.
